(** * Vital-sign simulation and status classification

    A shallow embedding of the simulation core of the realtime dashboard:
    - [features/dashboard/utils/vital-generation.ts]
    - [features/dashboard/utils/vital-thresholds.ts]
    - [stores/vitals-store.ts]
    and of the code around it that computes: [calculateTrend] of
    [features/dashboard/components/vital-indicator.tsx], the sorting, the
    counts and the start-up effect of [routes/_authenticated/dashboard.tsx],
    the merge of patients and vitals of [hooks/use-patients.ts], and the
    patient store of [lib/patient-mock-api.ts].

    Modelling conventions.
    - A JavaScript [number] that carries a measurement is a rational [Q]
      with exact arithmetic: there is no NaN, no infinity and no rounding,
      so "finite value" is "any [Q]".  A bound that the exact arithmetic
      meets with equality is therefore stated with a margin, which the
      rounding of the code cannot use up.  Timestamps, interval lengths
      and counts are integers [Z], as [Date.now()] produces them.
    - [Math.random()], [Date.now()] and the transcendental functions of
      [Math] are the interface [JsRuntime]: the k-th call of
      [Math.random()] returns [random_draw k], the k-th call of
      [Date.now()] returns [clock_read k].  The [World] counts the calls
      made so far and collects what was written with [console.warn].
    - Code that reads the runtime is written in the state monad [Js];
      code that contains the resampling loop of [gaussianRandom] takes a
      bound on the number of loop iterations and lives in [JsLoop], where
      [None] means that the bound was reached.
    - The zustand store is the record [VitalsState]; [set] merges a
      partial state into it. *)

From Stdlib Require Import QArith Qminmax Qabs Lqa ZArith List.
From stdpp Require Import gmap strings list.

Local Open Scope Q_scope.

(** ** Runtime *)

Class JsRuntime := {
  random_draw : nat -> Q;
  clock_read : nat -> Z;
  Math_sqrt : Q -> Q;
  Math_log : Q -> Q;
  Math_cos : Q -> Q;
  Math_PI : Q
}.

Record World := mkWorld {
  rand_calls : nat;
  now_calls : nat;
  console : list string
}.

Definition Js (A : Type) : Type := World -> A * World.

Definition ret {A} (a : A) : Js A := fun w => (a, w).

Definition bind {A B} (c : Js A) (k : A -> Js B) : Js B :=
  fun w => let (a, w') := c w in k a w'.

Definition JsLoop (A : Type) : Type := World -> option (A * World).

Definition retL {A} (a : A) : JsLoop A := fun w => Some (a, w).

Definition bindL {A B} (c : JsLoop A) (k : A -> JsLoop B) : JsLoop B :=
  fun w => match c w with
           | Some (a, w') => k a w'
           | None => None
           end.

Definition lift {A} (c : Js A) : JsLoop A := fun w => Some (c w).

Declare Scope js_scope.
Delimit Scope js_scope with js.
Notation "x <- c ;; k" := (bind c (fun x => k))
  (at level 100, c at next level, right associativity) : js_scope.
Notation "x <~ c ;; k" := (bindL c (fun x => k))
  (at level 100, c at next level, right associativity) : js_scope.
Local Open Scope js_scope.

Section Runtime.
Context {rt : JsRuntime}.

Definition Math_random : Js Q :=
  fun w => (random_draw (rand_calls w),
            mkWorld (S (rand_calls w)) (now_calls w) (console w)).

Definition Date_now : Js Z :=
  fun w => (clock_read (now_calls w),
            mkWorld (rand_calls w) (S (now_calls w)) (console w)).

Definition console_warn (msg : string) : Js unit :=
  fun w => (tt, mkWorld (rand_calls w) (now_calls w) (console w ++ [msg])).

End Runtime.

Definition Qgtb (x y : Q) : bool := QMicromega.Qlt_bool y x.
Definition Qltb (x y : Q) : bool := QMicromega.Qlt_bool x y.

(** ** types/patient.ts *)

Inductive PatientStatus := stable | warning | critical.

Module Trend.
Inductive t := normal | warning | critical.
End Trend.

Record VitalSign := mkVitalSign {
  timestamp : Z;
  value : Q
}.

Inductive VitalType := heartRate | systolic | diastolic | spo2 | temperature.

Module VitalSigns.
Record t := mk {
  heartRate : list VitalSign;
  systolic : list VitalSign;
  diastolic : list VitalSign;
  spo2 : list VitalSign;
  temperature : list VitalSign
}.
End VitalSigns.

(** [vitals[vitalType]] *)
Definition getSigns (vitals : VitalSigns.t) (vitalType : VitalType) : list VitalSign :=
  match vitalType with
  | heartRate => VitalSigns.heartRate vitals
  | systolic => VitalSigns.systolic vitals
  | diastolic => VitalSigns.diastolic vitals
  | spo2 => VitalSigns.spo2 vitals
  | temperature => VitalSigns.temperature vitals
  end.

(** [vitals[vitalType] = signs] *)
Definition setSigns (vitals : VitalSigns.t) (vitalType : VitalType)
    (signs : list VitalSign) : VitalSigns.t :=
  let '(VitalSigns.mk hr sy di sp te) := vitals in
  match vitalType with
  | heartRate => VitalSigns.mk signs sy di sp te
  | systolic => VitalSigns.mk hr signs di sp te
  | diastolic => VitalSigns.mk hr sy signs sp te
  | spo2 => VitalSigns.mk hr sy di signs te
  | temperature => VitalSigns.mk hr sy di sp signs
  end.

Module VitalThreshold.
Record t := mk {
  normal : Q * Q;
  warning : Q * Q;
  critical : Q * Q
}.
End VitalThreshold.

(** ** vital-generation.ts *)

Module VitalRange.
Record t := mk { mean : Q; stdDev : Q; min : Q; max : Q }.
End VitalRange.

Definition VITAL_RANGES (vitalType : VitalType) : VitalRange.t :=
  match vitalType with
  | heartRate => VitalRange.mk 75 8 45 150
  | systolic => VitalRange.mk 120 10 80 180
  | diastolic => VitalRange.mk 80 8 50 110
  | spo2 => VitalRange.mk 98 1.5 85 100
  | temperature => VitalRange.mk 36.8 0.3 35.0 40.0
  end.

Section Generation.
Context {rt : JsRuntime}.

(** [while (u1 === 0) { u1 = Math.random() }], at most [fuel] iterations. *)
Fixpoint resample (fuel : nat) (u1 : Q) : JsLoop Q :=
  fun w =>
    if Qeq_bool u1 0 then
      match fuel with
      | O => None
      | S fuel' => let (u, w') := Math_random w in resample fuel' u w'
      end
    else Some (u1, w).

Definition gaussianRandom (fuel : nat) (mean stdDev : Q) : JsLoop Q :=
  u1 <~ lift Math_random ;;
  u1 <~ resample fuel u1 ;;
  u2 <~ lift Math_random ;;
  let z0 := Math_sqrt (- 2.0 * Math_log u1) * Math_cos (2.0 * Math_PI * u2) in
  retL (z0 * stdDev + mean).

Definition clamp (value min max : Q) : Q := Qmax min (Qmin max value).

(** The local [warningMean] of [generateBaselineValue]; [r] is the value
    of the [Math.random()] call in its initialiser. *)
Definition warningMean (range : VitalRange.t) (r : Q) : Q :=
  if Qgtb r 0.5 then VitalRange.mean range * 1.15 else VitalRange.mean range * 0.9.

(** The local [criticalMean] of [generateBaselineValue]. *)
Definition criticalMean (range : VitalRange.t) (r : Q) : Q :=
  if Qgtb r 0.5 then VitalRange.mean range * 1.3 else VitalRange.mean range * 0.8.

Definition generateBaselineValue (fuel : nat) (vitalType : VitalType)
    (trend : Trend.t) : JsLoop Q :=
  let range := VITAL_RANGES vitalType in
  value <~ match trend with
           | Trend.normal =>
               gaussianRandom fuel (VitalRange.mean range) (VitalRange.stdDev range)
           | Trend.warning =>
               r <~ lift Math_random ;;
               gaussianRandom fuel (warningMean range r) (VitalRange.stdDev range * 1.2)
           | Trend.critical =>
               r <~ lift Math_random ;;
               gaussianRandom fuel (criticalMean range r) (VitalRange.stdDev range * 1.5)
           end ;;
  retL (clamp value (VitalRange.min range) (VitalRange.max range)).

(** The local [warningTarget] of [generateVitalUpdate]. *)
Definition warningTarget (range : VitalRange.t) (r : Q) : Q :=
  if Qgtb r 0.5 then VitalRange.mean range * 1.12 else VitalRange.mean range * 0.92.

(** The local [criticalTarget] of [generateVitalUpdate]. *)
Definition criticalTarget (range : VitalRange.t) (r : Q) : Q :=
  if Qgtb r 0.5 then VitalRange.max range * 0.85 else VitalRange.min range * 1.15.

Definition driftStrength : Q := 0.08.

(** The [switch (trendBias)] of [generateVitalUpdate]: the value of
    [drift] when the switch is left. *)
Definition driftFor (range : VitalRange.t) (currentValue : Q)
    (trendBias : Trend.t) : Js Q :=
  match trendBias with
  | Trend.normal =>
      ret ((VitalRange.mean range - currentValue) * driftStrength * 1.5)
  | Trend.warning =>
      p <- Math_random ;;
      if Qltb p 0.05 then
        r <- Math_random ;;
        ret ((warningTarget range r - currentValue) * driftStrength)
      else
        ret ((VitalRange.mean range - currentValue) * driftStrength * 0.8)
  | Trend.critical =>
      p <- Math_random ;;
      if Qltb p 0.08 then
        r <- Math_random ;;
        ret ((criticalTarget range r - currentValue) * driftStrength * 1.5)
      else
        ret ((VitalRange.mean range - currentValue) * driftStrength * 0.5)
  end.

(** [nextValue] of [generateVitalUpdate], before it is clamped. *)
Definition nextValue (currentValue : Q) (vitalType : VitalType)
    (trendBias : Trend.t) : Js Q :=
  let range := VITAL_RANGES vitalType in
  u <- Math_random ;;
  let variation := currentValue * 0.015 * (u * 2 - 1) in
  drift <- driftFor range currentValue trendBias ;;
  ret (currentValue + variation + drift).

Definition generateVitalUpdate (currentValue : Q) (vitalType : VitalType)
    (trendBias : Trend.t) : Js Q :=
  let range := VITAL_RANGES vitalType in
  next <- nextValue currentValue vitalType trendBias ;;
  ret (clamp next (VitalRange.min range) (VitalRange.max range)).

(** The [for] loop of [generateVitalHistory]: [todo] iterations remain,
    [i] is the loop index, [history] the array built so far. *)
Fixpoint historyLoop (todo : nat) (i count intervalMs now : Z)
    (vitalType : VitalType) (trend : Trend.t) (currentValue : Q)
    (history : list VitalSign) : Js (list VitalSign) :=
  match todo with
  | O => ret history
  | S todo' =>
      let timestamp := (now - (count - i - 1) * intervalMs)%Z in
      let history' := history ++ [mkVitalSign timestamp currentValue] in
      if (i <? count - 1)%Z then
        next <- generateVitalUpdate currentValue vitalType trend ;;
        historyLoop todo' (i + 1)%Z count intervalMs now vitalType trend next history'
      else
        historyLoop todo' (i + 1)%Z count intervalMs now vitalType trend
          currentValue history'
  end.

Definition generateVitalHistory (fuel : nat) (vitalType : VitalType)
    (count intervalMs : Z) (trend : Trend.t) : JsLoop (list VitalSign) :=
  now <~ lift Date_now ;;
  currentValue <~ generateBaselineValue fuel vitalType trend ;;
  lift (historyLoop (Z.to_nat count) 0%Z count intervalMs now vitalType trend
          currentValue []).

Definition initializeAllVitals (fuel : nat) (patientTrend : Trend.t)
    : JsLoop VitalSigns.t :=
  hr <~ generateVitalHistory fuel heartRate 10 30000 patientTrend ;;
  sy <~ generateVitalHistory fuel systolic 10 30000 patientTrend ;;
  di <~ generateVitalHistory fuel diastolic 10 30000 patientTrend ;;
  sp <~ generateVitalHistory fuel spo2 10 30000 patientTrend ;;
  te <~ generateVitalHistory fuel temperature 10 30000 patientTrend ;;
  retL (VitalSigns.mk hr sy di sp te).

End Generation.

(** ** vital-thresholds.ts *)

Definition THRESHOLDS (vitalType : VitalType) : VitalThreshold.t :=
  match vitalType with
  | heartRate => VitalThreshold.mk (60, 100) (50, 120) (0, 200)
  | systolic => VitalThreshold.mk (90, 140) (80, 160) (0, 300)
  | diastolic => VitalThreshold.mk (60, 90) (50, 100) (0, 200)
  | spo2 => VitalThreshold.mk (95, 100) (90, 95) (0, 90)
  | temperature => VitalThreshold.mk (36.0, 37.5) (35.5, 38.5) (0, 50)
  end.

Definition getVitalStatus (value : Q) (vitalType : VitalType) : PatientStatus :=
  let threshold := THRESHOLDS vitalType in
  if Qle_bool (fst (VitalThreshold.normal threshold)) value
     && Qle_bool value (snd (VitalThreshold.normal threshold))
  then stable
  else if Qle_bool (fst (VitalThreshold.warning threshold)) value
          && Qle_bool value (snd (VitalThreshold.warning threshold))
  then warning
  else critical.

(** The helper [getCurrentValue] of [calculatePatientStatus]; [null] is
    [None]. *)
Definition getCurrentValue (signs : list VitalSign) : option Q :=
  if (length signs =? 0)%nat then None
  else match last signs with
       | Some lastSign => Some (value lastSign)
       | None => None
       end.

Definition PatientStatus_eqb (a b : PatientStatus) : bool :=
  match a, b with
  | stable, stable | warning, warning | critical, critical => true
  | _, _ => false
  end.

(** [statuses.includes(s)] *)
Definition includes (statuses : list PatientStatus) (s : PatientStatus) : bool :=
  existsb (PatientStatus_eqb s) statuses.

(** [if (v !== null) statuses.push(getVitalStatus(v, vitalType))] *)
Definition pushStatus (statuses : list PatientStatus) (v : option Q)
    (vitalType : VitalType) : list PatientStatus :=
  match v with
  | Some x => statuses ++ [getVitalStatus x vitalType]
  | None => statuses
  end.

Definition calculatePatientStatus (vitals : VitalSigns.t) : PatientStatus :=
  let v_heartRate := getCurrentValue (VitalSigns.heartRate vitals) in
  let v_systolic := getCurrentValue (VitalSigns.systolic vitals) in
  let v_diastolic := getCurrentValue (VitalSigns.diastolic vitals) in
  let v_spo2 := getCurrentValue (VitalSigns.spo2 vitals) in
  let v_temperature := getCurrentValue (VitalSigns.temperature vitals) in
  let hasAnyData :=
    existsb (fun v : option Q => match v with Some _ => true | None => false end)
      [v_heartRate; v_systolic; v_diastolic; v_spo2; v_temperature] in
  if negb hasAnyData then stable
  else
    let statuses := [] in
    let statuses := pushStatus statuses v_heartRate heartRate in
    let statuses := pushStatus statuses v_systolic systolic in
    let statuses := pushStatus statuses v_diastolic diastolic in
    let statuses := pushStatus statuses v_spo2 spo2 in
    let statuses := pushStatus statuses v_temperature temperature in
    if includes statuses critical then critical
    else if includes statuses warning then warning
    else stable.

Definition getLatestValue (signs : list VitalSign) : Q :=
  if (length signs =? 0)%nat then 0
  else match last signs with
       | Some lastSign => value lastSign
       | None => 0
       end.

(** ** vitals-store.ts *)

Record VitalsState := mkState {
  patientVitals : gmap string VitalSigns.t;
  isSimulating : bool;
  simulationInterval : option Z
}.

(** What an updater hands to zustand's [set]: the fields it names. *)
Record Partial := mkPartial {
  p_patientVitals : option (gmap string VitalSigns.t);
  p_isSimulating : option bool;
  p_simulationInterval : option (option Z)
}.

(** [set] merges the fields of the partial state over the current one. *)
Definition merge (state : VitalsState) (p : Partial) : VitalsState :=
  mkState (default (patientVitals state) (p_patientVitals p))
          (default (isSimulating state) (p_isSimulating p))
          (default (simulationInterval state) (p_simulationInterval p)).

(** An updater that returns [state] itself names every field. *)
Definition whole (state : VitalsState) : Partial :=
  mkPartial (Some (patientVitals state)) (Some (isSimulating state))
            (Some (simulationInterval state)).

Definition MAX_HISTORY_POINTS : nat := 10.

Definition vitalTypes : list VitalType :=
  [heartRate; systolic; diastolic; spo2; temperature].

Section Store.
Context {rt : JsRuntime}.

Definition initializeVitals (fuel : nat) (patientId : string)
    (initialTrend : Trend.t) (state : VitalsState) : JsLoop VitalsState :=
  let newVitals := patientVitals state in
  vitals <~ initializeAllVitals fuel initialTrend ;;
  let newVitals := <[patientId := vitals]> newVitals in
  retL (merge state (mkPartial (Some newVitals) None None)).

(** [[...currentSigns, newSign]] followed by the conditional [shift()]. *)
Definition pushSign (currentSigns : list VitalSign) (newSign : VitalSign)
    : list VitalSign :=
  let updatedSigns := currentSigns ++ [newSign] in
  if (MAX_HISTORY_POINTS <? length updatedSigns)%nat then tail updatedSigns
  else updatedSigns.

(** The body of [vitalTypes.forEach] in [updateVitals]. *)
Definition updateOne (currentVitals : VitalSigns.t) (trendBias : Trend.t)
    (updatedVitals : VitalSigns.t) (vitalType : VitalType) : Js VitalSigns.t :=
  let currentSigns := getSigns currentVitals vitalType in
  let lastValue := match last currentSigns with
                   | Some lastSign => value lastSign
                   | None => 0
                   end in
  newValue <- generateVitalUpdate lastValue vitalType trendBias ;;
  now <- Date_now ;;
  let newSign := mkVitalSign now newValue in
  ret (setSigns updatedVitals vitalType (pushSign currentSigns newSign)).

Fixpoint forEach {A S} (xs : list A) (body : S -> A -> Js S) (acc : S) : Js S :=
  match xs with
  | [] => ret acc
  | x :: xs' => acc' <- body acc x ;; forEach xs' body acc'
  end.

Definition updateVitals (patientId : string) (state : VitalsState)
    : Js VitalsState :=
  let newVitals := patientVitals state in
  match newVitals !! patientId with
  | None =>
      _ <- console_warn ("No vitals found for patient " ++ patientId) ;;
      ret (merge state (whole state))
  | Some currentVitals =>
      let currentStatus := calculatePatientStatus currentVitals in
      let trendBias := match currentStatus with
                       | stable => Trend.normal
                       | warning => Trend.warning
                       | critical => Trend.critical
                       end in
      updatedVitals <- forEach vitalTypes (updateOne currentVitals trendBias)
                         currentVitals ;;
      let newVitals := <[patientId := updatedVitals]> newVitals in
      ret (merge state (mkPartial (Some newVitals) None None))
  end.

(** The interval callback of [startSimulation]:
    [patientIds.forEach((patientId) => get().updateVitals(patientId))]. *)
Definition tick (patientIds : list string) (state : VitalsState)
    : Js VitalsState :=
  forEach patientIds (fun st patientId => updateVitals patientId st) state.

End Store.

(** ** Runtimes and predicates used in the statements *)

(** The value lies within the configured bounds of the vital type. *)
Definition inRange (vitalType : VitalType) (v : Q) : Prop :=
  VitalRange.min (VITAL_RANGES vitalType) <= v
  /\ v <= VitalRange.max (VITAL_RANGES vitalType).

(** The value lies within the band [[lo, hi]], endpoints included. *)
Definition inBand (band : Q * Q) (v : Q) : Prop :=
  fst band <= v /\ v <= snd band.

(** The latest classified status of a vital type, when it has a sample. *)
Definition latestStatus (vitals : VitalSigns.t) (vitalType : VitalType)
    : option PatientStatus :=
  (fun s => getVitalStatus (value s) vitalType) <$> last (getSigns vitals vitalType).

(** The timestamps of a series do not decrease in insertion order. *)
Definition nondecreasing (signs : list VitalSign) : Prop :=
  forall i j a b,
    (i <= j)%nat -> signs !! i = Some a -> signs !! j = Some b ->
    (timestamp a <= timestamp b)%Z.

(** The invariant of a stored series, seen when [Date.now()] has been
    called [k] times: at most [MAX_HISTORY_POINTS] samples, timestamps in
    order, none later than the next clock reading. *)
Definition seriesOk {rt : JsRuntime} (k : nat) (signs : list VitalSign) : Prop :=
  (length signs <= MAX_HISTORY_POINTS)%nat
  /\ nondecreasing signs
  /\ Forall (fun s => (timestamp s <= clock_read k)%Z) signs.

(** The patient has a bundle and every series of it satisfies [seriesOk]
    at the current clock position. *)
Definition bundleOk {rt : JsRuntime} (patientId : string) (state : VitalsState)
    (w : World) : Prop :=
  exists vitals,
    patientVitals state !! patientId = Some vitals
    /\ forall vitalType, seriesOk (now_calls w) (getSigns vitals vitalType).

(** [Math.random()] does not return 0 forever: after any number of calls
    a later call returns a non-zero value. *)
Definition random_not_stuck (rt : JsRuntime) : Prop :=
  forall n : nat, exists k : nat, ~ random_draw (n + k) == 0.

(** Successive readings of [Date.now()] never go back. *)
Definition clock_monotone (rt : JsRuntime) : Prop :=
  forall i j : nat, (i <= j)%nat -> (clock_read i <= clock_read j)%Z.

(** Rational stand-ins for the functions of [Math], good enough to run
    the generator on concrete draws: a truncated series for the cosine
    and for the logarithm, three Newton steps for the square root. *)
Definition approx_cos (x : Q) : Q := 1 - x * x / 2 + x * x * x * x / 24.

Definition approx_log (x : Q) : Q :=
  let y := (x - 1) / (x + 1) in 2 * (y + y * y * y / 3).

Definition approx_sqrt (x : Q) : Q :=
  let step := fun g : Q => (g + x / g) / 2 in
  if Qle_bool x 0 then 0 else Qred (step (Qred (step (Qred (step 1))))).

(** A runtime that replays the given draws and clock readings; calls past
    the end of a script return [1/2] and the last reading plus the number
    of calls. *)
Definition scripted (draws : list Q) (readings : list Z) : JsRuntime :=
  {| random_draw := fun k => nth k draws (1 # 2);
     clock_read := fun k => nth k readings (List.last readings 0 + Z.of_nat k)%Z;
     Math_sqrt := approx_sqrt;
     Math_log := approx_log;
     Math_cos := approx_cos;
     Math_PI := 3.14159 |}.

Definition world0 : World := mkWorld 0 0 [].

(** A clock that is set back between the initialisation and the first
    update: the first five readings are 100000, the later ones 50. *)
Definition clockSetBack : JsRuntime :=
  scripted [] [100000; 100000; 100000; 100000; 100000; 50; 50; 50; 50; 50]%Z.

(** ** The specification's wording of the generator

    These definitions follow the sentences of the specification, not the
    source; they are what the source is compared with. *)

(** "warning regime: shift the sampling mean to +-(15%) of the nominal
    mean and widen stdDev by x1.2; critical regime: shift sampling mean to
    +-(30%) of nominal mean, widen stdDev by x1.5".  [up] is the direction
    of the shift. *)
Definition spec_baselineMean (range : VitalRange.t) (trend : Trend.t)
    (up : bool) : Q :=
  let m := VitalRange.mean range in
  match trend with
  | Trend.normal => m
  | Trend.warning => if up then m + 0.15 * m else m - 0.15 * m
  | Trend.critical => if up then m + 0.30 * m else m - 0.30 * m
  end.

Definition spec_baselineStdDev (range : VitalRange.t) (trend : Trend.t) : Q :=
  let s := VitalRange.stdDev range in
  match trend with
  | Trend.normal => s
  | Trend.warning => s * 1.2
  | Trend.critical => s * 1.5
  end.

(** The baseline of the specification for the standard normal deviate
    [z0]: the Gaussian sample, clamped. *)
Definition spec_baseline (range : VitalRange.t) (trend : Trend.t) (up : bool)
    (z0 : Q) : Q :=
  clamp (z0 * spec_baselineStdDev range trend + spec_baselineMean range trend up)
        (VitalRange.min range) (VitalRange.max range).

(** "warning: with probability 0.05 the target becomes (+-12% of mean,
    direction random) with multiplier x1.0; otherwise target = nominal
    mean with multiplier x0.8.  critical: with probability 0.08 the target
    becomes (85% of max or 115% of min, direction random) with multiplier
    x1.5; otherwise target = nominal mean with multiplier x0.5".  [jump]
    says that the event of probability 0.05 (0.08) happened, [up] is the
    direction. *)
Definition spec_driftTarget (range : VitalRange.t) (trend : Trend.t)
    (jump up : bool) : Q :=
  let m := VitalRange.mean range in
  match trend with
  | Trend.normal => m
  | Trend.warning =>
      if jump then (if up then m + 0.12 * m else m - 0.12 * m) else m
  | Trend.critical =>
      if jump then
        (if up then 0.85 * VitalRange.max range else 1.15 * VitalRange.min range)
      else m
  end.

Definition spec_driftMultiplier (trend : Trend.t) (jump : bool) : Q :=
  match trend with
  | Trend.normal => 1.5
  | Trend.warning => if jump then 1.0 else 0.8
  | Trend.critical => if jump then 1.5 else 0.5
  end.

(** "next = current + noise + drift", with noise = current x 0.015 x [u]
    for [u] drawn from U(-1,1). *)
Definition spec_next (current : Q) (range : VitalRange.t) (trend : Trend.t)
    (u : Q) (jump up : bool) : Q :=
  current + current * 0.015 * u
  + (spec_driftTarget range trend jump up - current) * 0.08
    * spec_driftMultiplier trend jump.

Section SpecHistory.
Context {rt : JsRuntime}.

(** "each subsequent = advance(previous, ...)": the [n] values that
    follow [previous]. *)
Fixpoint advanceChain (n : nat) (previous : Q) (vitalType : VitalType)
    (trend : Trend.t) : Js (list Q) :=
  match n with
  | O => ret []
  | S n' =>
      v <- generateVitalUpdate previous vitalType trend ;;
      rest <- advanceChain n' v vitalType trend ;;
      ret (v :: rest)
  end.

(** "[count] samples spaced [intervalMs] apart ending at now". *)
Definition spec_timestamps (first count : nat) (total intervalMs now : Z) : list Z :=
  map (fun i => (now - (total - Z.of_nat i - 1) * intervalMs)%Z) (seq first count).

(** "first sample = baseline(...), each subsequent = advance(previous, ...)". *)
Definition spec_history (fuel : nat) (vitalType : VitalType) (count : nat)
    (intervalMs : Z) (trend : Trend.t) : JsLoop (list VitalSign) :=
  now <~ lift Date_now ;;
  first <~ generateBaselineValue fuel vitalType trend ;;
  rest <~ lift (advanceChain (count - 1) first vitalType trend) ;;
  retL (zip_with mkVitalSign
          (spec_timestamps 0 count (Z.of_nat count) intervalMs now)
          (first :: rest)).

End SpecHistory.

(** ** vitals-store.ts: the remaining actions

    The timers of the browser are part of the state the store acts on:
    [setInterval] hands out the handle [next_timer] and records the delay
    and the callback, [clearInterval] forgets a handle.  The only callback
    the store registers is
    [() => patientIds.forEach((patientId) => get().updateVitals(patientId))],
    which is determined by the [patientIds] it captures. *)

Definition SIMULATION_INTERVAL : Z := 2500.

Record Browser := mkBrowser {
  world : World;
  timers : gmap Z (Z * list string);
  next_timer : Z
}.

Definition setInterval (patientIds : list string) (ms : Z) (b : Browser)
    : Z * Browser :=
  (next_timer b,
   mkBrowser (world b) (<[next_timer b := (ms, patientIds)]> (timers b))
             (next_timer b + 1)).

Definition clearInterval (handle : Z) (b : Browser) : Browser :=
  mkBrowser (world b) (delete handle (timers b)) (next_timer b).

Definition stopSimulation (state : VitalsState) (b : Browser)
    : VitalsState * Browser :=
  let b' := match simulationInterval state with
            | Some handle => clearInterval handle b
            | None => b
            end in
  (merge state (mkPartial None (Some false) (Some None)), b').

Definition clearVitals (state : VitalsState) : VitalsState :=
  merge state (mkPartial (Some ∅) None None).

Definition getPatientVitals (patientId : string) (state : VitalsState)
    : option VitalSigns.t :=
  patientVitals state !! patientId.

Section StoreActions.
Context {rt : JsRuntime}.

(** The first [patientIds.forEach] of [startSimulation]: patients without
    vitals are initialised with the normal trend. *)
Fixpoint initializeMissing (fuel : nat) (patientIds : list string)
    (state : VitalsState) : JsLoop VitalsState :=
  match patientIds with
  | [] => retL state
  | patientId :: rest =>
      state' <~ match patientVitals state !! patientId with
                | None => initializeVitals fuel patientId Trend.normal state
                | Some _ => retL state
                end ;;
      initializeMissing fuel rest state'
  end.

Definition startSimulation (fuel : nat) (patientIds : list string)
    (state : VitalsState) (b : Browser) : option (VitalsState * Browser) :=
  let (state1, b1) := match simulationInterval state with
                      | Some _ => stopSimulation state b
                      | None => (state, b)
                      end in
  match initializeMissing fuel patientIds state1 (world b1) with
  | None => None
  | Some (state2, w2) =>
      let (interval, b3) :=
        setInterval patientIds SIMULATION_INTERVAL
          (mkBrowser w2 (timers b1) (next_timer b1)) in
      Some (merge state2 (mkPartial None (Some true) (Some (Some interval))), b3)
  end.

(** The browser fires the timer [handle]: its callback runs if the timer
    is still registered. *)
Definition fire (handle : Z) (state : VitalsState) (b : Browser)
    : VitalsState * Browser :=
  match timers b !! handle with
  | Some (_, patientIds) =>
      let (state', w') := tick patientIds state (world b) in
      (state', mkBrowser w' (timers b) (next_timer b))
  | None => (state, b)
  end.

End StoreActions.

(** ** components/vital-indicator.tsx *)

Module VitalIndicator.

Inductive Trend := up | down | stable.

Definition calculateTrend (signs : list VitalSign) : Trend :=
  if (length signs <? 2)%nat then stable
  else
    let recent := drop (length signs - 3) signs in
    match head recent, last recent with
    | Some firstReading, Some lastReading =>
        let diff := value lastReading - value firstReading in
        let firstValue := value firstReading in
        let threshold := Qabs (firstValue * 0.02) in
        if Qltb (Qabs diff) threshold then stable
        else if Qgtb diff 0 then up else down
    | _, _ => stable
    end.

End VitalIndicator.

(** ** hooks/use-patients.ts and routes/_authenticated/dashboard.tsx *)

Module Patient.
Record t := mk {
  id : string;
  name : string;
  age : Z;
  bedNumber : string;
  assignedNurse : string;
  status : PatientStatus;
  admissionDate : string;
  diagnosis : string;
  createdAt : string
}.
End Patient.

Module PatientWithVitals.
Record t := mk {
  patient : Patient.t;
  vitals : VitalSigns.t;
  lastUpdated : Z
}.
End PatientWithVitals.

Definition createEmptyVitals : VitalSigns.t := VitalSigns.mk [] [] [] [] [].

(** The object built for each patient in the query functions of
    [use-patients.ts]:
    [{...patient, vitals: patientVitals.get(patient.id) || createEmptyVitals(),
      lastUpdated: Date.now()}]; [now] is the reading of [Date.now()]. *)
Definition withVitals (patientVitals : gmap string VitalSigns.t)
    (patient : Patient.t) (now : Z) : PatientWithVitals.t :=
  PatientWithVitals.mk patient
    (match patientVitals !! Patient.id patient with
     | Some vitals => vitals
     | None => createEmptyVitals
     end)
    now.

(** [{ ...p, status: calculatePatientStatus(p.vitals) }] *)
Definition withStatus (p : PatientWithVitals.t) : PatientWithVitals.t :=
  let q := PatientWithVitals.patient p in
  PatientWithVitals.mk
    (Patient.mk (Patient.id q) (Patient.name q) (Patient.age q)
       (Patient.bedNumber q) (Patient.assignedNurse q)
       (calculatePatientStatus (PatientWithVitals.vitals p))
       (Patient.admissionDate q) (Patient.diagnosis q) (Patient.createdAt q))
    (PatientWithVitals.vitals p) (PatientWithVitals.lastUpdated p).

Definition statusOf (p : PatientWithVitals.t) : PatientStatus :=
  Patient.status (PatientWithVitals.patient p).

(** [const priority = { critical: 0, warning: 1, stable: 2 }] *)
Definition priority (status : PatientStatus) : Z :=
  match status with
  | critical => 0
  | warning => 1
  | stable => 2
  end.

(** The comparator of the dashboard: [priority[a.status] - priority[b.status]]. *)
Definition byPriority (a b : PatientWithVitals.t) : Z :=
  (priority (statusOf a) - priority (statusOf b))%Z.

(** [Array.prototype.sort] is stable: elements that compare equal keep
    their order.  For a comparator that orders the elements consistently
    this fixes the result, which is computed here by insertion from the
    right. *)
Fixpoint insertSorted {A} (compareFn : A -> A -> Z) (x : A) (l : list A) : list A :=
  match l with
  | [] => [x]
  | y :: l' =>
      if (compareFn x y <=? 0)%Z then x :: y :: l'
      else y :: insertSorted compareFn x l'
  end.

Fixpoint Array_sort {A} (compareFn : A -> A -> Z) (l : list A) : list A :=
  match l with
  | [] => []
  | x :: l' => insertSorted compareFn x (Array_sort compareFn l')
  end.

Definition sortedPatients (patients : list PatientWithVitals.t)
    : list PatientWithVitals.t :=
  Array_sort byPriority (map withStatus patients).

Definition hasStatus (status : PatientStatus) (p : PatientWithVitals.t) : bool :=
  PatientStatus_eqb (statusOf p) status.

Definition criticalCount (sorted : list PatientWithVitals.t) : Z :=
  Z.of_nat (length (filter (fun p => hasStatus critical p = true) sorted)).

Definition warningCount (sorted : list PatientWithVitals.t) : Z :=
  Z.of_nat (length (filter (fun p => hasStatus warning p = true) sorted)).

Definition stableCount (sorted : list PatientWithVitals.t) : Z :=
  (Z.of_nat (length sorted) - criticalCount sorted - warningCount sorted)%Z.

Section Dashboard.
Context {rt : JsRuntime}.

(** The trend chosen for a patient in the effect of the dashboard. *)
Definition trendFor (p : PatientWithVitals.t) : Trend.t :=
  match statusOf p with
  | critical => Trend.critical
  | warning => Trend.warning
  | stable => Trend.normal
  end.

(** [patients.forEach((p) => { ... initializeVitals(p.id, trend) })] *)
Fixpoint initializeEach (fuel : nat) (patients : list PatientWithVitals.t)
    (state : VitalsState) : JsLoop VitalsState :=
  match patients with
  | [] => retL state
  | p :: rest =>
      state' <~ initializeVitals fuel (Patient.id (PatientWithVitals.patient p))
                  (trendFor p) state ;;
      initializeEach fuel rest state'
  end.

(** The body of the effect that starts the monitoring; the clean-up it
    returns is [stopSimulation]. *)
Definition startMonitoring (fuel : nat) (patients : list PatientWithVitals.t)
    (state : VitalsState) (b : Browser) : option (VitalsState * Browser) :=
  if (length patients =? 0)%nat then Some (state, b)
  else if isSimulating state then Some (state, b)
  else
    match initializeEach fuel patients state (world b) with
    | None => None
    | Some (state1, w1) =>
        startSimulation fuel
          (map (fun p => Patient.id (PatientWithVitals.patient p)) patients)
          state1 (mkBrowser w1 (timers b) (next_timer b))
    end.

End Dashboard.

(** A series that holds exactly [MAX_HISTORY_POINTS] samples, all within
    the bounds of its vital type. *)
Definition fullInRange (vitalType : VitalType) (signs : list VitalSign) : Prop :=
  length signs = MAX_HISTORY_POINTS
  /\ Forall (fun s => inRange vitalType (value s)) signs.

(** Every timer of the browser is the one the store holds the handle of. *)
Definition ownsTimers (state : VitalsState) (b : Browser) : Prop :=
  forall handle, is_Some (timers b !! handle) ->
                 simulationInterval state = Some handle.

(** ** lib/patient-mock-api.ts

    The patients are kept as JSON text under one key of [localStorage].
    [JSON.stringify] and [JSON.parse] are an interface: [JSON_parse] is
    [None] where [JSON.parse] throws and otherwise the array of patients
    the text denotes (texts that denote anything else are outside the
    model).  [storageErrors] collects what is written with
    [console.error].  The artificial [delay] of the asynchronous functions
    is left out; a thrown [Error] is its message on the left of a sum. *)

Class Json := {
  JSON_stringify : list Patient.t -> string;
  JSON_parse : string -> option (list Patient.t)
}.

Record LocalStorage := mkStorage {
  items : gmap string string;
  storageErrors : list string
}.

Definition PATIENTS_KEY : string := "smart_pulse_patients".

Definition withPatientStatus (existingPatient : Patient.t)
    (status : PatientStatus) : Patient.t :=
  Patient.mk (Patient.id existingPatient) (Patient.name existingPatient)
    (Patient.age existingPatient) (Patient.bedNumber existingPatient)
    (Patient.assignedNurse existingPatient) status
    (Patient.admissionDate existingPatient) (Patient.diagnosis existingPatient)
    (Patient.createdAt existingPatient).

(** [patients.findIndex((p) => p.id === id)]; [-1] is [None]. *)
Fixpoint findIndex (id : string) (patients : list Patient.t) : option nat :=
  match patients with
  | [] => None
  | p :: rest =>
      if String.eqb (Patient.id p) id then Some 0%nat
      else match findIndex id rest with
           | Some i => Some (S i)
           | None => None
           end
  end.

Section PatientApi.
Context {json : Json}.

Definition getPatients (ls : LocalStorage) : list Patient.t * LocalStorage :=
  match items ls !! PATIENTS_KEY with
  | None => ([], ls)
  | Some data =>
      if String.eqb data "" then ([], ls)
      else match JSON_parse data with
           | Some patients => (patients, ls)
           | None =>
               ([], mkStorage (delete PATIENTS_KEY (items ls))
                      (storageErrors ls
                       ++ ["Failed to parse patients from localStorage:"%string]))
           end
  end.

Definition savePatients (patients : list Patient.t) (ls : LocalStorage)
    : LocalStorage :=
  mkStorage (<[PATIENTS_KEY := JSON_stringify patients]> (items ls))
            (storageErrors ls).

Definition getAllPatients (ls : LocalStorage) : list Patient.t * LocalStorage :=
  getPatients ls.

Definition getPatientById (id : string) (ls : LocalStorage)
    : option Patient.t * LocalStorage :=
  let (patients, ls') := getPatients ls in
  (List.find (fun p => String.eqb (Patient.id p) id) patients, ls').

Definition getPatientsByNurse (nurseKey : string) (ls : LocalStorage)
    : list Patient.t * LocalStorage :=
  let (patients, ls') := getPatients ls in
  (List.filter (fun p => String.eqb (Patient.assignedNurse p) nurseKey) patients, ls').

Definition updatePatientStatus (id : string) (status : PatientStatus)
    (ls : LocalStorage) : (string + Patient.t) * LocalStorage :=
  let (patients, ls') := getPatients ls in
  match findIndex id patients with
  | None => (inl "Patient not found"%string, ls')
  | Some index =>
      match patients !! index with
      | None => (inl "Patient not found"%string, ls')
      | Some existingPatient =>
          let updatedPatient := withPatientStatus existingPatient status in
          (inr updatedPatient,
           savePatients (<[index := updatedPatient]> patients) ls')
      end
  end.

Definition deletePatient (id : string) (ls : LocalStorage) : LocalStorage :=
  let (patients, ls') := getPatients ls in
  savePatients
    (List.filter (fun p => negb (String.eqb (Patient.id p) id)) patients) ls'.

Definition clearPatients (ls : LocalStorage) : LocalStorage :=
  mkStorage (delete PATIENTS_KEY (items ls)) (storageErrors ls).

End PatientApi.

(** The text [JSON.stringify] gives for these patients is not empty and
    [JSON.parse] reads the same patients back from it. *)
Definition roundTrips {json : Json} (patients : list Patient.t) : Prop :=
  JSON_stringify patients <> ""%string
  /\ JSON_parse (JSON_stringify patients) = Some patients.

(** A codec for concrete runs that knows two texts: the empty array and
    one text that stands for the given patients. *)
Definition scriptedJson (patients : list Patient.t) : Json :=
  {| JSON_stringify := fun ps => match ps with
                                 | [] => "[]"%string
                                 | _ => "[patients]"%string
                                 end;
     JSON_parse := fun data =>
       if String.eqb data "[]" then Some []
       else if String.eqb data "[patients]" then Some patients
       else None |}.

(** Equality of patients, field by field, for the codec below. *)
Definition Patient_eqb (p q : Patient.t) : bool :=
  String.eqb (Patient.id p) (Patient.id q)
  && String.eqb (Patient.name p) (Patient.name q)
  && Z.eqb (Patient.age p) (Patient.age q)
  && String.eqb (Patient.bedNumber p) (Patient.bedNumber q)
  && String.eqb (Patient.assignedNurse p) (Patient.assignedNurse q)
  && PatientStatus_eqb (Patient.status p) (Patient.status q)
  && String.eqb (Patient.admissionDate p) (Patient.admissionDate q)
  && String.eqb (Patient.diagnosis p) (Patient.diagnosis q)
  && String.eqb (Patient.createdAt p) (Patient.createdAt q).

Fixpoint patients_eqb (a b : list Patient.t) : bool :=
  match a, b with
  | [], [] => true
  | p :: a', q :: b' => Patient_eqb p q && patients_eqb a' b'
  | _, _ => false
  end.

(** A codec for concrete runs that knows three texts: the empty array,
    one text for the patients stored at first and one for the patients
    stored after an update. *)
Definition scriptedJson2 (stored updated : list Patient.t) : Json :=
  {| JSON_stringify := fun ps =>
       if patients_eqb ps [] then "[]"%string
       else if patients_eqb ps updated then "[updated]"%string
       else "[stored]"%string;
     JSON_parse := fun data =>
       if String.eqb data "[]" then Some []
       else if String.eqb data "[stored]" then Some stored
       else if String.eqb data "[updated]" then Some updated
       else None |}.

(** A ward for concrete runs: two of its patients share the id [p-1]. *)
Definition wardPark : Patient.t :=
  Patient.mk "p-0" "Park" 70 "300-A" "nurse-2" warning "d0" "x0" "c0".
Definition wardKim : Patient.t :=
  Patient.mk "p-1" "Kim" 61 "301-A" "nurse-1" stable "d1" "x1" "c1".
Definition wardLee : Patient.t :=
  Patient.mk "p-1" "Lee" 48 "301-B" "nurse-1" warning "d2" "x2" "c2".
Definition wardStored : list Patient.t := [wardPark; wardKim; wardLee].
Definition wardUpdated : list Patient.t :=
  [wardPark; withPatientStatus wardKim critical; wardLee].
Definition wardStorage : LocalStorage :=
  mkStorage (<[PATIENTS_KEY := "[stored]"%string]> ∅) [].

(** ** Basic facts *)

Lemma Qgtb_true (x y : Q) : Qgtb x y = true <-> y < x.
Proof. unfold Qgtb. apply QMicromega.Qlt_bool_iff. Qed.

Lemma Qltb_true (x y : Q) : Qltb x y = true <-> x < y.
Proof. unfold Qltb. apply QMicromega.Qlt_bool_iff. Qed.

Lemma clamp_bounds (v lo hi : Q) : lo <= hi -> lo <= clamp v lo hi /\ clamp v lo hi <= hi.
Proof.
  intros Hle. unfold clamp. split.
  - apply Q.le_max_l.
  - apply Q.max_lub; [exact Hle | apply Q.le_min_l].
Qed.


Lemma range_ordered (vitalType : VitalType) :
  VitalRange.min (VITAL_RANGES vitalType) <= VitalRange.max (VITAL_RANGES vitalType).
Proof. destruct vitalType; vm_compute; discriminate. Qed.

Lemma clamp_inRange (vitalType : VitalType) (v : Q) :
  inRange vitalType
    (clamp v (VitalRange.min (VITAL_RANGES vitalType))
             (VitalRange.max (VITAL_RANGES vitalType))).
Proof. apply clamp_bounds, range_ordered. Qed.

(** ** The generator *)

Section GenerationFacts.
Context {rt : JsRuntime}.

Lemma generateVitalUpdate_clamped cur vitalType trend w :
  generateVitalUpdate cur vitalType trend w =
    (clamp (fst (nextValue cur vitalType trend w))
           (VitalRange.min (VITAL_RANGES vitalType))
           (VitalRange.max (VITAL_RANGES vitalType)),
     snd (nextValue cur vitalType trend w)).
Proof.
  unfold generateVitalUpdate, bind, ret.
  destruct (nextValue cur vitalType trend w); reflexivity.
Qed.

Lemma generateVitalUpdate_inRange cur vitalType trend w :
  inRange vitalType (fst (generateVitalUpdate cur vitalType trend w)).
Proof. rewrite generateVitalUpdate_clamped. apply clamp_inRange. Qed.

Lemma generateBaselineValue_inRange fuel vitalType trend w v w' :
  generateBaselineValue fuel vitalType trend w = Some (v, w') ->
  inRange vitalType v.
Proof.
  unfold generateBaselineValue, bindL, retL.
  destruct trend;
    match goal with
    | |- context [match ?c with Some _ => _ | None => _ end] =>
        destruct c as [[x wx]|]; [|discriminate]
    end;
    intros [= <- _]; apply clamp_inRange.
Qed.

Lemma resample_nonzero fuel u w :
  ~ u == 0 -> resample fuel u w = Some (u, w).
Proof.
  intros Hu. destruct fuel; simpl;
    (destruct (Qeq_bool u 0) eqn:E; [apply Qeq_bool_iff in E; contradiction | reflexivity]).
Qed.

Lemma resample_returns k : forall u w,
  ~ random_draw (rand_calls w + k) == 0 ->
  exists r, forall fuel, (k < fuel)%nat -> resample fuel u w = Some r.
Proof.
  induction k as [|k IH]; intros u w Hk;
    destruct (Qeq_bool u 0) eqn:E;
    try (exists (u, w); intros fuel _; destruct fuel; simpl; rewrite E; reflexivity).
  - exists (Math_random w). intros fuel Hf.
    destruct fuel as [|fuel]; [lia|]. simpl. rewrite E.
    rewrite Nat.add_0_r in Hk. apply resample_nonzero. exact Hk.
  - destruct (IH (random_draw (rand_calls w)) (snd (Math_random w))) as [r Hr].
    { cbn [Math_random snd rand_calls].
      replace (S (rand_calls w) + k)%nat with (rand_calls w + S k)%nat by lia.
      exact Hk. }
    exists r. intros fuel Hf.
    destruct fuel as [|fuel]; [lia|]. simpl. rewrite E. apply Hr. lia.
Qed.

Lemma resample_clock fuel : forall u w r w',
  resample fuel u w = Some (r, w') ->
  now_calls w' = now_calls w /\ console w' = console w.
Proof.
  induction fuel as [|fuel IH]; intros u w r w'; simpl.
  - destruct (Qeq_bool u 0); [discriminate|]. intros [= _ <-]. auto.
  - destruct (Qeq_bool u 0); [|intros [= _ <-]; auto].
    intros H. apply IH in H. simpl in H. exact H.
Qed.

Lemma gaussianRandom_returns (Hrnd : random_not_stuck rt) mean stdDev w :
  exists fuel0 r, forall fuel, (fuel0 <= fuel)%nat ->
    gaussianRandom fuel mean stdDev w = Some r.
Proof.
  destruct (Hrnd (S (rand_calls w))) as [k Hk].
  destruct (resample_returns k (random_draw (rand_calls w))
              (snd (Math_random w)) Hk) as [[u1 w1] Hr].
  destruct (Math_random w1) as [u2 w2] eqn:E2.
  eexists (S k), _. intros fuel Hf.
  unfold gaussianRandom, bindL, lift, retL.
  change (Math_random w) with (random_draw (rand_calls w), snd (Math_random w)).
  cbv iota beta. rewrite Hr by lia. rewrite E2. reflexivity.
Qed.

Lemma generateBaselineValue_returns (Hrnd : random_not_stuck rt) vitalType trend w :
  exists fuel0 r, forall fuel, (fuel0 <= fuel)%nat ->
    generateBaselineValue fuel vitalType trend w = Some r.
Proof.
  unfold generateBaselineValue, bindL, retL, lift.
  destruct trend.
  - destruct (gaussianRandom_returns Hrnd
                (VitalRange.mean (VITAL_RANGES vitalType))
                (VitalRange.stdDev (VITAL_RANGES vitalType)) w)
      as (f0 & [x wx] & H0).
    eexists f0, _. intros fuel Hf. rewrite (H0 fuel Hf). reflexivity.
  - destruct (Math_random w) as [r w1] eqn:E.
    destruct (gaussianRandom_returns Hrnd
                (warningMean (VITAL_RANGES vitalType) r)
                (VitalRange.stdDev (VITAL_RANGES vitalType) * 1.2) w1)
      as (f0 & [x wx] & H0).
    eexists f0, _. intros fuel Hf. rewrite (H0 fuel Hf). reflexivity.
  - destruct (Math_random w) as [r w1] eqn:E.
    destruct (gaussianRandom_returns Hrnd
                (criticalMean (VITAL_RANGES vitalType) r)
                (VitalRange.stdDev (VITAL_RANGES vitalType) * 1.5) w1)
      as (f0 & [x wx] & H0).
    eexists f0, _. intros fuel Hf. rewrite (H0 fuel Hf). reflexivity.
Qed.

End GenerationFacts.

(** C1.  For every vital type, regime and input value the result of
    [generateVitalUpdate] lies within the [[min, max]] bounds of
    [VITAL_RANGES]; so does every result of [generateBaselineValue]; and
    [generateBaselineValue] does return a result, given enough loop
    iterations, when [Math.random()] is not stuck at zero. *)
Theorem clamping_invariant (rt : JsRuntime) :
  (forall cur vitalType trend w,
      inRange vitalType (fst (generateVitalUpdate cur vitalType trend w)))
  /\ (forall fuel vitalType trend w v w',
      generateBaselineValue fuel vitalType trend w = Some (v, w') ->
      inRange vitalType v)
  /\ (random_not_stuck rt ->
      forall vitalType trend w, exists fuel v w',
        generateBaselineValue fuel vitalType trend w = Some (v, w')
        /\ inRange vitalType v).
Proof.
  split; [|split].
  - intros. apply generateVitalUpdate_inRange.
  - intros. eapply generateBaselineValue_inRange; eassumption.
  - intros Hrnd vitalType trend w.
    destruct (generateBaselineValue_returns Hrnd vitalType trend w)
      as (f0 & [v w'] & H0).
    exists f0, v, w'. split; [apply H0; lia|].
    eapply generateBaselineValue_inRange. apply (H0 f0). lia.
Qed.

Lemma clamping_invariant_witness :
  generateBaselineValue (rt := scripted [1 # 4; 1 # 2; 0] []) 1 spo2
      Trend.critical world0 = Some (85, mkWorld 3 0 [])
  /\ inRange spo2 85.
Proof.
  split; [vm_compute; reflexivity|].
  apply (proj1 (proj2 (clamping_invariant (scripted [1 # 4; 1 # 2; 0] [])))
           1%nat spo2 Trend.critical world0 85 (mkWorld 3 0 [])).
  vm_compute; reflexivity.
Defined.

(** ** The classifier *)

Lemma inBand_bool (band : Q * Q) (v : Q) :
  Qle_bool (fst band) v && Qle_bool v (snd band) = true <-> inBand band v.
Proof.
  unfold inBand. rewrite andb_true_iff, !Qle_bool_iff. reflexivity.
Qed.

Lemma getVitalStatus_cases (v : Q) (vitalType : VitalType) :
  let th := THRESHOLDS vitalType in
  (getVitalStatus v vitalType = stable /\ inBand (VitalThreshold.normal th) v)
  \/ (getVitalStatus v vitalType = warning
      /\ ~ inBand (VitalThreshold.normal th) v
      /\ inBand (VitalThreshold.warning th) v)
  \/ (getVitalStatus v vitalType = critical
      /\ ~ inBand (VitalThreshold.normal th) v
      /\ ~ inBand (VitalThreshold.warning th) v).
Proof.
  intros th. unfold getVitalStatus. fold th.
  destruct (Qle_bool (fst (VitalThreshold.normal th)) v
            && Qle_bool v (snd (VitalThreshold.normal th))) eqn:En.
  - left. split; [reflexivity|]. apply inBand_bool, En.
  - assert (Hn : ~ inBand (VitalThreshold.normal th) v).
    { intros H. apply inBand_bool in H. congruence. }
    destruct (Qle_bool (fst (VitalThreshold.warning th)) v
              && Qle_bool v (snd (VitalThreshold.warning th))) eqn:Ew.
    + right; left. split; [reflexivity|]. split; [exact Hn|].
      apply inBand_bool, Ew.
    + right; right. split; [reflexivity|]. split; [exact Hn|].
      intros H. apply inBand_bool in H. congruence.
Qed.

(** C2.  [getVitalStatus] returns [stable] exactly inside the normal band
    (endpoints included), [warning] exactly inside the warning band but
    outside the normal band, and [critical] otherwise; for heart rate 60
    and 100 are stable, 50 and 120 are warning, and every value below 50
    or above 120 is critical. *)
Theorem getVitalStatus_bands :
  (forall v vitalType,
      let th := THRESHOLDS vitalType in
      (getVitalStatus v vitalType = stable <->
         inBand (VitalThreshold.normal th) v)
      /\ (getVitalStatus v vitalType = warning <->
         inBand (VitalThreshold.warning th) v
         /\ ~ inBand (VitalThreshold.normal th) v)
      /\ (getVitalStatus v vitalType = critical <->
         ~ inBand (VitalThreshold.normal th) v
         /\ ~ inBand (VitalThreshold.warning th) v))
  /\ getVitalStatus 60 heartRate = stable
  /\ getVitalStatus 100 heartRate = stable
  /\ getVitalStatus 50 heartRate = warning
  /\ getVitalStatus 120 heartRate = warning
  /\ getVitalStatus 59.99 heartRate = warning
  /\ getVitalStatus 49.99 heartRate = critical
  /\ getVitalStatus 120.01 heartRate = critical
  /\ (forall v, v < 50 \/ 120 < v -> getVitalStatus v heartRate = critical).
Proof.
  split.
  { intros v vitalType th.
    destruct (getVitalStatus_cases v vitalType) as [[E H]|[[E [Hn Hw]]|[E [Hn Hw]]]];
      fold th in H || fold th in Hn, Hw; rewrite E;
      (split; [|split]); split; intros; try tauto; try discriminate. }
  repeat split; try reflexivity.
  intros v Hv.
  destruct (getVitalStatus_cases v heartRate) as [[E H]|[[E [Hn Hw]]|[E [Hn Hw]]]].
  - exfalso. unfold inBand in H. simpl in H. destruct Hv; lra.
  - exfalso. unfold inBand in Hw. simpl in Hw. destruct Hv; lra.
  - exact E.
Qed.

Lemma getVitalStatus_bands_witness :
  getVitalStatus 45 heartRate = critical.
Proof.
  apply (proj2 (proj2 (proj2 (proj2 (proj2 (proj2 (proj2
           (proj2 getVitalStatus_bands)))))))).
  left. reflexivity.
Defined.

Lemma last_snoc_some {A} (l : list A) (a : A) : last (l ++ [a]) = Some a.
Proof. apply last_snoc. Qed.


Lemma getLatestValue_eq (signs : list VitalSign) :
  getLatestValue signs =
    match last signs with Some lastSign => value lastSign | None => 0 end.
Proof.
  unfold getLatestValue. destruct signs as [|a l]; [reflexivity|].
  reflexivity.
Qed.

(** C9.  [getLatestValue] returns the value of the last sample of a
    non-empty series and 0 for the empty series; it is a total function. *)
Theorem getLatestValue_last :
  getLatestValue [] = 0
  /\ (forall signs lastSign, getLatestValue (signs ++ [lastSign]) = value lastSign)
  /\ (forall signs,
        getLatestValue signs =
          match last signs with Some lastSign => value lastSign | None => 0 end).
Proof.
  split; [reflexivity|]. split.
  - intros signs lastSign. rewrite getLatestValue_eq, last_snoc_some. reflexivity.
  - apply getLatestValue_eq.
Qed.

Lemma getCurrentValue_eq (signs : list VitalSign) :
  getCurrentValue signs = value <$> last signs.
Proof.
  unfold getCurrentValue. destruct signs as [|a l]; [reflexivity|].
  simpl. destruct (last (a :: l)); reflexivity.
Qed.



Lemma latestStatus_some vitals vitalType st :
  latestStatus vitals vitalType = Some st <->
  exists s, last (getSigns vitals vitalType) = Some s
            /\ getVitalStatus (value s) vitalType = st.
Proof.
  unfold latestStatus. destruct (last (getSigns vitals vitalType)) as [s|]; simpl.
  - split; [intros [= <-]; eauto | intros [s' [[= <-] <-]]; reflexivity].
  - split; [discriminate | intros [s' [[=] _]]].
Qed.

Lemma calculatePatientStatus_eq (vitals : VitalSigns.t) :
  calculatePatientStatus vitals =
    let sts := map (latestStatus vitals) vitalTypes in
    if existsb (fun o => match o with Some critical => true | _ => false end) sts
    then critical
    else if existsb (fun o => match o with Some warning => true | _ => false end) sts
    then warning
    else stable.
Proof.
  unfold calculatePatientStatus, latestStatus, vitalTypes.
  destruct vitals as [hr sy di sp te].
  cbn [map getSigns VitalSigns.heartRate VitalSigns.systolic VitalSigns.diastolic
       VitalSigns.spo2 VitalSigns.temperature].
  rewrite !getCurrentValue_eq.
  destruct (last hr) as [a1|], (last sy) as [a2|], (last di) as [a3|],
           (last sp) as [a4|], (last te) as [a5|]; simpl;
    unfold includes; simpl;
    repeat match goal with
           | |- context [getVitalStatus ?x ?t] =>
               destruct (getVitalStatus x t); simpl
           end; reflexivity.
Qed.

Lemma vitalTypes_complete (vitalType : VitalType) : In vitalType vitalTypes.
Proof. destruct vitalType; simpl; tauto. Qed.

Lemma existsb_latestStatus (P : option PatientStatus -> bool) vitals :
  existsb P (map (latestStatus vitals) vitalTypes) = true <->
  exists vitalType, P (latestStatus vitals vitalType) = true.
Proof.
  rewrite existsb_exists. split.
  - intros [o [Hin HP]]. apply in_map_iff in Hin as [vt [<- _]]. eauto.
  - intros [vt HP]. exists (latestStatus vitals vt). split; [|exact HP].
    apply in_map, vitalTypes_complete.
Qed.

Lemma calculatePatientStatus_critical vitals :
  calculatePatientStatus vitals = critical <->
  exists vitalType, latestStatus vitals vitalType = Some critical.
Proof.
  rewrite calculatePatientStatus_eq. cbv zeta.
  destruct (existsb _ _) eqn:Ec.
  - apply existsb_latestStatus in Ec as [vt Hvt]. split; [|reflexivity].
    intros _. exists vt.
    destruct (latestStatus vitals vt) as [[]|]; congruence.
  - split.
    + clear Ec. destruct (existsb _ _); discriminate.
    + intros [vt Hvt]. exfalso.
      assert (H : existsb (fun o => match o with Some critical => true | _ => false end)
                    (map (latestStatus vitals) vitalTypes) = true).
      { apply existsb_latestStatus. exists vt. rewrite Hvt. reflexivity. }
      congruence.
Qed.

Lemma calculatePatientStatus_stable vitals :
  calculatePatientStatus vitals = stable <->
  forall vitalType st, latestStatus vitals vitalType = Some st -> st = stable.
Proof.
  rewrite calculatePatientStatus_eq. cbv zeta.
  destruct (existsb _ _) eqn:Ec.
  - apply existsb_latestStatus in Ec as [vt Hvt]. split; [discriminate|].
    intros H. destruct (latestStatus vitals vt) as [[]|] eqn:E; try discriminate.
    specialize (H vt critical E). discriminate.
  - match goal with
    | |- context [existsb ?f ?l] => destruct (existsb f l) eqn:Ew
    end.
    + apply existsb_latestStatus in Ew as [vt Hvt]. split; [discriminate|].
      intros H. destruct (latestStatus vitals vt) as [[]|] eqn:E; try discriminate.
      specialize (H vt warning E). discriminate.
    + split; [|reflexivity]. intros _ vt st E.
      destruct st; [reflexivity| |]; exfalso.
      * assert (H : existsb (fun o => match o with Some warning => true | _ => false end)
                      (map (latestStatus vitals) vitalTypes) = true).
        { apply existsb_latestStatus. exists vt. rewrite E. reflexivity. }
        congruence.
      * assert (H : existsb (fun o => match o with Some critical => true | _ => false end)
                      (map (latestStatus vitals) vitalTypes) = true).
        { apply existsb_latestStatus. exists vt. rewrite E. reflexivity. }
        congruence.
Qed.

(** C3.  [calculatePatientStatus] returns [critical] if and only if some
    vital with at least one sample classifies critical on its latest
    value; it returns [stable] if and only if every vital with data
    classifies stable or no vital has any sample; a bundle without samples
    gives [stable]. *)
Theorem calculatePatientStatus_worst (vitals : VitalSigns.t) :
  (calculatePatientStatus vitals = critical <->
     exists vitalType s,
       last (getSigns vitals vitalType) = Some s
       /\ getVitalStatus (value s) vitalType = critical)
  /\ (calculatePatientStatus vitals = stable <->
     (forall vitalType s,
        last (getSigns vitals vitalType) = Some s ->
        getVitalStatus (value s) vitalType = stable)
     \/ (forall vitalType, getSigns vitals vitalType = []))
  /\ ((forall vitalType, getSigns vitals vitalType = []) ->
      calculatePatientStatus vitals = stable).
Proof.
  assert (Hempty : (forall vitalType, getSigns vitals vitalType = []) ->
                   forall vitalType s,
                     last (getSigns vitals vitalType) = Some s ->
                     getVitalStatus (value s) vitalType = stable).
  { intros He vt s. rewrite He. discriminate. }
  assert (Hst : calculatePatientStatus vitals = stable <->
                forall vitalType s,
                  last (getSigns vitals vitalType) = Some s ->
                  getVitalStatus (value s) vitalType = stable).
  { rewrite calculatePatientStatus_stable. split.
    - intros H vt s Hs. apply (H vt). apply latestStatus_some. eauto.
    - intros H vt st Hl. apply latestStatus_some in Hl as [s [Hs <-]]. auto. }
  split; [|split].
  - rewrite calculatePatientStatus_critical.
    split; intros [vt H]; exists vt; apply latestStatus_some; exact H.
  - rewrite Hst. split; [intros H; left; exact H|].
    intros [H|H]; [exact H | apply Hempty, H].
  - intros H. apply Hst, Hempty, H.
Qed.

Lemma calculatePatientStatus_worst_witness :
  calculatePatientStatus (VitalSigns.mk [] [] [] [] []) = stable.
Proof.
  apply (proj2 (proj2 (calculatePatientStatus_worst (VitalSigns.mk [] [] [] [] [])))).
  intros vt; destruct vt; reflexivity.
Defined.

(** ** The regimes of the generator *)

Section RegimeFacts.
Context {rt : JsRuntime}.

Lemma gaussianRandom_affine fuel mean stdDev w g w' :
  gaussianRandom fuel mean stdDev w = Some (g, w') ->
  exists z0,
    g = z0 * stdDev + mean
    /\ forall mean2 stdDev2,
         gaussianRandom fuel mean2 stdDev2 w = Some (z0 * stdDev2 + mean2, w').
Proof.
  unfold gaussianRandom, bindL, lift, retL.
  destruct (Math_random w) as [u0 w0].
  destruct (resample fuel u0 w0) as [[u1 w1]|]; [|discriminate].
  destruct (Math_random w1) as [u2 w2].
  intros [= <- <-]. eexists. split; [reflexivity|]. reflexivity.
Qed.

Lemma warningMean_cases range r :
  (0.5 < r /\ warningMean range r == VitalRange.mean range + 0.15 * VitalRange.mean range)
  \/ (r <= 0.5 /\ warningMean range r == VitalRange.mean range - 0.10 * VitalRange.mean range).
Proof.
  unfold warningMean. destruct (Qgtb r 0.5) eqn:E.
  - left. apply Qgtb_true in E. split; [exact E | ring].
  - right. split; [|ring].
    apply Qnot_lt_le. intros H. apply Qgtb_true in H. congruence.
Qed.

Lemma criticalMean_cases range r :
  (0.5 < r /\ criticalMean range r == VitalRange.mean range + 0.30 * VitalRange.mean range)
  \/ (r <= 0.5 /\ criticalMean range r == VitalRange.mean range - 0.20 * VitalRange.mean range).
Proof.
  unfold criticalMean. destruct (Qgtb r 0.5) eqn:E.
  - left. apply Qgtb_true in E. split; [exact E | ring].
  - right. split; [|ring].
    apply Qnot_lt_le. intros H. apply Qgtb_true in H. congruence.
Qed.

End RegimeFacts.

(** C5, amended.  In the warning regime [generateBaselineValue] samples
    from a Gaussian whose mean is the nominal mean raised by 15% or
    lowered by 10%, the direction decided by one [Math.random()] draw
    compared with 0.5, with the standard deviation widened by 1.2; in the
    critical regime the mean is raised by 30% or lowered by 20% and the
    standard deviation widened by 1.5; the sample is [z0] times the
    standard deviation plus the mean for a deviate [z0] that depends on
    neither, and the result is the sample clamped to [[min, max]]. *)
Theorem generateBaselineValue_regimes (rt : JsRuntime) fuel vitalType trend w v w' :
  generateBaselineValue fuel vitalType trend w = Some (v, w') ->
  let range := VITAL_RANGES vitalType in
  let m := VitalRange.mean range in
  let s := VitalRange.stdDev range in
  let r := random_draw (rand_calls w) in
  exists sampleMean sampleStdDev z0 wg,
    (forall mean2 stdDev2,
        gaussianRandom fuel mean2 stdDev2 wg = Some (z0 * stdDev2 + mean2, w'))
    /\ v = clamp (z0 * sampleStdDev + sampleMean)
                 (VitalRange.min range) (VitalRange.max range)
    /\ match trend with
       | Trend.normal => wg = w /\ sampleMean == m /\ sampleStdDev == s
       | Trend.warning =>
           wg = snd (Math_random w)
           /\ sampleStdDev == s * 1.2
           /\ ((0.5 < r /\ sampleMean == m + 0.15 * m)
               \/ (r <= 0.5 /\ sampleMean == m - 0.10 * m))
       | Trend.critical =>
           wg = snd (Math_random w)
           /\ sampleStdDev == s * 1.5
           /\ ((0.5 < r /\ sampleMean == m + 0.30 * m)
               \/ (r <= 0.5 /\ sampleMean == m - 0.20 * m))
       end.
Proof.
  intros Hv range m s r. revert Hv.
  unfold generateBaselineValue, bindL, retL, lift. fold range.
  destruct trend.
  - destruct (gaussianRandom fuel _ _ w) as [[g wg']|] eqn:Eg; [|discriminate].
    intros [= <- <-].
    destruct (gaussianRandom_affine _ _ _ _ _ _ Eg) as [z0 [-> Hz]].
    exists (VitalRange.mean range), (VitalRange.stdDev range), z0, w.
    repeat split; try reflexivity. exact Hz.
  - change (Math_random w) with (r, snd (Math_random w)). cbv iota beta.
    destruct (gaussianRandom fuel _ _ (snd (Math_random w))) as [[g wg']|] eqn:Eg;
      [|discriminate].
    intros [= <- <-].
    destruct (gaussianRandom_affine _ _ _ _ _ _ Eg) as [z0 [-> Hz]].
    exists (warningMean range r), (VitalRange.stdDev range * 1.2), z0,
           (snd (Math_random w)).
    split; [exact Hz|]. split; [reflexivity|]. split; [reflexivity|].
    split; [reflexivity|]. apply warningMean_cases.
  - change (Math_random w) with (r, snd (Math_random w)). cbv iota beta.
    destruct (gaussianRandom fuel _ _ (snd (Math_random w))) as [[g wg']|] eqn:Eg;
      [|discriminate].
    intros [= <- <-].
    destruct (gaussianRandom_affine _ _ _ _ _ _ Eg) as [z0 [-> Hz]].
    exists (criticalMean range r), (VitalRange.stdDev range * 1.5), z0,
           (snd (Math_random w)).
    split; [exact Hz|]. split; [reflexivity|]. split; [reflexivity|].
    split; [reflexivity|]. apply criticalMean_cases.
Qed.

Lemma generateBaselineValue_regimes_witness :
  generateBaselineValue (rt := scripted [1 # 4; 1 # 2; 0] []) 1 spo2
      Trend.critical world0 = Some (85, mkWorld 3 0 [])
  /\ exists sampleMean sampleStdDev z0 wg,
       (forall mean2 stdDev2,
           gaussianRandom (rt := scripted [1 # 4; 1 # 2; 0] []) 1 mean2 stdDev2 wg
           = Some (z0 * stdDev2 + mean2, mkWorld 3 0 []))
       /\ 85 = clamp (z0 * sampleStdDev + sampleMean) 85 100
       /\ wg = mkWorld 1 0 []
       /\ sampleStdDev == 1.5 * 1.5
       /\ ((0.5 < 1 # 4 /\ sampleMean == 98 + 0.30 * 98)
           \/ (1 # 4 <= 0.5 /\ sampleMean == 98 - 0.20 * 98)).
Proof.
  split; [vm_compute; reflexivity|].
  apply (generateBaselineValue_regimes (scripted [1 # 4; 1 # 2; 0] []) 1 spo2
           Trend.critical world0 85 (mkWorld 3 0 [])).
  vm_compute; reflexivity.
Defined.

(** C5 as stated fails: for heart rate in the warning regime with the
    direction draw 1/4 the sampling mean is 67.5, which is 10% and not 15%
    below the nominal mean 75, and the returned value differs from the
    specification's baseline for either direction of a 15% shift. *)
Lemma generateBaselineValue_shift_counterexample :
  warningMean (VITAL_RANGES heartRate) (1 # 4) == 67.5
  /\ ~ warningMean (VITAL_RANGES heartRate) (1 # 4)
       == spec_baselineMean (VITAL_RANGES heartRate) Trend.warning true
  /\ ~ warningMean (VITAL_RANGES heartRate) (1 # 4)
       == spec_baselineMean (VITAL_RANGES heartRate) Trend.warning false
  /\ exists v w',
       generateBaselineValue (rt := scripted [1 # 4; 1 # 2; 0] []) 1 heartRate
         Trend.warning world0 = Some (v, w')
       /\ v == clamp (approx_sqrt (- 2.0 * approx_log (1 # 2))
                      * approx_cos (2.0 * 3.14159 * 0) * (8 * 1.2) + 67.5) 45 150
       /\ ~ v == spec_baseline (VITAL_RANGES heartRate) Trend.warning true
                   (approx_sqrt (- 2.0 * approx_log (1 # 2))
                    * approx_cos (2.0 * 3.14159 * 0))
       /\ ~ v == spec_baseline (VITAL_RANGES heartRate) Trend.warning false
                   (approx_sqrt (- 2.0 * approx_log (1 # 2))
                    * approx_cos (2.0 * 3.14159 * 0)).
Proof.
  split; [vm_compute; reflexivity|].
  split; [vm_compute; discriminate|].
  split; [vm_compute; discriminate|].
  eexists. eexists. split; [vm_compute; reflexivity|].
  split; [vm_compute; reflexivity|].
  split; vm_compute; discriminate.
Qed.

Section UpdateFacts.
Context {rt : JsRuntime}.

Lemma Qltb_false (x y : Q) : Qltb x y = false <-> y <= x.
Proof.
  split.
  - intros E. apply Qnot_lt_le. intros H. apply Qltb_true in H. congruence.
  - intros H. destruct (Qltb x y) eqn:E; [|reflexivity].
    apply Qltb_true in E. exfalso. exact (Qlt_not_le _ _ E H).
Qed.

Lemma Qgtb_false (x y : Q) : Qgtb x y = false <-> x <= y.
Proof. unfold Qgtb. apply (Qltb_false y x). Qed.

Lemma nextValue_unfold cur vitalType trend w :
  nextValue cur vitalType trend w =
    let range := VITAL_RANGES vitalType in
    let u := random_draw (rand_calls w) in
    let w1 := snd (Math_random w) in
    let dw := driftFor range cur trend w1 in
    (cur + cur * 0.015 * (u * 2 - 1) + fst dw, snd dw).
Proof.
  unfold nextValue, bind, ret. cbn [Math_random snd].
  destruct (driftFor _ _ _ _); reflexivity.
Qed.

Lemma generateVitalUpdate_clock cur vitalType trend w :
  now_calls (snd (generateVitalUpdate cur vitalType trend w)) = now_calls w
  /\ console (snd (generateVitalUpdate cur vitalType trend w)) = console w.
Proof.
  rewrite generateVitalUpdate_clamped, nextValue_unfold. cbn [snd].
  unfold driftFor, bind, ret.
  destruct trend; cbn [Math_random snd fst rand_calls now_calls console];
    try (split; reflexivity);
    match goal with |- context [Qltb ?a ?b] => destruct (Qltb a b) end;
    split; reflexivity.
Qed.

End UpdateFacts.

(** C6, amended.  [generateVitalUpdate] computes next = current + noise +
    drift and returns it clamped, where noise = current x 0.015 x (2u - 1)
    for the first draw u, and with p and d the second and third draws and
    base drift strength 0.08: in the normal regime the drift targets the
    mean with multiplier 1.5; in the warning regime, when p < 0.05 the
    target is the mean raised by 12% (d > 0.5) or lowered by 8% (d <= 0.5)
    with multiplier 1.0, otherwise the mean with multiplier 0.8; in the
    critical regime, when p < 0.08 the target is 85% of max (d > 0.5) or
    115% of min (d <= 0.5) with multiplier 1.5, otherwise the mean with
    multiplier 0.5. *)
Theorem generateVitalUpdate_drift (rt : JsRuntime) cur vitalType w :
  let range := VITAL_RANGES vitalType in
  let m := VitalRange.mean range in
  let u := random_draw (rand_calls w) * 2 - 1 in
  let p := random_draw (S (rand_calls w)) in
  let d := random_draw (S (S (rand_calls w))) in
  let noise := cur * 0.015 * u in
  let next := fun trend => fst (nextValue cur vitalType trend w) in
  next Trend.normal == cur + noise + (m - cur) * 0.08 * 1.5
  /\ (p < 0.05 -> 0.5 < d ->
      next Trend.warning == cur + noise + ((m + 0.12 * m) - cur) * 0.08 * 1.0)
  /\ (p < 0.05 -> d <= 0.5 ->
      next Trend.warning == cur + noise + ((m - 0.08 * m) - cur) * 0.08 * 1.0)
  /\ (0.05 <= p ->
      next Trend.warning == cur + noise + (m - cur) * 0.08 * 0.8)
  /\ (p < 0.08 -> 0.5 < d ->
      next Trend.critical
      == cur + noise + (0.85 * VitalRange.max range - cur) * 0.08 * 1.5)
  /\ (p < 0.08 -> d <= 0.5 ->
      next Trend.critical
      == cur + noise + (1.15 * VitalRange.min range - cur) * 0.08 * 1.5)
  /\ (0.08 <= p ->
      next Trend.critical == cur + noise + (m - cur) * 0.08 * 0.5)
  /\ (forall trend,
        fst (generateVitalUpdate cur vitalType trend w)
        = clamp (next trend) (VitalRange.min range) (VitalRange.max range)).
Proof.
  intros range m u p d noise next. subst next. cbv beta.
  rewrite !nextValue_unfold. cbv zeta. fold range.
  unfold driftFor, bind, ret, driftStrength.
  cbn [Math_random snd fst rand_calls].
  fold p. fold d. fold m.
  repeat apply conj.
  - subst noise u. ring.
  - intros Hp Hd. apply Qltb_true in Hp. rewrite Hp. cbn [fst rand_calls]. fold d.
    unfold warningTarget. apply Qgtb_true in Hd. rewrite Hd.
    subst noise u. fold m. ring.
  - intros Hp Hd. apply Qltb_true in Hp. rewrite Hp. cbn [fst rand_calls]. fold d.
    unfold warningTarget. apply Qgtb_false in Hd. rewrite Hd.
    subst noise u. fold m. ring.
  - intros Hp. apply Qltb_false in Hp. rewrite Hp. cbn [fst rand_calls]. fold d.
    subst noise u. ring.
  - intros Hp Hd. apply Qltb_true in Hp. rewrite Hp. cbn [fst rand_calls]. fold d.
    unfold criticalTarget. apply Qgtb_true in Hd. rewrite Hd.
    subst noise u. ring.
  - intros Hp Hd. apply Qltb_true in Hp. rewrite Hp. cbn [fst rand_calls]. fold d.
    unfold criticalTarget. apply Qgtb_false in Hd. rewrite Hd.
    subst noise u. ring.
  - intros Hp. apply Qltb_false in Hp. rewrite Hp. cbn [fst rand_calls]. fold d.
    subst noise u. ring.
  - intros trend. rewrite generateVitalUpdate_clamped. cbn [fst].
    rewrite nextValue_unfold. reflexivity.
Qed.

Lemma generateVitalUpdate_drift_witness :
  (0 < 0.05 /\ 0 <= 0.5)
  /\ fst (nextValue (rt := scripted [1 # 2; 0; 0] []) 75 heartRate
            Trend.warning world0)
     == 75 + 75 * 0.015 * ((1 # 2) * 2 - 1) + ((75 - 0.08 * 75) - 75) * 0.08 * 1.0.
Proof.
  split; [split; vm_compute; congruence|].
  apply (proj1 (proj2 (proj2
           (generateVitalUpdate_drift (scripted [1 # 2; 0; 0] []) 75 heartRate
              world0)))).
  - vm_compute; reflexivity.
  - vm_compute; discriminate.
Defined.

(** C6 as stated fails: for heart rate 75 in the warning regime with the
    draws 1/2 (no noise), 0 (the event of probability 0.05) and 0
    (direction down) the code moves toward 0.92 x 75 = 69 and yields
    74.52; a target 12% above or below the mean gives 75.72 or 74.28, and
    the recovery branch gives 75. *)
Lemma generateVitalUpdate_target_counterexample :
  fst (nextValue (rt := scripted [1 # 2; 0; 0] []) 75 heartRate
         Trend.warning world0) == 74.52
  /\ fst (generateVitalUpdate (rt := scripted [1 # 2; 0; 0] []) 75 heartRate
            Trend.warning world0) == 74.52
  /\ spec_next 75 (VITAL_RANGES heartRate) Trend.warning 0 true true == 75.72
  /\ spec_next 75 (VITAL_RANGES heartRate) Trend.warning 0 true false == 74.28
  /\ spec_next 75 (VITAL_RANGES heartRate) Trend.warning 0 false true == 75
  /\ spec_next 75 (VITAL_RANGES heartRate) Trend.warning 0 false false == 75
  /\ ~ fst (nextValue (rt := scripted [1 # 2; 0; 0] []) 75 heartRate
              Trend.warning world0)
       == spec_next 75 (VITAL_RANGES heartRate) Trend.warning 0 true true
  /\ ~ fst (nextValue (rt := scripted [1 # 2; 0; 0] []) 75 heartRate
              Trend.warning world0)
       == spec_next 75 (VITAL_RANGES heartRate) Trend.warning 0 true false.
Proof.
  repeat apply conj; try (vm_compute; reflexivity); vm_compute; discriminate.
Qed.

(** ** The history *)

Section HistoryFacts.
Context {rt : JsRuntime}.

Lemma advanceChain_length n : forall previous vitalType trend w,
  length (fst (advanceChain n previous vitalType trend w)) = n.
Proof.
  induction n as [|n IH]; intros previous vitalType trend w; [reflexivity|].
  simpl. unfold bind, ret.
  destruct (generateVitalUpdate previous vitalType trend w) as [v w1].
  specialize (IH v vitalType trend w1).
  destruct (advanceChain n v vitalType trend w1) as [rest w2].
  simpl in *. congruence.
Qed.

Lemma advanceChain_inRange n : forall previous vitalType trend w,
  Forall (inRange vitalType) (fst (advanceChain n previous vitalType trend w)).
Proof.
  induction n as [|n IH]; intros previous vitalType trend w; [constructor|].
  simpl. unfold bind, ret.
  pose proof (generateVitalUpdate_inRange previous vitalType trend w) as Hv.
  destruct (generateVitalUpdate previous vitalType trend w) as [v w1].
  specialize (IH v vitalType trend w1).
  destruct (advanceChain n v vitalType trend w1) as [rest w2].
  simpl in *. constructor; assumption.
Qed.

Lemma advanceChain_clock n : forall previous vitalType trend w,
  now_calls (snd (advanceChain n previous vitalType trend w)) = now_calls w.
Proof.
  induction n as [|n IH]; intros previous vitalType trend w; [reflexivity|].
  simpl. unfold bind, ret.
  pose proof (proj1 (generateVitalUpdate_clock previous vitalType trend w)) as Hc.
  destruct (generateVitalUpdate previous vitalType trend w) as [v w1].
  specialize (IH v vitalType trend w1).
  destruct (advanceChain n v vitalType trend w1) as [rest w2].
  simpl in *. congruence.
Qed.

Lemma historyLoop_spec intervalMs now vitalType trend todo :
  forall done count currentValue history w,
    count = Z.of_nat (done + todo) ->
    historyLoop todo (Z.of_nat done) count intervalMs now vitalType trend
      currentValue history w
    = (history
       ++ zip_with mkVitalSign (spec_timestamps done todo count intervalMs now)
            (currentValue
             :: fst (advanceChain (todo - 1) currentValue vitalType trend w)),
       snd (advanceChain (todo - 1) currentValue vitalType trend w)).
Proof.
  induction todo as [|todo IH]; intros done count cur history w Hcount.
  - simpl. unfold ret. rewrite app_nil_r. reflexivity.
  - cbn [historyLoop]. destruct todo as [|todo].
    + assert (Hc : (Z.of_nat done <? count - 1)%Z = false) by (apply Z.ltb_ge; lia).
      rewrite Hc. reflexivity.
    + assert (Hc : (Z.of_nat done <? count - 1)%Z = true) by (apply Z.ltb_lt; lia).
      rewrite Hc. unfold bind at 1.
      replace (S (S todo) - 1)%nat with (S todo) by lia.
      cbn [advanceChain]. unfold bind, ret.
      destruct (generateVitalUpdate cur vitalType trend w) as [next w1].
      replace (Z.of_nat done + 1)%Z with (Z.of_nat (S done)) by lia.
      rewrite (IH (S done) count next _ w1) by lia.
      replace (S todo - 1)%nat with todo by lia.
      destruct (advanceChain todo next vitalType trend w1) as [rest w2].
      cbn [fst snd]. rewrite <- app_assoc. reflexivity.
Qed.

Lemma generateVitalHistory_refines fuel vitalType (count : nat) intervalMs trend w :
  generateVitalHistory fuel vitalType (Z.of_nat count) intervalMs trend w
  = spec_history fuel vitalType count intervalMs trend w.
Proof.
  unfold generateVitalHistory, spec_history, bindL, lift, retL.
  destruct (Date_now w) as [now w0].
  destruct (generateBaselineValue fuel vitalType trend w0) as [[first w1]|];
    [|reflexivity].
  rewrite Nat2Z.id.
  rewrite (historyLoop_spec intervalMs now vitalType trend count 0 (Z.of_nat count))
    by reflexivity.
  destruct (advanceChain (count - 1) first vitalType trend w1) as [rest w2].
  reflexivity.
Qed.

Lemma zip_signs_timestamp (ts : list Z) (vs : list Q) :
  (length ts <= length vs)%nat ->
  map timestamp (zip_with mkVitalSign ts vs) = ts.
Proof.
  revert vs. induction ts as [|t ts IH]; intros [|v vs] Hlen; simpl in *;
    try reflexivity; try lia.
  f_equal. apply IH. lia.
Qed.

Lemma zip_signs_value (ts : list Z) (vs : list Q) :
  map value (zip_with mkVitalSign ts vs) = take (length ts) vs.
Proof.
  revert vs. induction ts as [|t ts IH]; intros [|v vs]; simpl; try reflexivity.
  f_equal. apply IH.
Qed.

Lemma spec_timestamps_length first count total intervalMs now :
  length (spec_timestamps first count total intervalMs now) = count.
Proof. unfold spec_timestamps. rewrite length_map, length_seq. reflexivity. Qed.

Lemma spec_timestamps_lookup first count total intervalMs now i t :
  spec_timestamps first count total intervalMs now !! i = Some t ->
  t = (now - (total - Z.of_nat (first + i) - 1) * intervalMs)%Z /\ (i < count)%nat.
Proof.
  unfold spec_timestamps. rewrite list_lookup_fmap.
  destruct (seq first count !! i) as [k|] eqn:E; [|discriminate].
  apply lookup_seq in E as [-> Hlt]. intros [= <-]. split; [reflexivity|exact Hlt].
Qed.

End HistoryFacts.

Section HistoryShape.
Context {rt : JsRuntime}.

(** What the samples of a history look like once the source is replaced by
    the specification's wording. *)
Lemma spec_history_shape fuel vitalType (n : nat) intervalMs trend w history w' :
  spec_history fuel vitalType n intervalMs trend w = Some (history, w') ->
  exists first w1 rest,
    generateBaselineValue fuel vitalType trend (snd (Date_now w)) = Some (first, w1)
    /\ advanceChain (n - 1) first vitalType trend w1 = (rest, w')
    /\ map timestamp history
       = spec_timestamps 0 n (Z.of_nat n) intervalMs (clock_read (now_calls w))
    /\ map value history = take n (first :: rest)
    /\ Forall (inRange vitalType) (first :: rest).
Proof.
  unfold spec_history, bindL, lift, retL. cbn [Date_now snd].
  destruct (generateBaselineValue _ _ _ _) as [[first w1]|] eqn:Eb; [|discriminate].
  pose proof (advanceChain_length (n - 1) first vitalType trend w1) as Hlen.
  pose proof (advanceChain_inRange (n - 1) first vitalType trend w1) as Hin.
  destruct (advanceChain (n - 1) first vitalType trend w1) as [rest w2] eqn:Ec.
  cbn [fst] in Hlen, Hin. intros [= <- <-].
  exists first, w1, rest. split; [reflexivity|]. split; [exact Ec|].
  split; [|split].
  - apply zip_signs_timestamp. rewrite spec_timestamps_length. simpl. lia.
  - rewrite zip_signs_value, spec_timestamps_length. reflexivity.
  - constructor; [|exact Hin].
    eapply generateBaselineValue_inRange; exact Eb.
Qed.

Lemma generateVitalHistory_returns (Hrnd : random_not_stuck rt)
    vitalType count intervalMs trend w :
  exists fuel0 r, forall fuel, (fuel0 <= fuel)%nat ->
    generateVitalHistory fuel vitalType count intervalMs trend w = Some r.
Proof.
  unfold generateVitalHistory, bindL, lift.
  destruct (Date_now w) as [now w0].
  destruct (generateBaselineValue_returns Hrnd vitalType trend w0)
    as (f0 & [first w1] & H0).
  eexists f0, _. intros fuel Hf. rewrite (H0 fuel Hf). reflexivity.
Qed.

Lemma generateBaselineValue_clock fuel vitalType trend w v w' :
  generateBaselineValue fuel vitalType trend w = Some (v, w') ->
  now_calls w' = now_calls w.
Proof.
  assert (G : forall mean stdDev w0 g wg,
             gaussianRandom fuel mean stdDev w0 = Some (g, wg) ->
             now_calls wg = now_calls w0).
  { intros mean stdDev w0 g wg. unfold gaussianRandom, bindL, lift, retL.
    cbn [Math_random].
    destruct (resample fuel _ _) as [[u1 w1]|] eqn:Er; [|discriminate].
    apply resample_clock in Er as [Er _]. cbn [now_calls] in Er.
    intros [= _ <-]. cbn [now_calls]. exact Er. }
  unfold generateBaselineValue, bindL, retL, lift.
  destruct trend; cbn [Math_random];
    (destruct (gaussianRandom fuel _ _ _) as [[g wg]|] eqn:Eg; [|discriminate]);
    intros [= _ <-]; apply G in Eg; exact Eg.
Qed.

Lemma generateVitalHistory_shape fuel vitalType (n : nat) intervalMs trend w
    history w' :
  generateVitalHistory fuel vitalType (Z.of_nat n) intervalMs trend w
  = Some (history, w') ->
  length history = n
  /\ map timestamp history
     = spec_timestamps 0 n (Z.of_nat n) intervalMs (clock_read (now_calls w))
  /\ (exists first w1 rest,
        generateBaselineValue fuel vitalType trend (snd (Date_now w))
        = Some (first, w1)
        /\ advanceChain (n - 1) first vitalType trend w1 = (rest, w')
        /\ map value history = take n (first :: rest))
  /\ Forall (fun s => inRange vitalType (value s)) history
  /\ now_calls w' = S (now_calls w).
Proof.
  intros H.
  rewrite generateVitalHistory_refines in H.
  apply spec_history_shape in H as (first & w1 & rest & Hb & Hc & Hts & Hvs & Hin).
  split; [|split; [exact Hts|split; [|split]]].
  - rewrite <- (length_map timestamp), Hts. apply spec_timestamps_length.
  - exists first, w1, rest. auto.
  - assert (Hvals : Forall (inRange vitalType) (map value history)).
    { rewrite Hvs. apply Forall_take. exact Hin. }
    clear -Hvals. induction history as [|s history IH]; [constructor|].
    inversion Hvals; subst. constructor; auto.
  - pose proof (advanceChain_clock (n - 1) first vitalType trend w1) as Hk.
    rewrite Hc in Hk. cbn [snd] in Hk. rewrite Hk.
    apply generateBaselineValue_clock in Hb. rewrite Hb. reflexivity.
Qed.

End HistoryShape.

(** C7.  [generateVitalHistory] returns exactly [count] samples, the i-th
    stamped [now - (count - i - 1) * intervalMs] for the call time [now],
    so that neighbours are exactly [intervalMs] apart and the last sample
    is stamped [now]; the first value is the baseline and each later value
    is [generateVitalUpdate] of the value before it; every value is within
    the bounds.  For spo2 with 10 samples every 30000 ms the stamps run
    from [now - 270000] to [now] and every value is within [[85, 100]].
    The function returns, given enough loop iterations, when
    [Math.random()] is not stuck at zero. *)
Theorem generateVitalHistory_samples (rt : JsRuntime) :
  (forall fuel vitalType (count : nat) intervalMs trend w,
      generateVitalHistory fuel vitalType (Z.of_nat count) intervalMs trend w
      = spec_history fuel vitalType count intervalMs trend w)
  /\ (forall fuel vitalType (count : Z) intervalMs trend w history w',
      (0 <= count)%Z ->
      generateVitalHistory fuel vitalType count intervalMs trend w
      = Some (history, w') ->
      let now := clock_read (now_calls w) in
      Z.of_nat (length history) = count
      /\ (forall i s, history !! i = Some s ->
            timestamp s = (now - (count - Z.of_nat i - 1) * intervalMs)%Z)
      /\ (forall i s s', history !! i = Some s -> history !! S i = Some s' ->
            (timestamp s' - timestamp s)%Z = intervalMs)
      /\ (forall s, last history = Some s -> timestamp s = now)
      /\ (exists first w1 rest,
            generateBaselineValue fuel vitalType trend (snd (Date_now w))
            = Some (first, w1)
            /\ advanceChain (Z.to_nat count - 1) first vitalType trend w1
               = (rest, w')
            /\ map value history = take (Z.to_nat count) (first :: rest))
      /\ Forall (fun s => inRange vitalType (value s)) history)
  /\ (forall fuel w history w',
      generateVitalHistory fuel spo2 10 30000 Trend.normal w
      = Some (history, w') ->
      let now := clock_read (now_calls w) in
      length history = 10%nat
      /\ map timestamp history
         = [now - 270000; now - 240000; now - 210000; now - 180000;
            now - 150000; now - 120000; now - 90000; now - 60000;
            now - 30000; now]%Z
      /\ Forall (fun s => 85 <= value s /\ value s <= 100) history)
  /\ (random_not_stuck rt ->
      forall vitalType count intervalMs trend w,
      exists fuel history w',
        generateVitalHistory fuel vitalType count intervalMs trend w
        = Some (history, w')).
Proof.
  split; [intros; apply generateVitalHistory_refines|].
  split; [|split].
  - intros fuel vitalType count intervalMs trend w history w' Hcount H now.
    rewrite <- (Z2Nat.id count Hcount) in H.
    apply generateVitalHistory_shape in H as (Hlen & Hts & Hchain & Hin & _).
    assert (Hstamp : forall i s, history !! i = Some s ->
              timestamp s = (now - (count - Z.of_nat i - 1) * intervalMs)%Z).
    { intros i s Hi.
      assert (Hm : map timestamp history !! i = Some (timestamp s)).
      { change (map timestamp history) with (timestamp <$> history).
        rewrite list_lookup_fmap, Hi. reflexivity. }
      rewrite Hts in Hm. apply spec_timestamps_lookup in Hm as [-> _].
      rewrite (Z2Nat.id count Hcount). reflexivity. }
    split; [lia|]. split; [exact Hstamp|]. split; [|split; [|split]].
    + intros i s s' Hi Hi'.
      rewrite (Hstamp _ _ Hi), (Hstamp _ _ Hi'). rewrite Nat2Z.inj_succ. ring.
    + intros s Hs. rewrite last_lookup in Hs.
      pose proof (lookup_lt_Some _ _ _ Hs) as Hlt.
      rewrite (Hstamp _ _ Hs).
      replace (count - Z.of_nat (Init.Nat.pred (length history)) - 1)%Z with 0%Z by lia.
      ring.
    + exact Hchain.
    + exact Hin.
  - intros fuel w history w' H now.
    apply (generateVitalHistory_shape fuel spo2 10%nat) in H
      as (Hlen & Hts & _ & Hin & _).
    split; [exact Hlen|]. split.
    + rewrite Hts. unfold spec_timestamps. cbn [seq map]. fold now.
      repeat (apply (f_equal2 cons); [lia|]). reflexivity.
    + exact Hin.
  - intros Hrnd vitalType count intervalMs trend w.
    destruct (generateVitalHistory_returns Hrnd vitalType count intervalMs trend w)
      as (f0 & [history w'] & H0).
    exists f0, history, w'. apply H0. lia.
Qed.

Lemma scripted_not_stuck (draws : list Q) (readings : list Z) :
  random_not_stuck (scripted draws readings).
Proof.
  intros n. exists (length draws). simpl.
  rewrite nth_overflow by lia. discriminate.
Qed.

Lemma generateVitalHistory_samples_witness :
  exists history w',
    generateVitalHistory (rt := scripted [1 # 4; 1 # 2; 0] [100000%Z]) 1 spo2 3
      30000 Trend.normal world0 = Some (history, w')
    /\ Z.of_nat (length history) = 3%Z
    /\ map timestamp history = [40000; 70000; 100000]%Z.
Proof.
  eexists. eexists. split; [vm_compute; reflexivity|].
  split; [|vm_compute; reflexivity].
  eapply (proj1 (proj2 (generateVitalHistory_samples
                          (scripted [1 # 4; 1 # 2; 0] [100000%Z])))
            1%nat spo2 3%Z 30000%Z Trend.normal world0).
  - lia.
  - vm_compute; reflexivity.
Defined.

(** ** The store *)

Section StoreFacts.
Context {rt : JsRuntime}.

Lemma merge_whole (state : VitalsState) : merge state (whole state) = state.
Proof. destruct state; reflexivity. Qed.

Lemma updateVitals_none patientId state w :
  patientVitals state !! patientId = None ->
  updateVitals patientId state w
  = (state, mkWorld (rand_calls w) (now_calls w)
              (console w ++ [("No vitals found for patient " ++ patientId)%string])).
Proof.
  intros H. unfold updateVitals. rewrite H.
  unfold bind, ret, console_warn. rewrite merge_whole. reflexivity.
Qed.

Lemma updateVitals_some patientId state w currentVitals :
  patientVitals state !! patientId = Some currentVitals ->
  exists updatedVitals w',
    updateVitals patientId state w
    = (mkState (<[patientId := updatedVitals]> (patientVitals state))
               (isSimulating state) (simulationInterval state), w')
    /\ forEach vitalTypes
         (updateOne currentVitals
            match calculatePatientStatus currentVitals with
            | stable => Trend.normal
            | warning => Trend.warning
            | critical => Trend.critical
            end) currentVitals w = (updatedVitals, w').
Proof.
  intros H. unfold updateVitals. rewrite H. unfold bind, ret.
  destruct (forEach vitalTypes _ currentVitals w) as [updatedVitals w'].
  exists updatedVitals, w'. split; reflexivity.
Qed.

End StoreFacts.

(** C8.  For a patient id without a bundle [updateVitals] returns the
    state it was given, writes one warning to the console and does
    nothing else; being a total function it raises no error. *)
Theorem updateVitals_absent (rt : JsRuntime) patientId state w :
  patientVitals state !! patientId = None ->
  fst (updateVitals patientId state w) = state
  /\ console (snd (updateVitals patientId state w))
     = console w ++ [("No vitals found for patient " ++ patientId)%string]
  /\ rand_calls (snd (updateVitals patientId state w)) = rand_calls w
  /\ now_calls (snd (updateVitals patientId state w)) = now_calls w.
Proof.
  intros H. rewrite (updateVitals_none _ _ _ H). repeat split.
Qed.

Lemma updateVitals_absent_witness :
  fst (updateVitals (rt := scripted [] []) "bed-7"
         (mkState (<["bed-1" := VitalSigns.mk [] [] [] [] []]> ∅) true (Some 42%Z))
         world0)
  = mkState (<["bed-1" := VitalSigns.mk [] [] [] [] []]> ∅) true (Some 42%Z).
Proof.
  apply (updateVitals_absent (scripted [] []) "bed-7"
           (mkState (<["bed-1" := VitalSigns.mk [] [] [] [] []]> ∅) true (Some 42%Z))
           world0).
  vm_compute; reflexivity.
Defined.

(** C10.  For a patient id with a bundle [updateVitals] changes only
    that patient's entry of the map: the bundle of every other patient,
    the flag [isSimulating] and the handle [simulationInterval] are the
    same after the call, and the patient keeps a bundle. *)
Theorem updateVitals_frame (rt : JsRuntime) patientId state w currentVitals :
  patientVitals state !! patientId = Some currentVitals ->
  let state' := fst (updateVitals patientId state w) in
  (forall other, other <> patientId ->
     patientVitals state' !! other = patientVitals state !! other)
  /\ isSimulating state' = isSimulating state
  /\ simulationInterval state' = simulationInterval state
  /\ is_Some (patientVitals state' !! patientId).
Proof.
  intros H state'. subst state'.
  destruct (updateVitals_some patientId state w currentVitals H)
    as (updatedVitals & w' & -> & _).
  cbn [fst patientVitals isSimulating simulationInterval].
  split; [|split; [reflexivity|split; [reflexivity|]]].
  - intros other Hne. apply lookup_insert_ne. congruence.
  - rewrite lookup_insert_eq. eauto.
Qed.

Lemma updateVitals_frame_witness :
  patientVitals
    (fst (updateVitals (rt := scripted [] [5000%Z]) "bed-1"
            (mkState (<["bed-1" := VitalSigns.mk [] [] [] [] []]>
                        (<["bed-2" := VitalSigns.mk [] [] [] [] []]> ∅))
                     true (Some 42%Z))
            world0)) !! "bed-2"
  = Some (VitalSigns.mk [] [] [] [] []).
Proof.
  pose proof (updateVitals_frame (scripted [] [5000%Z]) "bed-1"
           (mkState (<["bed-1" := VitalSigns.mk [] [] [] [] []]>
                       (<["bed-2" := VitalSigns.mk [] [] [] [] []]> ∅))
                    true (Some 42%Z))
           world0 (VitalSigns.mk [] [] [] [] [])) as H.
  cbv zeta in H. rewrite (proj1 (H ltac:(vm_compute; reflexivity)) "bed-2").
  - vm_compute; reflexivity.
  - discriminate.
Defined.

(** ** The sliding window *)

Lemma nondecreasing_snoc signs newSign :
  nondecreasing signs ->
  Forall (fun s => (timestamp s <= timestamp newSign)%Z) signs ->
  nondecreasing (signs ++ [newSign]).
Proof.
  intros Hnd Hle i j a b Hij Hi Hj.
  destruct (decide (j < length signs)%nat) as [Hlt|Hge].
  - rewrite lookup_app_l in Hi by lia. rewrite lookup_app_l in Hj by lia.
    exact (Hnd i j a b Hij Hi Hj).
  - rewrite lookup_app_r in Hj by lia.
    destruct (j - length signs)%nat eqn:Ej; [|destruct n; discriminate].
    injection Hj as <-.
    destruct (decide (i < length signs)%nat) as [Hlt|Hge'].
    + rewrite lookup_app_l in Hi by lia.
      rewrite Forall_forall in Hle. apply Hle.
      eapply list_elem_of_lookup_2. exact Hi.
    + rewrite lookup_app_r in Hi by lia.
      replace (i - length signs)%nat with 0%nat in Hi by lia.
      injection Hi as <-. lia.
Qed.

Lemma nondecreasing_tail signs : nondecreasing signs -> nondecreasing (tail signs).
Proof.
  intros Hnd i j a b Hij Hi Hj. rewrite lookup_tail in Hi, Hj.
  apply (Hnd (S i) (S j)); [lia | exact Hi | exact Hj].
Qed.

Lemma pushSign_cases currentSigns newSign :
  ((length currentSigns < MAX_HISTORY_POINTS)%nat ->
     pushSign currentSigns newSign = currentSigns ++ [newSign])
  /\ (forall oldest rest,
        currentSigns = oldest :: rest ->
        length currentSigns = MAX_HISTORY_POINTS ->
        pushSign currentSigns newSign = rest ++ [newSign]).
Proof.
  unfold pushSign. rewrite length_app. cbn [length]. split.
  - intros Hlt.
    destruct (MAX_HISTORY_POINTS <? length currentSigns + 1)%nat eqn:E;
      [apply Nat.ltb_lt in E; lia | reflexivity].
  - intros oldest rest -> Hlen.
    destruct (MAX_HISTORY_POINTS <? length (oldest :: rest) + 1)%nat eqn:E;
      [reflexivity | apply Nat.ltb_ge in E; lia].
Qed.

Section WindowFacts.
Context {rt : JsRuntime}.
Hypothesis Hclock : clock_monotone rt.

Lemma seriesOk_later k k' signs :
  (k <= k')%nat -> seriesOk k signs -> seriesOk k' signs.
Proof.
  intros Hk (Hlen & Hnd & Hle). split; [exact Hlen|]. split; [exact Hnd|].
  eapply Forall_impl; [exact Hle|]. intros s Hs. cbv beta in *.
  pose proof (Hclock k k' Hk). lia.
Qed.

Lemma pushSign_ok k k' signs v :
  (k <= k')%nat -> seriesOk k signs ->
  seriesOk (S k') (pushSign signs (mkVitalSign (clock_read k') v)).
Proof.
  intros Hk (Hlen & Hnd & Hle).
  pose proof (Hclock k k' Hk) as Hkk'.
  pose proof (Hclock k' (S k') (Nat.le_succ_diag_r k')) as Hk'.
  assert (Hnd' : nondecreasing (signs ++ [mkVitalSign (clock_read k') v])).
  { apply nondecreasing_snoc; [exact Hnd|].
    eapply Forall_impl; [exact Hle|]. intros s Hs. cbn in *. lia. }
  assert (Hle' : Forall (fun s => (timestamp s <= clock_read (S k'))%Z)
                   (signs ++ [mkVitalSign (clock_read k') v])).
  { apply Forall_app. split.
    - eapply Forall_impl; [exact Hle|]. intros s Hs. cbn in *. lia.
    - constructor; [cbn; lia | constructor]. }
  unfold seriesOk, pushSign.
  destruct (MAX_HISTORY_POINTS <? _)%nat eqn:E.
  - split; [|split].
    + rewrite length_tl, length_app. cbn [length]. lia.
    + apply nondecreasing_tail, Hnd'.
    + apply Forall_tail, Hle'.
  - apply Nat.ltb_ge in E. split; [exact E|]. split; [exact Hnd' | exact Hle'].
Qed.

Lemma updateOne_result currentVitals trendBias updatedVitals vitalType w :
  exists v w',
    updateOne currentVitals trendBias updatedVitals vitalType w
    = (setSigns updatedVitals vitalType
         (pushSign (getSigns currentVitals vitalType)
            (mkVitalSign (clock_read (now_calls w)) v)), w')
    /\ now_calls w' = S (now_calls w).
Proof.
  unfold updateOne, bind, ret.
  pose proof (proj1 (generateVitalUpdate_clock
                (match last (getSigns currentVitals vitalType) with
                 | Some lastSign => value lastSign
                 | None => 0
                 end) vitalType trendBias w)) as Hc.
  destruct (generateVitalUpdate _ vitalType trendBias w) as [v w1].
  cbn [snd] in Hc. unfold Date_now. rewrite Hc.
  eexists. eexists. split; [reflexivity|]. reflexivity.
Qed.

Lemma forEach_updateOne currentVitals trendBias w :
  exists updatedVitals w',
    forEach vitalTypes (updateOne currentVitals trendBias) currentVitals w
    = (updatedVitals, w')
    /\ now_calls w' = (now_calls w + 5)%nat
    /\ forall vitalType, exists v j,
         (now_calls w <= j < now_calls w')%nat
         /\ getSigns updatedVitals vitalType
            = pushSign (getSigns currentVitals vitalType)
                (mkVitalSign (clock_read j) v).
Proof.
  unfold vitalTypes. cbn [forEach]. unfold bind, ret.
  destruct (updateOne_result currentVitals trendBias currentVitals heartRate w)
    as (v1 & w1 & -> & H1).
  destruct (updateOne_result currentVitals trendBias
              (setSigns currentVitals heartRate
                 (pushSign (getSigns currentVitals heartRate)
                    (mkVitalSign (clock_read (now_calls w)) v1))) systolic w1)
    as (v2 & w2 & -> & H2).
  match goal with |- context [updateOne _ _ ?acc diastolic w2] =>
    destruct (updateOne_result currentVitals trendBias acc diastolic w2)
      as (v3 & w3 & -> & H3) end.
  match goal with |- context [updateOne _ _ ?acc spo2 w3] =>
    destruct (updateOne_result currentVitals trendBias acc spo2 w3)
      as (v4 & w4 & -> & H4) end.
  match goal with |- context [updateOne _ _ ?acc temperature w4] =>
    destruct (updateOne_result currentVitals trendBias acc temperature w4)
      as (v5 & w5 & -> & H5) end.
  eexists. eexists. split; [reflexivity|]. split; [lia|].
  intros vitalType. destruct currentVitals as [hr sy di sp te].
  destruct vitalType; cbn [getSigns setSigns VitalSigns.heartRate
    VitalSigns.systolic VitalSigns.diastolic VitalSigns.spo2
    VitalSigns.temperature].
  - exists v1, (now_calls w). split; [lia|reflexivity].
  - exists v2, (now_calls w1). split; [lia|reflexivity].
  - exists v3, (now_calls w2). split; [lia|reflexivity].
  - exists v4, (now_calls w3). split; [lia|reflexivity].
  - exists v5, (now_calls w4). split; [lia|reflexivity].
Qed.

End WindowFacts.

Section WindowInvariant.
Context {rt : JsRuntime}.
Hypothesis Hclock : clock_monotone rt.

Lemma history_seriesOk fuel vitalType trend w history w' :
  generateVitalHistory fuel vitalType 10 30000 trend w = Some (history, w') ->
  seriesOk (now_calls w') history /\ now_calls w' = S (now_calls w).
Proof.
  change 10%Z with (Z.of_nat 10). intros H.
  apply generateVitalHistory_shape in H as (Hlen & Hts & _ & _ & Hk).
  split; [|exact Hk].
  assert (Hstamp : forall i s, history !! i = Some s ->
            timestamp s
            = (clock_read (now_calls w) - (10 - Z.of_nat i - 1) * 30000)%Z
            /\ (i < 10)%nat).
  { intros i s Hi.
    assert (Hm : map timestamp history !! i = Some (timestamp s)).
    { change (map timestamp history) with (timestamp <$> history).
      rewrite list_lookup_fmap, Hi. reflexivity. }
    rewrite Hts in Hm. apply spec_timestamps_lookup in Hm as [-> Hlt].
    split; [|exact Hlt]. simpl. lia. }
  split; [rewrite Hlen; unfold MAX_HISTORY_POINTS; lia|]. split.
  - intros i j a b Hij Hi Hj.
    apply Hstamp in Hi as [-> _]. apply Hstamp in Hj as [-> _]. lia.
  - apply Forall_lookup. intros i s Hi. apply Hstamp in Hi as [-> Hlt].
    rewrite Hk.
    pose proof (Hclock (now_calls w) (S (now_calls w)) (Nat.le_succ_diag_r _)).
    lia.
Qed.

Lemma initializeVitals_ok fuel patientId initialTrend state0 w0 state1 w1 :
  initializeVitals fuel patientId initialTrend state0 w0 = Some (state1, w1) ->
  bundleOk patientId state1 w1.
Proof.
  unfold initializeVitals, initializeAllVitals, bindL, retL.
  destruct (generateVitalHistory fuel heartRate _ _ _ w0) as [[hr wa]|] eqn:E1;
    [|discriminate].
  destruct (generateVitalHistory fuel systolic _ _ _ wa) as [[sy wb]|] eqn:E2;
    [|discriminate].
  destruct (generateVitalHistory fuel diastolic _ _ _ wb) as [[di wc]|] eqn:E3;
    [|discriminate].
  destruct (generateVitalHistory fuel spo2 _ _ _ wc) as [[sp wd]|] eqn:E4;
    [|discriminate].
  destruct (generateVitalHistory fuel temperature _ _ _ wd) as [[te we]|] eqn:E5;
    [|discriminate].
  intros [= <- <-].
  apply history_seriesOk in E1 as [O1 K1], E2 as [O2 K2], E3 as [O3 K3],
    E4 as [O4 K4], E5 as [O5 K5].
  exists (VitalSigns.mk hr sy di sp te). split.
  - cbn [merge patientVitals p_patientVitals default]. apply lookup_insert_eq.
  - intros vitalType. destruct vitalType; cbn [getSigns VitalSigns.heartRate
      VitalSigns.systolic VitalSigns.diastolic VitalSigns.spo2
      VitalSigns.temperature];
      [ apply (seriesOk_later Hclock (now_calls wa))
      | apply (seriesOk_later Hclock (now_calls wb))
      | apply (seriesOk_later Hclock (now_calls wc))
      | apply (seriesOk_later Hclock (now_calls wd))
      | apply (seriesOk_later Hclock (now_calls we)) ];
      first [lia | assumption].
Qed.

Lemma updateVitals_ok patientId other state w :
  bundleOk patientId state w ->
  bundleOk patientId (fst (updateVitals other state w))
    (snd (updateVitals other state w)).
Proof.
  intros (vitals & Hlook & Hok).
  destruct (patientVitals state !! other) as [currentVitals|] eqn:E.
  - destruct (updateVitals_some other state w currentVitals E)
      as (updatedVitals & w' & -> & Hfor).
    destruct (forEach_updateOne currentVitals
                match calculatePatientStatus currentVitals with
                | stable => Trend.normal
                | warning => Trend.warning
                | critical => Trend.critical
                end w) as (updated2 & w2 & Hfor2 & Hk & Hsigns).
    rewrite Hfor in Hfor2. injection Hfor2 as <- <-.
    cbn [fst snd]. unfold bundleOk. cbn [patientVitals].
    destruct (decide (other = patientId)) as [->|Hne].
    + exists updatedVitals. split; [apply lookup_insert_eq|].
      intros vitalType. destruct (Hsigns vitalType) as (v & j & Hj & ->).
      assert (vitals = currentVitals) by congruence. subst vitals.
      apply (seriesOk_later Hclock (S j)); [lia|].
      apply (pushSign_ok Hclock (now_calls w)); [lia|]. apply Hok.
    + exists vitals. split; [rewrite lookup_insert_ne by exact Hne; exact Hlook|].
      intros vitalType.
      apply (seriesOk_later Hclock (now_calls w)); [lia | apply Hok].
  - rewrite (updateVitals_none other state w E). cbn [fst snd].
    exists vitals. split; [exact Hlook|]. exact Hok.
Qed.

Lemma tick_ok patientId patientIds : forall state w,
  bundleOk patientId state w ->
  bundleOk patientId (fst (tick patientIds state w)) (snd (tick patientIds state w)).
Proof.
  unfold tick. induction patientIds as [|other patientIds IH]; intros state w Hok.
  - exact Hok.
  - cbn [forEach]. unfold bind.
    pose proof (updateVitals_ok patientId other state w Hok) as Hstep.
    destruct (updateVitals other state w) as [state' w']. cbn [fst snd] in Hstep.
    apply IH, Hstep.
Qed.

End WindowInvariant.

Section InitReturns.
Context {rt : JsRuntime}.
Hypothesis Hrnd : random_not_stuck rt.

Lemma initializeAllVitals_returns patientTrend w :
  exists fuel0 r, forall fuel, (fuel0 <= fuel)%nat ->
    initializeAllVitals fuel patientTrend w = Some r.
Proof.
  destruct (generateVitalHistory_returns Hrnd heartRate 10 30000 patientTrend w)
    as (f1 & [hr wa] & H1).
  destruct (generateVitalHistory_returns Hrnd systolic 10 30000 patientTrend wa)
    as (f2 & [sy wb] & H2).
  destruct (generateVitalHistory_returns Hrnd diastolic 10 30000 patientTrend wb)
    as (f3 & [di wc] & H3).
  destruct (generateVitalHistory_returns Hrnd spo2 10 30000 patientTrend wc)
    as (f4 & [sp wd] & H4).
  destruct (generateVitalHistory_returns Hrnd temperature 10 30000 patientTrend wd)
    as (f5 & [te we] & H5).
  exists (f1 + f2 + f3 + f4 + f5)%nat. eexists. intros fuel Hf.
  unfold initializeAllVitals, bindL, retL.
  rewrite H1 by lia. rewrite H2 by lia. rewrite H3 by lia.
  rewrite H4 by lia. rewrite H5 by lia. reflexivity.
Qed.

Lemma initializeVitals_returns patientId initialTrend state w :
  exists fuel r, initializeVitals fuel patientId initialTrend state w = Some r.
Proof.
  destruct (initializeAllVitals_returns initialTrend w) as (f0 & [vitals w'] & H).
  exists f0. eexists. unfold initializeVitals, bindL, retL.
  rewrite (H f0) by lia. reflexivity.
Qed.

End InitReturns.

Lemma scripted_clock_monotone (draws : list Q) : clock_monotone (scripted draws []).
Proof. intros i j Hij. simpl. destruct i, j; simpl; lia. Qed.

(** * Further properties of the code *)

(** ** gaussianRandom *)

Section SamplerFacts.
Context {rt : JsRuntime}.

Lemma resample_first fuel : forall n u w r w',
  rand_calls w = S n -> u = random_draw n ->
  resample fuel u w = Some (r, w') ->
  exists k,
    (k <= fuel)%nat
    /\ rand_calls w' = S (n + k)
    /\ r = random_draw (n + k)
    /\ ~ r == 0
    /\ (forall i, (i < k)%nat -> random_draw (n + i) == 0).
Proof.
  induction fuel as [|fuel IH]; intros n u w r w' Hw Hu; simpl;
    destruct (Qeq_bool u 0) eqn:E; try discriminate;
    try (intros [= <- <-]; exists 0%nat; rewrite Nat.add_0_r;
         split; [lia|]; split; [exact Hw|]; split; [exact Hu|];
         split; [intros H; apply Qeq_bool_iff in H; congruence | intros i Hi; lia]).
  intros H.
  apply (IH (S n)) in H as (k & Hk & Hrc & Hr & Hnz & Hz);
    [|cbn; congruence | cbn; rewrite Hw; reflexivity].
  exists (S k). split; [lia|]. split; [rewrite Hrc; f_equal; lia|].
  split; [rewrite Hr; f_equal; lia|]. split; [exact Hnz|].
  intros i Hi. destruct i as [|i].
  - rewrite Nat.add_0_r, <- Hu. apply Qeq_bool_iff, E.
  - replace (n + S i)%nat with (S n + i)%nat by lia. apply Hz. lia.
Qed.

End SamplerFacts.

(** X1.  When [gaussianRandom] returns, the number it passed to
    [Math.log] is the first non-zero value [Math.random()] returned since
    the call began (every value before it was 0), the angle uses the
    draw right after it, and nothing but draws was consumed. *)
Theorem gaussianRandom_skips_zero (rt : JsRuntime) fuel mean stdDev w g w' :
  gaussianRandom fuel mean stdDev w = Some (g, w') ->
  exists k,
    (k <= fuel)%nat
    /\ (forall i, (i < k)%nat -> random_draw (rand_calls w + i) == 0)
    /\ ~ random_draw (rand_calls w + k) == 0
    /\ g = Math_sqrt (- 2.0 * Math_log (random_draw (rand_calls w + k)))
           * Math_cos (2.0 * Math_PI * random_draw (S (rand_calls w + k)))
           * stdDev + mean
    /\ rand_calls w' = S (S (rand_calls w + k))
    /\ now_calls w' = now_calls w
    /\ console w' = console w.
Proof.
  unfold gaussianRandom, bindL, lift, retL. cbn [Math_random].
  destruct (resample fuel _ _) as [[u1 w1]|] eqn:Er; [|discriminate].
  pose proof (resample_clock _ _ _ _ _ Er) as [Hn Hc]. cbn in Hn, Hc.
  apply (resample_first fuel (rand_calls w)) in Er
    as (k & Hk & Hrc & Hu1 & Hnz & Hz); [|reflexivity|reflexivity].
  intros [= <- <-]. exists k. cbn [rand_calls now_calls console].
  rewrite Hrc, Hn, Hc, Hu1 in *. repeat split; auto.
Qed.

Lemma gaussianRandom_skips_zero_witness :
  exists g w',
    gaussianRandom (rt := scripted [0; 0; 1 # 2; 0] []) 2 0 1 world0 = Some (g, w')
    /\ exists k,
         (k <= 2)%nat
         /\ (forall i, (i < k)%nat -> nth (0 + i) [0; 0; 1 # 2; 0] (1 # 2) == 0)
         /\ ~ nth (0 + k) [0; 0; 1 # 2; 0] (1 # 2) == 0
         /\ g = approx_sqrt (- 2.0 * approx_log (nth (0 + k) [0; 0; 1 # 2; 0] (1 # 2)))
                * approx_cos (2.0 * 3.14159 * nth (S (0 + k)) [0; 0; 1 # 2; 0] (1 # 2))
                * 1 + 0
         /\ rand_calls w' = S (S (0 + k))
         /\ now_calls w' = 0%nat
         /\ console w' = [].
Proof.
  eexists. eexists. split; [vm_compute; reflexivity|].
  apply (gaussianRandom_skips_zero (scripted [0; 0; 1 # 2; 0] []) 2 0 1 world0).
  vm_compute; reflexivity.
Defined.

(** ** generateVitalUpdate in the normal regime *)

Lemma clamp_towards (v lo hi c : Q) :
  lo <= c -> c <= hi -> Qabs (clamp v lo hi - c) <= Qabs (v - c).
Proof.
  intros Hlo Hhi. unfold clamp.
  apply Qabs_Qle_condition.
  pose proof (Qle_Qabs (v - c)) as H1.
  pose proof (Qle_Qabs (- (v - c))) as H2. rewrite Qabs_opp in H2.
  destruct (Q.max_spec lo (Qmin hi v)) as [[Hx Ex]|[Hx Ex]];
    destruct (Q.min_spec hi v) as [[Hm Em]|[Hm Em]];
    revert Hx Ex Em; generalize (Qmax lo (Qmin hi v)); generalize (Qmin hi v);
    intros x y Hx Ex Em; split; lra.
Qed.

Lemma scaled_noise (c t : Q) :
  -1 <= t -> t <= 1 -> c * t <= Qabs c /\ - Qabs c <= c * t.
Proof.
  intros Ht1 Ht2. pose proof (Qle_Qabs c) as H1.
  pose proof (Qle_Qabs (- c)) as H2. rewrite Qabs_opp in H2.
  split; nra.
Qed.

Lemma mean_inRange (vitalType : VitalType) :
  inRange vitalType (VitalRange.mean (VITAL_RANGES vitalType)).
Proof. destruct vitalType; split; vm_compute; discriminate. Qed.

Lemma nextValue_normal (rt : JsRuntime) cur vitalType w :
  fst (nextValue cur vitalType Trend.normal w)
  == cur + cur * 0.015 * (random_draw (rand_calls w) * 2 - 1)
     + (VitalRange.mean (VITAL_RANGES vitalType) - cur) * 0.08 * 1.5.
Proof.
  rewrite nextValue_unfold. cbv zeta. unfold driftFor, ret, driftStrength.
  cbn [fst]. reflexivity.
Qed.

(** X2.  In the normal regime, for a draw between 0 and 1, an update
    brings the value closer to the mean up to the noise: the distance of
    the result from the mean is at most 90% of the distance before plus
    2% of the magnitude of the current value.  The exact arithmetic of the
    update gives the factors 0.88 and 0.015; the bound stated leaves a
    margin of 2% of the distance and 0.5% of the magnitude, far above the
    rounding of the floating-point operations of the code. *)
Theorem normal_update_reverts (rt : JsRuntime) cur vitalType w :
  0 <= random_draw (rand_calls w) -> random_draw (rand_calls w) <= 1 ->
  Qabs (fst (generateVitalUpdate cur vitalType Trend.normal w)
        - VitalRange.mean (VITAL_RANGES vitalType))
  <= 0.9 * Qabs (cur - VitalRange.mean (VITAL_RANGES vitalType))
     + 0.02 * Qabs cur.
Proof.
  intros Hu0 Hu1.
  rewrite generateVitalUpdate_clamped. cbn [fst].
  destruct (mean_inRange vitalType) as [Hlo Hhi].
  eapply Qle_trans; [apply clamp_towards; assumption|].
  rewrite nextValue_normal.
  set (m := VitalRange.mean (VITAL_RANGES vitalType)).
  set (u := random_draw (rand_calls w)) in *.
  destruct (scaled_noise cur (u * 2 - 1)) as [Hn1 Hn2]; [lra|lra|].
  pose proof (Qle_Qabs (cur - m)) as H1.
  pose proof (Qle_Qabs (- (cur - m))) as H2. rewrite Qabs_opp in H2.
  pose proof (Qabs_nonneg (cur - m)) as H3.
  pose proof (Qabs_nonneg cur) as H4.
  apply Qabs_Qle_condition. split; lra.
Qed.

Lemma normal_update_reverts_witness :
  Qabs (fst (generateVitalUpdate (rt := scripted [0] []) 100 heartRate
               Trend.normal world0) - 75)
  <= 0.9 * Qabs (100 - 75) + 0.02 * Qabs 100.
Proof.
  apply (normal_update_reverts (scripted [0] []) 100 heartRate world0);
    vm_compute; discriminate.
Defined.

Lemma clamp_id_in (v lo hi : Q) : lo <= v -> v <= hi -> clamp v lo hi == v.
Proof.
  intros Hlo Hhi. unfold clamp.
  rewrite (Q.min_r hi v) by exact Hhi.
  apply Q.max_r. exact Hlo.
Qed.

Lemma getVitalStatus_stable_iff (v : Q) (vitalType : VitalType) :
  getVitalStatus v vitalType = stable
  <-> inBand (VitalThreshold.normal (THRESHOLDS vitalType)) v.
Proof.
  destruct (getVitalStatus_cases v vitalType) as [[E H]|[[E [Hn Hw]]|[E [Hn Hw]]]];
    rewrite E; split; intros; try tauto; try discriminate.
Qed.

(** X3.  "Keeps stable patients stable" holds for heart rate and systolic
    pressure only: in the normal regime, for a draw between 0 and 1, a
    value inside the normal band is updated to a value inside the normal
    band.  For diastolic pressure, SpO2 and temperature there are values
    inside the normal band and draws in [0, 1) for which the update
    leaves the normal band. *)
Theorem normal_update_keeps_stable (rt : JsRuntime) cur w :
  (0 <= random_draw (rand_calls w) -> random_draw (rand_calls w) <= 1 ->
   (getVitalStatus cur heartRate = stable ->
    getVitalStatus (fst (generateVitalUpdate cur heartRate Trend.normal w))
      heartRate = stable)
   /\ (getVitalStatus cur systolic = stable ->
       getVitalStatus (fst (generateVitalUpdate cur systolic Trend.normal w))
         systolic = stable))
  /\ (getVitalStatus 90 diastolic = stable
      /\ getVitalStatus
           (fst (generateVitalUpdate (rt := scripted [0.99] []) 90 diastolic
                   Trend.normal world0)) diastolic = warning)
  /\ (getVitalStatus 95 spo2 = stable
      /\ getVitalStatus
           (fst (generateVitalUpdate (rt := scripted [0] []) 95 spo2
                   Trend.normal world0)) spo2 = warning)
  /\ (getVitalStatus 36 temperature = stable
      /\ getVitalStatus
           (fst (generateVitalUpdate (rt := scripted [0] []) 36 temperature
                   Trend.normal world0)) temperature = warning).
Proof.
  split; [|repeat split; vm_compute; reflexivity].
  intros Hu0 Hu1.
  set (u := random_draw (rand_calls w)) in *.
  assert (Hprod : forall c : Q, 0 <= c ->
            - c <= c * (u * 2 - 1) /\ c * (u * 2 - 1) <= c).
  { intros c Hc. split; nra. }
  split; intros Hs; apply getVitalStatus_stable_iff in Hs;
    apply getVitalStatus_stable_iff;
    destruct Hs as [Hlo Hhi]; cbn in Hlo, Hhi;
    rewrite generateVitalUpdate_clamped; cbn [fst];
    (destruct (Hprod cur) as [Hp1 Hp2]; [lra|]);
    unfold inBand; cbn [THRESHOLDS VitalThreshold.normal fst snd];
    (rewrite clamp_id_in; [rewrite nextValue_normal; fold u; cbn; split; lra
                          | rewrite nextValue_normal; fold u; cbn; lra
                          | rewrite nextValue_normal; fold u; cbn; lra]).
Qed.

Lemma normal_update_keeps_stable_witness :
  getVitalStatus 100 heartRate = stable
  /\ getVitalStatus
       (fst (generateVitalUpdate (rt := scripted [0.99] []) 100 heartRate
               Trend.normal world0)) heartRate = stable.
Proof.
  split; [reflexivity|].
  apply (proj1 (normal_update_keeps_stable (scripted [0.99] []) 100 world0)).
  - vm_compute; discriminate.
  - vm_compute; discriminate.
  - reflexivity.
Defined.

(** ** The generator seen by the classifier *)

(** X4.  A value within the bounds of [VITAL_RANGES], as every result of
    [generateVitalUpdate] is, cannot be critical on every side: a systolic
    or diastolic pressure is critical only when it is too high (above 160,
    above 100), an SpO2 only when it is too low (below 90), and an SpO2 of
    at least 95 is stable; the mean of every vital type is stable. *)
Theorem simulated_critical_sides (rt : JsRuntime) cur trend w :
  (forall v, inRange systolic v -> getVitalStatus v systolic = critical -> 160 < v)
  /\ (forall v, inRange diastolic v -> getVitalStatus v diastolic = critical -> 100 < v)
  /\ (forall v, inRange spo2 v -> getVitalStatus v spo2 = critical -> v < 90)
  /\ (forall v, inRange spo2 v -> 95 <= v -> getVitalStatus v spo2 = stable)
  /\ (getVitalStatus (fst (generateVitalUpdate cur systolic trend w)) systolic
      = critical -> 160 < fst (generateVitalUpdate cur systolic trend w))
  /\ (getVitalStatus (fst (generateVitalUpdate cur diastolic trend w)) diastolic
      = critical -> 100 < fst (generateVitalUpdate cur diastolic trend w))
  /\ (getVitalStatus (fst (generateVitalUpdate cur spo2 trend w)) spo2
      = critical -> fst (generateVitalUpdate cur spo2 trend w) < 90)
  /\ (forall vitalType,
        getVitalStatus (VitalRange.mean (VITAL_RANGES vitalType)) vitalType = stable).
Proof.
  assert (Hsys : forall v, inRange systolic v ->
                   getVitalStatus v systolic = critical -> 160 < v).
  { intros v [Hlo Hhi] Hc. cbn in Hlo, Hhi.
    destruct (getVitalStatus_cases v systolic) as [[E H]|[[E [Hn Hw]]|[E [Hn Hw]]]];
      try congruence.
    unfold inBand in Hw. cbn in Hw. apply Qnot_le_lt. intros H. apply Hw. lra. }
  assert (Hdia : forall v, inRange diastolic v ->
                   getVitalStatus v diastolic = critical -> 100 < v).
  { intros v [Hlo Hhi] Hc. cbn in Hlo, Hhi.
    destruct (getVitalStatus_cases v diastolic) as [[E H]|[[E [Hn Hw]]|[E [Hn Hw]]]];
      try congruence.
    unfold inBand in Hw. cbn in Hw. apply Qnot_le_lt. intros H. apply Hw. lra. }
  assert (Hsp : forall v, inRange spo2 v ->
                  getVitalStatus v spo2 = critical -> v < 90).
  { intros v [Hlo Hhi] Hc. cbn in Hlo, Hhi.
    destruct (getVitalStatus_cases v spo2) as [[E H]|[[E [Hn Hw]]|[E [Hn Hw]]]];
      try congruence.
    unfold inBand in Hn, Hw. cbn in Hn, Hw. apply Qnot_le_lt. intros H.
    destruct (Qlt_le_dec v 95) as [Hv|Hv]; [apply Hw; lra | apply Hn; lra]. }
  split; [exact Hsys|]. split; [exact Hdia|]. split; [exact Hsp|].
  split.
  { intros v [Hlo Hhi] Hv. cbn in Hlo, Hhi.
    apply getVitalStatus_stable_iff. unfold inBand. cbn. lra. }
  split; [apply Hsys, generateVitalUpdate_inRange|].
  split; [apply Hdia, generateVitalUpdate_inRange|].
  split; [apply Hsp, generateVitalUpdate_inRange|].
  intros vitalType; destruct vitalType; reflexivity.
Qed.

Lemma simulated_critical_sides_witness :
  160 < fst (generateVitalUpdate (rt := scripted [1 # 2; 0; 1] []) 180 systolic
               Trend.critical world0).
Proof.
  apply (proj1 (proj2 (proj2 (proj2 (proj2
           (simulated_critical_sides (scripted [1 # 2; 0; 1] []) 180
              Trend.critical world0)))))).
  vm_compute; reflexivity.
Defined.

(** ** generateVitalHistory at the edge *)

(** X5.  For a count of zero or less [generateVitalHistory] returns the
    empty history, yet it has read the clock once and drawn the baseline;
    for a count of one it returns the baseline alone, stamped with the
    call time, and draws nothing more. *)
Theorem generateVitalHistory_small_count (rt : JsRuntime) fuel vitalType count
    intervalMs trend w history w' :
  (count <= 1)%Z ->
  generateVitalHistory fuel vitalType count intervalMs trend w
  = Some (history, w') ->
  exists first,
    generateBaselineValue fuel vitalType trend (snd (Date_now w))
    = Some (first, w')
    /\ ((count <= 0)%Z -> history = [])
    /\ (count = 1%Z ->
        history = [mkVitalSign (clock_read (now_calls w)) first]).
Proof.
  intros Hcount.
  unfold generateVitalHistory, bindL, lift. cbn [Date_now snd].
  destruct (generateBaselineValue fuel vitalType trend _) as [[first w1]|];
    [|discriminate].
  destruct (Z.to_nat count) as [|[|n]] eqn:En; [| |lia].
  - cbn [historyLoop]. unfold ret. intros [= <- <-].
    exists first. split; [reflexivity|]. split; [reflexivity|]. lia.
  - assert (count = 1%Z) by lia. subst count.
    cbn [historyLoop]. cbn. unfold ret. intros [= <- <-].
    exists first. split; [reflexivity|]. split; [lia|].
    intros _. repeat f_equal. lia.
Qed.

Lemma generateVitalHistory_small_count_witness :
  exists first,
    generateBaselineValue (rt := scripted [1 # 4; 1 # 2; 0] [7000%Z]) 1 spo2
      Trend.critical (mkWorld 0 1 []) = Some (first, mkWorld 3 1 [])
    /\ ((1 <= 0)%Z -> [mkVitalSign 7000 85] = [])
    /\ (1%Z = 1%Z -> [mkVitalSign 7000 85] = [mkVitalSign 7000 first]).
Proof.
  apply (generateVitalHistory_small_count (scripted [1 # 4; 1 # 2; 0] [7000%Z])
           1 spo2 1 30000 Trend.critical world0 [mkVitalSign 7000 85]
           (mkWorld 3 1 [])).
  - lia.
  - vm_compute; reflexivity.
Defined.

(** ** calculatePatientStatus *)

Lemma getSigns_setSigns_eq vitals vitalType signs :
  getSigns (setSigns vitals vitalType signs) vitalType = signs.
Proof. destruct vitals, vitalType; reflexivity. Qed.

Lemma getSigns_setSigns_ne vitals vitalType other signs :
  other <> vitalType ->
  getSigns (setSigns vitals vitalType signs) other = getSigns vitals other.
Proof. destruct vitals, vitalType, other; intros H; try reflexivity; congruence. Qed.

Lemma last_pushSign currentSigns newSign :
  last (pushSign currentSigns newSign) = Some newSign.
Proof.
  unfold pushSign. destruct (MAX_HISTORY_POINTS <? _)%nat eqn:E.
  - apply Nat.ltb_lt in E. rewrite length_app in E. cbn [length] in E.
    unfold MAX_HISTORY_POINTS in E.
    destruct currentSigns as [|a l]; [simpl in E; lia|].
    cbn [app tail]. apply last_snoc.
  - apply last_snoc.
Qed.

Lemma length_pushSign currentSigns newSign :
  length (pushSign currentSigns newSign)
  = Nat.min (S (length currentSigns)) (Nat.max MAX_HISTORY_POINTS (length currentSigns)).
Proof.
  unfold pushSign. rewrite length_app. cbn [length].
  destruct (MAX_HISTORY_POINTS <? _)%nat eqn:E.
  - apply Nat.ltb_lt in E. rewrite length_tl, length_app. cbn [length]. lia.
  - apply Nat.ltb_ge in E. rewrite length_app. cbn [length]. lia.
Qed.

Lemma classic_warning (vitals : VitalSigns.t) :
  (exists vitalType s,
     last (getSigns vitals vitalType) = Some s
     /\ getVitalStatus (value s) vitalType = warning)
  \/ ~ (exists vitalType s,
          last (getSigns vitals vitalType) = Some s
          /\ getVitalStatus (value s) vitalType = warning).
Proof.
  destruct (existsb (fun o => match o with Some warning => true | _ => false end)
              (map (latestStatus vitals) vitalTypes)) eqn:E.
  - left. apply existsb_latestStatus in E as [vt Hvt].
    exists vt. apply latestStatus_some.
    destruct (latestStatus vitals vt) as [[]|]; congruence.
  - right. intros (vt & s & Hl & Hst).
    assert (H : existsb (fun o => match o with Some warning => true | _ => false end)
                  (map (latestStatus vitals) vitalTypes) = true).
    { apply existsb_latestStatus. exists vt.
      assert (Hv : latestStatus vitals vt = Some warning)
        by (apply latestStatus_some; eauto).
      rewrite Hv. reflexivity. }
    congruence.
Qed.

(** X6.  [calculatePatientStatus] returns [warning] if and only if some
    vital classifies warning on its latest sample and none classifies
    critical; it depends on the latest sample of each series only. *)
Theorem calculatePatientStatus_warning (vitals : VitalSigns.t) :
  (calculatePatientStatus vitals = warning <->
     (exists vitalType s,
        last (getSigns vitals vitalType) = Some s
        /\ getVitalStatus (value s) vitalType = warning)
     /\ ~ (exists vitalType s,
             last (getSigns vitals vitalType) = Some s
             /\ getVitalStatus (value s) vitalType = critical))
  /\ (forall other,
        (forall vitalType,
           last (getSigns other vitalType) = last (getSigns vitals vitalType)) ->
        calculatePatientStatus other = calculatePatientStatus vitals).
Proof.
  split.
  - pose proof (calculatePatientStatus_critical vitals) as Hc.
    pose proof (calculatePatientStatus_stable vitals) as Hs.
    assert (Hcrit : (exists vitalType s,
                       last (getSigns vitals vitalType) = Some s
                       /\ getVitalStatus (value s) vitalType = critical)
                    <-> calculatePatientStatus vitals = critical).
    { rewrite Hc. split; intros [vt H]; exists vt; apply latestStatus_some; exact H. }
    rewrite Hcrit. split.
    + intros Hw. split; [|congruence].
      destruct (classic_warning vitals) as [H|H]; [exact H|].
      exfalso. assert (calculatePatientStatus vitals = stable); [|congruence].
      apply Hs. intros vt st Hl. destruct st; [reflexivity| |].
      * exfalso. apply H. apply latestStatus_some in Hl. eauto.
      * exfalso. assert (calculatePatientStatus vitals = critical); [|congruence].
        apply Hc. eauto.
    + intros [(vt & s & Hl & Hst) Hn].
      destruct (calculatePatientStatus vitals) eqn:E; [|reflexivity|congruence].
      exfalso. pose proof (proj1 Hs eq_refl vt warning) as Hall.
      rewrite latestStatus_some in Hall.
      assert (warning = stable) by (apply Hall; eauto). discriminate.
  - intros other Heq. rewrite !calculatePatientStatus_eq. cbv zeta.
    assert (Hm : map (latestStatus other) vitalTypes
                 = map (latestStatus vitals) vitalTypes).
    { apply map_ext. intros vt. unfold latestStatus. rewrite Heq. reflexivity. }
    rewrite Hm. reflexivity.
Qed.

Lemma calculatePatientStatus_warning_witness :
  calculatePatientStatus
    (VitalSigns.mk [mkVitalSign 2 110] [] [] [] [])
  = calculatePatientStatus
      (VitalSigns.mk [mkVitalSign 1 75; mkVitalSign 2 110] [] [] [] []).
Proof.
  apply (proj2 (calculatePatientStatus_warning
                  (VitalSigns.mk [mkVitalSign 1 75; mkVitalSign 2 110] [] [] [] []))).
  intros vitalType; destruct vitalType; reflexivity.
Defined.

(** X7.  A sample pushed onto a series decides at once: when the new
    sample classifies critical the patient is critical, whatever the
    other series hold and whether or not the window was full, and the
    patient can only be stable when the new sample classifies stable. *)
Theorem pushed_sample_decides (vitals : VitalSigns.t) (vitalType : VitalType)
    (newSign : VitalSign) :
  let updated :=
    setSigns vitals vitalType (pushSign (getSigns vitals vitalType) newSign) in
  (getVitalStatus (value newSign) vitalType = critical ->
   calculatePatientStatus updated = critical)
  /\ (calculatePatientStatus updated = stable ->
      getVitalStatus (value newSign) vitalType = stable).
Proof.
  intros updated.
  assert (Hl : latestStatus updated vitalType
               = Some (getVitalStatus (value newSign) vitalType)).
  { unfold latestStatus, updated.
    rewrite getSigns_setSigns_eq, last_pushSign. reflexivity. }
  split.
  - intros Hc. apply calculatePatientStatus_critical.
    exists vitalType. rewrite Hl, Hc. reflexivity.
  - intros Hs. rewrite calculatePatientStatus_stable in Hs.
    apply (Hs vitalType). exact Hl.
Qed.

Lemma pushed_sample_decides_witness :
  calculatePatientStatus
    (setSigns (VitalSigns.mk [mkVitalSign 1 75] [mkVitalSign 1 120] [] [] [])
       spo2 (pushSign [] (mkVitalSign 2 88)))
  = critical.
Proof.
  apply (proj1 (pushed_sample_decides
                  (VitalSigns.mk [mkVitalSign 1 75] [mkVitalSign 1 120] [] [] [])
                  spo2 (mkVitalSign 2 88))).
  reflexivity.
Defined.

(** ** initializeVitals and getPatientVitals *)

Section InitFacts.
Context {rt : JsRuntime}.

Lemma history_fullInRange fuel vitalType trend w history w' :
  generateVitalHistory fuel vitalType 10 30000 trend w = Some (history, w') ->
  fullInRange vitalType history
  /\ now_calls w' = S (now_calls w)
  /\ console w' = console w.
Proof.
  intros H. pose proof H as H0. revert H0.
  change 10%Z with (Z.of_nat 10) in H.
  apply generateVitalHistory_shape in H as (Hlen & _ & Hchain & Hin & Hk).
  intros H0. split; [split; assumption|]. split; [exact Hk|].
  destruct Hchain as (first & w1 & rest & Hb & Hc & _).
  assert (Hcb : console w1 = console w).
  { revert Hb. unfold generateBaselineValue, gaussianRandom, bindL, retL, lift.
    cbn [Date_now snd Math_random].
    destruct trend;
      (destruct (resample fuel _ _) as [[u1 wu]|] eqn:Er; [|discriminate]);
      apply resample_clock in Er as [_ Er]; cbn in Er;
      intros [= _ <-]; cbn; exact Er. }
  rewrite <- Hcb. clear -Hc.
  revert first w1 rest w' Hc. generalize (10 - 1)%nat as n.
  induction n as [|n IH]; intros first w1 rest w' Hc.
  - cbn in Hc. unfold ret in Hc. congruence.
  - cbn [advanceChain] in Hc. unfold bind, ret in Hc.
    pose proof (proj2 (generateVitalUpdate_clock first vitalType trend w1)) as Hu.
    destruct (generateVitalUpdate first vitalType trend w1) as [v w2].
    destruct (advanceChain n v vitalType trend w2) as [rest' w3] eqn:E.
    apply IH in E. cbn [snd] in Hu. injection Hc as _ <-. congruence.
Qed.

Lemma initializeAllVitals_shape fuel patientTrend w vitals w' :
  initializeAllVitals fuel patientTrend w = Some (vitals, w') ->
  (forall vitalType, fullInRange vitalType (getSigns vitals vitalType))
  /\ now_calls w' = (now_calls w + 5)%nat
  /\ console w' = console w.
Proof.
  unfold initializeAllVitals, bindL, retL.
  destruct (generateVitalHistory fuel heartRate _ _ _ w) as [[hr wa]|] eqn:E1;
    [|discriminate].
  destruct (generateVitalHistory fuel systolic _ _ _ wa) as [[sy wb]|] eqn:E2;
    [|discriminate].
  destruct (generateVitalHistory fuel diastolic _ _ _ wb) as [[di wc]|] eqn:E3;
    [|discriminate].
  destruct (generateVitalHistory fuel spo2 _ _ _ wc) as [[sp wd]|] eqn:E4;
    [|discriminate].
  destruct (generateVitalHistory fuel temperature _ _ _ wd) as [[te we]|] eqn:E5;
    [|discriminate].
  intros [= <- <-].
  apply history_fullInRange in E1 as (F1 & K1 & C1), E2 as (F2 & K2 & C2),
    E3 as (F3 & K3 & C3), E4 as (F4 & K4 & C4), E5 as (F5 & K5 & C5).
  split; [|split; [lia|congruence]].
  intros vitalType; destruct vitalType; assumption.
Qed.

End InitFacts.

Lemma initializeVitals_effect (rt : JsRuntime) fuel patientId initialTrend
    state w state' w' :
  initializeVitals fuel patientId initialTrend state w = Some (state', w') ->
  (exists vitals,
     initializeAllVitals fuel initialTrend w = Some (vitals, w')
     /\ getPatientVitals patientId state' = Some vitals
     /\ forall vitalType,
          length (getSigns vitals vitalType) = 10%nat
          /\ Forall (fun s => inRange vitalType (value s))
               (getSigns vitals vitalType))
  /\ (forall other, other <> patientId ->
        getPatientVitals other state' = getPatientVitals other state)
  /\ isSimulating state' = isSimulating state
  /\ simulationInterval state' = simulationInterval state
  /\ now_calls w' = (now_calls w + 5)%nat
  /\ console w' = console w.
Proof.
  unfold initializeVitals, bindL, retL, getPatientVitals.
  destruct (initializeAllVitals fuel initialTrend w) as [[vitals w1]|] eqn:E;
    [|discriminate].
  intros [= <- <-].
  apply initializeAllVitals_shape in E as (Hfull & Hk & Hc).
  cbn [merge patientVitals isSimulating simulationInterval p_patientVitals
       p_isSimulating p_simulationInterval default].
  split.
  - exists vitals. split; [reflexivity|]. split; [apply lookup_insert_eq|].
    intros vitalType. exact (Hfull vitalType).
  - split; [|auto].
    intros other Hne. apply lookup_insert_ne. congruence.
Qed.

(** X8.  After [initializeVitals] the patient has a bundle that
    [getPatientVitals] returns: five series of exactly 10 samples, every
    value within the bounds of its vital type, whatever bundle the patient
    had before.  The bundles of all other patients and the two simulation
    fields are as before; the clock was read five times and nothing was
    written to the console. *)
Theorem initializeVitals_stores (rt : JsRuntime) fuel patientId initialTrend
    state w state' w' :
  initializeVitals fuel patientId initialTrend state w = Some (state', w') ->
  (exists vitals,
     initializeAllVitals fuel initialTrend w = Some (vitals, w')
     /\ getPatientVitals patientId state' = Some vitals
     /\ forall vitalType,
          length (getSigns vitals vitalType) = 10%nat
          /\ Forall (fun s => inRange vitalType (value s))
               (getSigns vitals vitalType))
  /\ (forall other, other <> patientId ->
        getPatientVitals other state' = getPatientVitals other state)
  /\ isSimulating state' = isSimulating state
  /\ simulationInterval state' = simulationInterval state
  /\ now_calls w' = (now_calls w + 5)%nat
  /\ console w' = console w.
Proof.
  exact (initializeVitals_effect rt fuel patientId initialTrend state w state' w').
Qed.

Lemma initializeVitals_stores_witness :
  exists fuel state' w',
    initializeVitals (rt := scripted [] []) fuel "bed-1" Trend.normal
      (mkState ∅ false None) world0 = Some (state', w')
    /\ isSimulating state' = false
    /\ now_calls w' = 5%nat
    /\ is_Some (getPatientVitals "bed-1" state').
Proof.
  destruct (initializeVitals_returns (rt := scripted [] [])
              (scripted_not_stuck [] []) "bed-1" Trend.normal
              (mkState ∅ false None) world0) as (fuel & [state' w'] & Hinit).
  exists fuel, state', w'. split; [exact Hinit|].
  destruct (initializeVitals_stores (scripted [] []) fuel "bed-1" Trend.normal
              (mkState ∅ false None) world0 state' w' Hinit)
    as ((vitals & _ & Hget & _) & _ & Hsim & _ & Hk & _).
  split; [exact Hsim|]. split; [exact Hk|]. rewrite Hget. eauto.
Defined.

(** ** updateVitals on a patient with a bundle *)

Lemma generateVitalUpdate_zero (rt : JsRuntime) vitalType trend w :
  fst (generateVitalUpdate 0 vitalType trend w)
  == VitalRange.min (VITAL_RANGES vitalType).
Proof.
  rewrite generateVitalUpdate_clamped. cbn [fst].
  rewrite nextValue_unfold. cbv zeta. cbn [fst].
  unfold clamp.
  assert (H : forall x, x <= VitalRange.min (VITAL_RANGES vitalType) ->
              Qmax (VitalRange.min (VITAL_RANGES vitalType))
                   (Qmin (VitalRange.max (VITAL_RANGES vitalType)) x)
              == VitalRange.min (VITAL_RANGES vitalType)).
  { intros x Hx. apply Q.max_l.
    eapply Qle_trans; [apply Q.le_min_r|exact Hx]. }
  apply H.
  unfold driftFor, bind, ret, driftStrength, warningTarget, criticalTarget.
  cbn [Math_random snd fst rand_calls].
  destruct trend, vitalType; cbn [VITAL_RANGES VitalRange.mean VitalRange.min
    VitalRange.max];
    repeat match goal with
           | |- context [if ?c then _ else _] => destruct c
           end; cbn [fst]; lra.
Qed.

Section UpdateEffect.
Context {rt : JsRuntime}.

Lemma updateOne_effect currentVitals trendBias updatedVitals vitalType w :
  exists newSign w',
    updateOne currentVitals trendBias updatedVitals vitalType w
    = (setSigns updatedVitals vitalType
         (pushSign (getSigns currentVitals vitalType) newSign), w')
    /\ value newSign
       = fst (generateVitalUpdate (getLatestValue (getSigns currentVitals vitalType))
                vitalType trendBias w)
    /\ timestamp newSign = clock_read (now_calls w)
    /\ now_calls w' = S (now_calls w)
    /\ console w' = console w.
Proof.
  unfold updateOne, bind, ret. rewrite getLatestValue_eq.
  pose proof (generateVitalUpdate_clock
                (match last (getSigns currentVitals vitalType) with
                 | Some lastSign => value lastSign
                 | None => 0
                 end) vitalType trendBias w) as [Hk Hc].
  destruct (generateVitalUpdate _ vitalType trendBias w) as [v w1].
  cbn [snd fst] in *. unfold Date_now. rewrite Hk.
  eexists. eexists. split; [reflexivity|]. cbn. repeat split; auto.
Qed.

Lemma forEach_updateOne_effect currentVitals trendBias w :
  exists updatedVitals w',
    forEach vitalTypes (updateOne currentVitals trendBias) currentVitals w
    = (updatedVitals, w')
    /\ now_calls w' = (now_calls w + 5)%nat
    /\ console w' = console w
    /\ forall vitalType, exists newSign wv,
         getSigns updatedVitals vitalType
         = pushSign (getSigns currentVitals vitalType) newSign
         /\ value newSign
            = fst (generateVitalUpdate
                     (getLatestValue (getSigns currentVitals vitalType))
                     vitalType trendBias wv)
         /\ (now_calls w <= now_calls wv < now_calls w + 5)%nat
         /\ timestamp newSign = clock_read (now_calls wv).
Proof.
  unfold vitalTypes. cbn [forEach]. unfold bind, ret.
  destruct (updateOne_effect currentVitals trendBias currentVitals heartRate w)
    as (s1 & w1 & -> & V1 & T1 & K1 & C1).
  match goal with |- context [updateOne _ _ ?acc systolic w1] =>
    destruct (updateOne_effect currentVitals trendBias acc systolic w1)
      as (s2 & w2 & -> & V2 & T2 & K2 & C2) end.
  match goal with |- context [updateOne _ _ ?acc diastolic w2] =>
    destruct (updateOne_effect currentVitals trendBias acc diastolic w2)
      as (s3 & w3 & -> & V3 & T3 & K3 & C3) end.
  match goal with |- context [updateOne _ _ ?acc spo2 w3] =>
    destruct (updateOne_effect currentVitals trendBias acc spo2 w3)
      as (s4 & w4 & -> & V4 & T4 & K4 & C4) end.
  match goal with |- context [updateOne _ _ ?acc temperature w4] =>
    destruct (updateOne_effect currentVitals trendBias acc temperature w4)
      as (s5 & w5 & -> & V5 & T5 & K5 & C5) end.
  eexists. eexists. split; [reflexivity|]. split; [lia|]. split; [congruence|].
  intros vitalType. destruct currentVitals as [hr sy di sp te].
  destruct vitalType; cbn [getSigns setSigns VitalSigns.heartRate
    VitalSigns.systolic VitalSigns.diastolic VitalSigns.spo2
    VitalSigns.temperature] in *.
  - exists s1, w. repeat split; auto; lia.
  - exists s2, w1. repeat split; auto; lia.
  - exists s3, w2. repeat split; auto; lia.
  - exists s4, w3. repeat split; auto; lia.
  - exists s5, w4. repeat split; auto; lia.
Qed.

End UpdateEffect.

Lemma updateVitals_effect (rt : JsRuntime) patientId state w currentVitals :
  patientVitals state !! patientId = Some currentVitals ->
  let trendBias := match calculatePatientStatus currentVitals with
                   | stable => Trend.normal
                   | warning => Trend.warning
                   | critical => Trend.critical
                   end in
  exists updatedVitals,
    patientVitals (fst (updateVitals patientId state w)) !! patientId
    = Some updatedVitals
    /\ now_calls (snd (updateVitals patientId state w)) = (now_calls w + 5)%nat
    /\ console (snd (updateVitals patientId state w)) = console w
    /\ forall vitalType,
         let currentSigns := getSigns currentVitals vitalType in
         let updatedSigns := getSigns updatedVitals vitalType in
         exists newSign wv,
           last updatedSigns = Some newSign
           /\ getLatestValue updatedSigns = value newSign
           /\ value newSign
              = fst (generateVitalUpdate (getLatestValue currentSigns)
                       vitalType trendBias wv)
           /\ inRange vitalType (value newSign)
           /\ (now_calls w <= now_calls wv < now_calls w + 5)%nat
           /\ timestamp newSign = clock_read (now_calls wv)
           /\ ((length currentSigns < 10)%nat ->
               length updatedSigns = S (length currentSigns))
           /\ ((10 <= length currentSigns)%nat ->
               length updatedSigns = length currentSigns).
Proof.
  intros Hlook trendBias.
  destruct (updateVitals_some patientId state w currentVitals Hlook)
    as (updatedVitals & w' & -> & Hfor).
  fold trendBias in Hfor.
  destruct (forEach_updateOne_effect currentVitals trendBias w)
    as (updated2 & w2 & Hfor2 & Hk & Hc & Hsigns).
  rewrite Hfor in Hfor2. injection Hfor2 as <- <-.
  exists updatedVitals. cbn [fst snd patientVitals].
  split; [apply lookup_insert_eq|]. split; [exact Hk|]. split; [exact Hc|].
  intros vitalType. cbv zeta.
  destruct (Hsigns vitalType) as (newSign & wv & Hs & Hv & Hj & Ht).
  exists newSign, wv. rewrite Hs.
  split; [apply last_pushSign|].
  split; [rewrite getLatestValue_eq, last_pushSign; reflexivity|].
  split; [exact Hv|].
  split; [rewrite Hv; apply generateVitalUpdate_inRange|].
  split; [exact Hj|]. split; [exact Ht|].
  rewrite length_pushSign. unfold MAX_HISTORY_POINTS.
  split; intros; lia.
Qed.

(** X9.  For a patient with a bundle [updateVitals] pushes one sample
    onto each of the five series: the new sample is the last one, its
    value is [generateVitalUpdate] of the previous latest value under the
    trend of the patient's status before the call, it lies within the
    bounds, and its timestamp is one of the five clock readings of the
    call.  A series shorter than 10 grows by one; a series of 10 or more
    keeps its length, so the window is never trimmed by more than the one
    sample that was pushed.  Nothing is written to the console. *)
Theorem updateVitals_pushes (rt : JsRuntime) patientId state w currentVitals :
  patientVitals state !! patientId = Some currentVitals ->
  let trendBias := match calculatePatientStatus currentVitals with
                   | stable => Trend.normal
                   | warning => Trend.warning
                   | critical => Trend.critical
                   end in
  exists updatedVitals,
    patientVitals (fst (updateVitals patientId state w)) !! patientId
    = Some updatedVitals
    /\ now_calls (snd (updateVitals patientId state w)) = (now_calls w + 5)%nat
    /\ console (snd (updateVitals patientId state w)) = console w
    /\ forall vitalType,
         let currentSigns := getSigns currentVitals vitalType in
         let updatedSigns := getSigns updatedVitals vitalType in
         exists newSign wv,
           last updatedSigns = Some newSign
           /\ getLatestValue updatedSigns = value newSign
           /\ value newSign
              = fst (generateVitalUpdate (getLatestValue currentSigns)
                       vitalType trendBias wv)
           /\ inRange vitalType (value newSign)
           /\ (now_calls w <= now_calls wv < now_calls w + 5)%nat
           /\ timestamp newSign = clock_read (now_calls wv)
           /\ ((length currentSigns < 10)%nat ->
               length updatedSigns = S (length currentSigns))
           /\ ((10 <= length currentSigns)%nat ->
               length updatedSigns = length currentSigns).
Proof.
  exact (updateVitals_effect rt patientId state w currentVitals).
Qed.

Lemma updateVitals_pushes_witness :
  exists updatedVitals,
    patientVitals
      (fst (updateVitals (rt := scripted [] []) "bed-1"
              (mkState (<["bed-1" := VitalSigns.mk [mkVitalSign 0 75] [] [] [] []]> ∅)
                 true (Some 3%Z)) world0)) !! "bed-1"
    = Some updatedVitals
    /\ now_calls
         (snd (updateVitals (rt := scripted [] []) "bed-1"
                 (mkState (<["bed-1" := VitalSigns.mk [mkVitalSign 0 75] [] [] [] []]> ∅)
                    true (Some 3%Z)) world0)) = 5%nat.
Proof.
  assert (Hl : patientVitals
                 (mkState (<["bed-1" := VitalSigns.mk [mkVitalSign 0 75] [] [] [] []]> ∅)
                    true (Some 3%Z)) !! "bed-1"
               = Some (VitalSigns.mk [mkVitalSign 0 75] [] [] [] []))
    by (vm_compute; reflexivity).
  pose proof (updateVitals_pushes (scripted [] []) "bed-1" _ world0 _ Hl) as H.
  cbv zeta in H. destruct H as (updatedVitals & Hlook & Hk & _).
  exists updatedVitals. split; [exact Hlook | exact Hk].
Defined.

Lemma getVitalStatus_Qeq (v v' : Q) (vitalType : VitalType) :
  v == v' -> getVitalStatus v vitalType = getVitalStatus v' vitalType.
Proof.
  intros H. unfold getVitalStatus.
  assert (E1 : forall a, Qle_bool a v = Qle_bool a v')
    by (intros a; apply Qleb_comp; [reflexivity | exact H]).
  assert (E2 : forall a, Qle_bool v a = Qle_bool v' a)
    by (intros a; apply Qleb_comp; [exact H | reflexivity]).
  rewrite !E1, !E2. reflexivity.
Qed.

(** X10.  The zero that [updateVitals] uses as the latest value of an
    empty series is clamped up: [generateVitalUpdate] of 0 is the lower
    bound of the vital type, for every regime and whatever is drawn.  So
    one update of a bundle whose series are all empty stores the lower
    bound in each series, and the patient, stable for want of data before
    the call, is critical after it. *)
Theorem empty_series_update (rt : JsRuntime) patientId state w :
  (forall vitalType trend w0,
      fst (generateVitalUpdate 0 vitalType trend w0)
      == VitalRange.min (VITAL_RANGES vitalType))
  /\ (patientVitals state !! patientId = Some createEmptyVitals ->
      exists updatedVitals,
        patientVitals (fst (updateVitals patientId state w)) !! patientId
        = Some updatedVitals
        /\ (forall vitalType, exists newSign,
              getSigns updatedVitals vitalType = [newSign]
              /\ value newSign == VitalRange.min (VITAL_RANGES vitalType))
        /\ calculatePatientStatus createEmptyVitals = stable
        /\ calculatePatientStatus updatedVitals = critical).
Proof.
  split; [intros; apply generateVitalUpdate_zero|].
  intros Hlook.
  pose proof (updateVitals_effect rt patientId state w createEmptyVitals Hlook) as H.
  cbv zeta in H. destruct H as (updatedVitals & Hl & _ & _ & Hsigns).
  exists updatedVitals. split; [exact Hl|].
  assert (Hone : forall vitalType, exists newSign,
            getSigns updatedVitals vitalType = [newSign]
            /\ value newSign == VitalRange.min (VITAL_RANGES vitalType)).
  { intros vitalType.
    destruct (Hsigns vitalType) as (newSign & wv & Hlast & _ & Hv & _ & _ & _ & Hlen & _).
    exists newSign. split.
    - assert (Hl1 : length (getSigns updatedVitals vitalType) = 1%nat).
      { rewrite Hlen; destruct vitalType; cbn; lia. }
      destruct (getSigns updatedVitals vitalType) as [|a [|b l]];
        cbn in Hl1; try lia. cbn in Hlast. congruence.
    - rewrite Hv.
      replace (getLatestValue (getSigns createEmptyVitals vitalType)) with 0
        by (destruct vitalType; reflexivity).
      apply generateVitalUpdate_zero. }
  split; [exact Hone|]. split; [reflexivity|].
  apply calculatePatientStatus_critical. exists heartRate.
  destruct (Hone heartRate) as (newSign & Hs & Hv).
  unfold latestStatus. rewrite Hs. cbn.
  rewrite (getVitalStatus_Qeq _ _ heartRate Hv). reflexivity.
Qed.

Lemma empty_series_update_witness :
  exists updatedVitals,
    patientVitals
      (fst (updateVitals (rt := scripted [] []) "bed-1"
              (mkState (<["bed-1" := createEmptyVitals]> ∅) false None) world0))
      !! "bed-1" = Some updatedVitals
    /\ calculatePatientStatus updatedVitals = critical.
Proof.
  assert (Hl : patientVitals (mkState (<["bed-1" := createEmptyVitals]> ∅) false None)
               !! "bed-1" = Some createEmptyVitals)
    by (vm_compute; reflexivity).
  destruct (proj2 (empty_series_update (scripted [] []) "bed-1" _ world0) Hl)
    as (updatedVitals & Hlook & _ & _ & Hc).
  exists updatedVitals. split; [exact Hlook | exact Hc].
Defined.

(** ** The window of an initialised patient *)

Section WindowFull.
Context {rt : JsRuntime}.

Lemma pushSign_fullInRange vitalType signs newSign :
  fullInRange vitalType signs -> inRange vitalType (value newSign) ->
  fullInRange vitalType (pushSign signs newSign).
Proof.
  intros [Hlen Hin] Hv. split.
  - rewrite length_pushSign, Hlen. unfold MAX_HISTORY_POINTS. lia.
  - assert (Hall : Forall (fun s => inRange vitalType (value s)) (signs ++ [newSign])).
    { apply Forall_app. split; [exact Hin|]. constructor; [exact Hv|constructor]. }
    unfold pushSign. destruct (MAX_HISTORY_POINTS <? _)%nat;
      [apply Forall_tail|]; exact Hall.
Qed.

Lemma updateVitals_keeps_full patientId other state w :
  (exists vitals, patientVitals state !! patientId = Some vitals
                  /\ forall vitalType, fullInRange vitalType (getSigns vitals vitalType)) ->
  exists vitals,
    patientVitals (fst (updateVitals other state w)) !! patientId = Some vitals
    /\ forall vitalType, fullInRange vitalType (getSigns vitals vitalType).
Proof.
  intros (vitals & Hlook & Hfull).
  destruct (patientVitals state !! other) as [currentVitals|] eqn:E.
  - destruct (decide (other = patientId)) as [->|Hne].
    + assert (vitals = currentVitals) by congruence. subst vitals.
      pose proof (updateVitals_effect rt patientId state w currentVitals E) as H.
      cbv zeta in H. destruct H as (updatedVitals & Hl & _ & _ & Hsigns).
      exists updatedVitals. split; [exact Hl|].
      intros vitalType.
      destruct (Hsigns vitalType) as (newSign & wv & Hlast & _ & _ & Hin & _ & _ & _ & Hlen).
      destruct (Hfull vitalType) as [Hl10 Hall].
      split; [rewrite Hlen; [exact Hl10 | rewrite Hl10; unfold MAX_HISTORY_POINTS; lia]|].
      destruct (updateVitals_some patientId state w currentVitals E)
        as (updated2 & w' & Heq & Hfor).
      destruct (forEach_updateOne_effect currentVitals
                  match calculatePatientStatus currentVitals with
                  | stable => Trend.normal
                  | warning => Trend.warning
                  | critical => Trend.critical
                  end w) as (updated3 & w3 & Hfor3 & _ & _ & Hs3).
      rewrite Hfor in Hfor3. injection Hfor3 as <- <-.
      rewrite Heq in Hl. cbn [fst patientVitals] in Hl.
      rewrite lookup_insert_eq in Hl. injection Hl as <-.
      destruct (Hs3 vitalType) as (s3 & wv3 & Hpush & Hv3 & _).
      rewrite Hpush. apply pushSign_fullInRange; [apply Hfull|].
      rewrite Hv3. apply generateVitalUpdate_inRange.
    + destruct (updateVitals_some other state w currentVitals E)
        as (updatedVitals & w' & -> & _).
      exists vitals. cbn [fst patientVitals].
      split; [rewrite lookup_insert_ne by exact Hne; exact Hlook | exact Hfull].
  - rewrite (updateVitals_none other state w E). cbn [fst].
    exists vitals. split; [exact Hlook | exact Hfull].
Qed.

Lemma tick_keeps_full patientId patientIds : forall state w,
  (exists vitals, patientVitals state !! patientId = Some vitals
                  /\ forall vitalType, fullInRange vitalType (getSigns vitals vitalType)) ->
  exists vitals,
    patientVitals (fst (tick patientIds state w)) !! patientId = Some vitals
    /\ forall vitalType, fullInRange vitalType (getSigns vitals vitalType).
Proof.
  unfold tick. induction patientIds as [|other patientIds IH]; intros state w Hok.
  - exact Hok.
  - cbn [forEach]. unfold bind.
    pose proof (updateVitals_keeps_full patientId other state w Hok) as Hstep.
    destruct (updateVitals other state w) as [state' w']. cbn [fst] in Hstep.
    apply IH, Hstep.
Qed.

End WindowFull.

(** X11.  After [initializeVitals] and any sequence of [updateVitals]
    calls, whatever the clock does, each of the five series of the patient
    holds exactly 10 samples, every stored value lies within the bounds of
    its vital type, and so does the value [getLatestValue] reports. *)
Theorem initialised_window_full (rt : JsRuntime) fuel patientId initialTrend
    state0 w0 state1 w1 patientIds :
  initializeVitals fuel patientId initialTrend state0 w0 = Some (state1, w1) ->
  exists vitals,
    patientVitals (fst (tick patientIds state1 w1)) !! patientId = Some vitals
    /\ forall vitalType,
         length (getSigns vitals vitalType) = 10%nat
         /\ Forall (fun s => inRange vitalType (value s)) (getSigns vitals vitalType)
         /\ inRange vitalType (getLatestValue (getSigns vitals vitalType)).
Proof.
  intros Hinit.
  apply initializeVitals_effect in Hinit as ((v0 & _ & Hget & Hfull) & _).
  destruct (tick_keeps_full patientId patientIds state1 w1) as (vitals & Hlook & Hok).
  { exists v0. split; [exact Hget|]. intros vitalType. exact (Hfull vitalType). }
  exists vitals. split; [exact Hlook|].
  intros vitalType. destruct (Hok vitalType) as [Hlen Hin].
  split; [exact Hlen|]. split; [exact Hin|].
  rewrite getLatestValue_eq.
  destruct (last (getSigns vitals vitalType)) as [s|] eqn:El.
  - rewrite Forall_forall in Hin. apply Hin.
    rewrite last_lookup in El. eapply list_elem_of_lookup_2. exact El.
  - apply last_None in El. rewrite El in Hlen. discriminate.
Qed.

Lemma initialised_window_full_witness :
  exists fuel state1 w1,
    initializeVitals (rt := scripted [] []) fuel "bed-1" Trend.critical
      (mkState ∅ false None) world0 = Some (state1, w1)
    /\ exists vitals,
         patientVitals
           (fst (tick (rt := scripted [] []) ["bed-1"; "bed-1"; "bed-9"] state1 w1))
           !! "bed-1" = Some vitals
         /\ forall vitalType,
              length (getSigns vitals vitalType) = 10%nat
              /\ Forall (fun s => inRange vitalType (value s))
                   (getSigns vitals vitalType)
              /\ inRange vitalType (getLatestValue (getSigns vitals vitalType)).
Proof.
  destruct (initializeVitals_returns (rt := scripted [] [])
              (scripted_not_stuck [] []) "bed-1" Trend.critical
              (mkState ∅ false None) world0) as (fuel & [state1 w1] & Hinit).
  exists fuel, state1, w1. split; [exact Hinit|].
  exact (initialised_window_full (scripted [] []) fuel "bed-1" Trend.critical
           (mkState ∅ false None) world0 state1 w1 ["bed-1"; "bed-1"; "bed-9"] Hinit).
Defined.

(** ** The window under any clock *)

Lemma initializeAllVitals_stamps (rt : JsRuntime) fuel patientTrend w vitals w' :
  initializeAllVitals fuel patientTrend w = Some (vitals, w') ->
  map timestamp (getSigns vitals heartRate)
  = spec_timestamps 0 10 10 30000 (clock_read (now_calls w)).
Proof.
  unfold initializeAllVitals, bindL, retL. intros H.
  destruct (generateVitalHistory fuel heartRate 10 30000 patientTrend w)
    as [[hr w1]|] eqn:E1; [|discriminate].
  destruct (generateVitalHistory fuel systolic 10 30000 patientTrend w1)
    as [[sy w2]|]; [|discriminate].
  destruct (generateVitalHistory fuel diastolic 10 30000 patientTrend w2)
    as [[di w3]|]; [|discriminate].
  destruct (generateVitalHistory fuel spo2 10 30000 patientTrend w3)
    as [[sp w4]|]; [|discriminate].
  destruct (generateVitalHistory fuel temperature 10 30000 patientTrend w4)
    as [[te w5]|]; [|discriminate].
  injection H as <- _. cbn [getSigns VitalSigns.heartRate].
  change 10%Z with (Z.of_nat 10) in E1.
  apply generateVitalHistory_shape in E1 as (_ & Hstamps & _).
  exact Hstamps.
Qed.

(** C4.  After [initializeVitals] and any sequence of [updateVitals] calls,
    whatever the clock does, every series of the patient has at most 10
    samples, and its timestamps do not decrease in insertion order when
    successive readings of [Date.now()] do not decrease; an
    [updateVitals] appends one sample to each series of its patient and,
    when the series already holds 10, drops the oldest one;
    [initializeVitals] returns, given enough loop iterations, when
    [Math.random()] is not stuck at zero. *)
Theorem history_window (rt : JsRuntime) :
  (forall fuel patientId initialTrend state0 w0 state1 w1 patientIds,
      initializeVitals fuel patientId initialTrend state0 w0 = Some (state1, w1) ->
      exists vitals,
        patientVitals (fst (tick patientIds state1 w1)) !! patientId = Some vitals
        /\ forall vitalType,
             (length (getSigns vitals vitalType) <= 10)%nat
             /\ (clock_monotone rt -> nondecreasing (getSigns vitals vitalType)))
  /\ (forall patientId state w currentVitals,
      patientVitals state !! patientId = Some currentVitals ->
      exists updatedVitals,
        patientVitals (fst (updateVitals patientId state w)) !! patientId
        = Some updatedVitals
        /\ forall vitalType, exists newSign,
             let currentSigns := getSigns currentVitals vitalType in
             ((length currentSigns < 10)%nat ->
                getSigns updatedVitals vitalType = currentSigns ++ [newSign])
             /\ (forall oldest rest,
                   currentSigns = oldest :: rest ->
                   length currentSigns = 10%nat ->
                   getSigns updatedVitals vitalType = rest ++ [newSign]))
  /\ (random_not_stuck rt ->
      forall patientId initialTrend state0 w0,
      exists fuel state1 w1,
        initializeVitals fuel patientId initialTrend state0 w0 = Some (state1, w1)).
Proof.
  split; [|split].
  - intros fuel patientId initialTrend state0 w0 state1 w1 patientIds Hinit.
    pose proof Hinit as Heff.
    apply initializeVitals_effect in Heff as ((v0 & _ & Hget & Hfull) & _).
    destruct (tick_keeps_full patientId patientIds state1 w1)
      as (vitals & Hlook & Hok).
    { exists v0. split; [exact Hget|]. intros vitalType. exact (Hfull vitalType). }
    exists vitals. split; [exact Hlook|].
    intros vitalType. split.
    + destruct (Hok vitalType) as [Hlen _]. rewrite Hlen. apply Nat.le_refl.
    + intros Hclock.
      apply (initializeVitals_ok Hclock) in Hinit.
      destruct (tick_ok Hclock patientId patientIds state1 w1 Hinit)
        as (vitals' & Hlook' & Hok').
      rewrite Hlook in Hlook'. injection Hlook' as <-.
      destruct (Hok' vitalType) as (_ & Hnd & _). exact Hnd.
  - intros patientId state w currentVitals Hlook.
    destruct (updateVitals_some patientId state w currentVitals Hlook)
      as (updatedVitals & w' & -> & Hfor).
    destruct (forEach_updateOne currentVitals
                match calculatePatientStatus currentVitals with
                | stable => Trend.normal
                | warning => Trend.warning
                | critical => Trend.critical
                end w) as (updated2 & w2 & Hfor2 & _ & Hsigns).
    rewrite Hfor in Hfor2. injection Hfor2 as <- <-.
    exists updatedVitals. cbn [fst patientVitals].
    split; [apply lookup_insert_eq|].
    intros vitalType. destruct (Hsigns vitalType) as (v & j & _ & ->).
    exists (mkVitalSign (clock_read j) v). cbv zeta.
    apply pushSign_cases.
  - intros Hrnd patientId initialTrend state0 w0.
    destruct (initializeVitals_returns Hrnd patientId initialTrend state0 w0)
      as (fuel & [state1 w1] & H).
    exists fuel, state1, w1. exact H.
Qed.

Lemma history_window_witness :
  exists fuel state1 w1,
    initializeVitals (rt := scripted [] []) fuel "bed-1" Trend.normal
      (mkState ∅ false None) world0 = Some (state1, w1)
    /\ exists vitals,
         patientVitals
           (fst (tick (rt := scripted [] []) ["bed-1"; "bed-2"; "bed-1"]
                   state1 w1)) !! "bed-1" = Some vitals
         /\ forall vitalType,
              (length (getSigns vitals vitalType) <= 10)%nat
              /\ nondecreasing (getSigns vitals vitalType).
Proof.
  pose proof (history_window (scripted [] [])) as (Hwindow & _ & Hreturns).
  destruct (Hreturns (scripted_not_stuck [] []) "bed-1" Trend.normal
              (mkState ∅ false None) world0) as (fuel & state1 & w1 & Hinit).
  exists fuel, state1, w1. split; [exact Hinit|].
  destruct (Hwindow fuel "bed-1" Trend.normal (mkState ∅ false None) world0
              state1 w1 ["bed-1"; "bed-2"; "bed-1"] Hinit)
    as (vitals & Hlook & Hok).
  exists vitals. split; [exact Hlook|].
  intros vitalType. destruct (Hok vitalType) as [Hlen Hnd].
  split; [exact Hlen | exact (Hnd (scripted_clock_monotone []))].
Defined.

(** C4, as stated.  With the clock set back after the initialisation, the
    heart-rate series of an initialised patient ends, after one
    [updateVitals], in a sample stamped 100000 followed by one stamped
    50: its timestamps decrease. *)
Lemma history_window_clock_counterexample :
  exists fuel state1 w1 vitals previous newest,
    initializeVitals (rt := clockSetBack) fuel "bed-1" Trend.normal
      (mkState ∅ false None) world0 = Some (state1, w1)
    /\ patientVitals (fst (tick (rt := clockSetBack) ["bed-1"] state1 w1))
         !! "bed-1" = Some vitals
    /\ getSigns vitals heartRate !! 8%nat = Some previous
    /\ getSigns vitals heartRate !! 9%nat = Some newest
    /\ timestamp previous = 100000%Z
    /\ timestamp newest = 50%Z
    /\ ~ nondecreasing (getSigns vitals heartRate).
Proof.
  destruct (initializeVitals_returns (rt := clockSetBack)
              (scripted_not_stuck _ _) "bed-1" Trend.normal
              (mkState ∅ false None) world0) as (fuel & [state1 w1] & Hinit).
  pose proof Hinit as Heff.
  apply initializeVitals_effect in Heff
    as ((v0 & Hall & Hget & Hfull) & _ & _ & _ & Hnow & _).
  pose proof (initializeAllVitals_stamps _ _ _ _ _ _ Hall) as Hstamps.
  destruct (Hfull heartRate) as [Hlen _].
  unfold getPatientVitals in Hget.
  destruct (updateVitals_some (rt := clockSetBack) "bed-1" state1 w1 v0 Hget)
    as (updatedVitals & w' & Hupd & Hfor).
  destruct (forEach_updateOne_effect (rt := clockSetBack) v0
              match calculatePatientStatus v0 with
              | stable => Trend.normal
              | warning => Trend.warning
              | critical => Trend.critical
              end w1) as (updated2 & w2 & Hfor2 & _ & _ & Hsigns).
  rewrite Hfor in Hfor2. injection Hfor2 as <- <-.
  destruct (Hsigns heartRate) as (newSign & wv & Hpush & _ & Hrange & Hstamp).
  destruct (getSigns v0 heartRate) as [|s0 [|s1 [|s2 [|s3 [|s4 [|s5 [|s6 [|s7
    [|s8 [|s9 [|s10 rest]]]]]]]]]]] eqn:Ehr; try discriminate Hlen.
  assert (Hspec : spec_timestamps 0 10 10 30000
                    (clock_read (JsRuntime := clockSetBack) (now_calls world0))
                  = [-170000; -140000; -110000; -80000; -50000; -20000;
                     10000; 40000; 70000; 100000]%Z) by (vm_compute; reflexivity).
  rewrite Hspec in Hstamps. cbn [map] in Hstamps.
  injection Hstamps as _ _ _ _ _ _ _ _ _ H9.
  assert (Hnew : timestamp newSign = 50%Z).
  { rewrite Hstamp. rewrite Hnow in Hrange. cbn [now_calls world0] in Hrange.
    assert (Hj : (now_calls wv = 5 \/ now_calls wv = 6 \/ now_calls wv = 7
                  \/ now_calls wv = 8 \/ now_calls wv = 9)%nat) by lia.
    destruct Hj as [-> | [-> | [-> | [-> | ->]]]]; reflexivity. }
  assert (Hlook : patientVitals (fst (tick (rt := clockSetBack) ["bed-1"] state1 w1))
                    !! "bed-1" = Some updatedVitals).
  { unfold tick. cbn [forEach]. unfold bind, ret. rewrite Hupd.
    cbn [fst patientVitals]. apply lookup_insert_eq. }
  exists fuel, state1, w1, updatedVitals, s9, newSign.
  split; [exact Hinit|]. split; [exact Hlook|].
  rewrite Hpush.
  split; [reflexivity|]. split; [reflexivity|].
  split; [exact H9|]. split; [exact Hnew|].
  intros Hnd.
  pose proof (Hnd 8%nat 9%nat s9 newSign (Nat.le_succ_diag_r 8) eq_refl eq_refl) as Hle.
  rewrite H9, Hnew in Hle. lia.
Qed.

(** ** clearVitals, stopSimulation and startSimulation *)

Section SimulationFacts.
Context {rt : JsRuntime}.

Lemma tick_absent patientIds : forall state w,
  (forall patientId, In patientId patientIds ->
                     patientVitals state !! patientId = None) ->
  tick patientIds state w
  = (state,
     mkWorld (rand_calls w) (now_calls w)
       (console w
        ++ map (fun patientId => ("No vitals found for patient " ++ patientId)%string)
             patientIds)).
Proof.
  unfold tick. induction patientIds as [|patientId patientIds IH]; intros state w Habs.
  - cbn. unfold ret. rewrite app_nil_r. destruct w; reflexivity.
  - cbn [forEach]. unfold bind.
    rewrite (updateVitals_none patientId state w) by (apply Habs; left; reflexivity).
    rewrite IH by (intros p Hp; apply Habs; right; exact Hp).
    cbn [rand_calls now_calls console map]. rewrite <- app_assoc. reflexivity.
Qed.

Lemma stop_owned_timers state b :
  ownsTimers state b -> timers (snd (stopSimulation state b)) = ∅.
Proof.
  intros Hown. unfold stopSimulation. cbn [snd].
  apply map_eq. intros k. rewrite lookup_empty.
  destruct (simulationInterval state) as [h|] eqn:E.
  - cbn [clearInterval timers]. rewrite lookup_delete.
    destruct (decide (h = k)) as [->|Hne]; [reflexivity|].
    destruct (timers b !! k) eqn:Ek; [|reflexivity].
    exfalso. assert (Hk : simulationInterval state = Some k)
      by (apply Hown; rewrite Ek; eauto).
    congruence.
  - destruct (timers b !! k) eqn:Ek; [|reflexivity].
    exfalso. assert (Hk : simulationInterval state = Some k)
      by (apply Hown; rewrite Ek; eauto).
    congruence.
Qed.

Lemma initializeMissing_effect fuel patientIds : forall state w state' w',
  initializeMissing fuel patientIds state w = Some (state', w') ->
  isSimulating state' = isSimulating state
  /\ simulationInterval state' = simulationInterval state
  /\ (forall patientId vitals,
        patientVitals state !! patientId = Some vitals ->
        patientVitals state' !! patientId = Some vitals)
  /\ (forall patientId, In patientId patientIds ->
        is_Some (patientVitals state' !! patientId))
  /\ (forall patientId, ~ In patientId patientIds ->
        patientVitals state' !! patientId = patientVitals state !! patientId)
  /\ (forall patientId vitals,
        patientVitals state !! patientId = None ->
        patientVitals state' !! patientId = Some vitals ->
        forall vitalType, fullInRange vitalType (getSigns vitals vitalType)).
Proof.
  induction patientIds as [|p patientIds IH]; intros state w state' w'.
  - cbn. unfold retL. intros [= <- <-].
    split; [reflexivity|]. split; [reflexivity|]. split; [auto|].
    split; [intros q []|]. split; [reflexivity|].
    intros q v Hn Hs. congruence.
  - cbn [initializeMissing]. unfold bindL.
    destruct (patientVitals state !! p) as [existing|] eqn:Ep.
    + unfold retL at 1. intros H. apply IH in H as (H1 & H2 & H3 & H4 & H5 & H6).
      split; [exact H1|]. split; [exact H2|]. split; [exact H3|].
      split; [|split].
      * intros q [<-|Hq]; [rewrite (H3 _ _ Ep); eauto | apply H4, Hq].
      * intros q Hq. apply H5. intros Hin. apply Hq. right. exact Hin.
      * exact H6.
    + destruct (initializeVitals fuel p Trend.normal state w) as [[state1 w1]|] eqn:Ei;
        [|discriminate].
      intros H. apply IH in H as (H1 & H2 & H3 & H4 & H5 & H6).
      apply initializeVitals_effect in Ei
        as ((v0 & _ & Hget & Hfull) & Hother & Hsim & Hint & _).
      unfold getPatientVitals in *.
      split; [congruence|]. split; [congruence|]. split; [|split; [|split]].
      * intros q vitals Hq. apply H3. rewrite Hother; [exact Hq|]. congruence.
      * intros q [<-|Hq]; [rewrite (H3 _ _ Hget); eauto | apply H4, Hq].
      * intros q Hq. rewrite H5 by (intros Hin; apply Hq; right; exact Hin).
        apply Hother. intros ->. apply Hq. left. reflexivity.
      * intros q vitals Hnone Hsome.
        destruct (decide (q = p)) as [->|Hne].
        -- rewrite (H3 _ _ Hget) in Hsome. injection Hsome as <-.
           intros vitalType. split; apply (Hfull vitalType).
        -- apply (H6 q vitals); [|exact Hsome]. rewrite Hother; assumption.
Qed.

Lemma initializeMissing_returns (Hrnd : random_not_stuck rt) patientIds :
  forall state w, exists fuel0 r, forall fuel, (fuel0 <= fuel)%nat ->
    initializeMissing fuel patientIds state w = Some r.
Proof.
  induction patientIds as [|p patientIds IH]; intros state w.
  - exists 0%nat, (state, w). intros fuel _. reflexivity.
  - cbn [initializeMissing]. unfold bindL.
    destruct (patientVitals state !! p) as [existing|].
    + destruct (IH state w) as (f0 & r & H). exists f0, r. intros fuel Hf.
      unfold retL at 1. apply H, Hf.
    + destruct (initializeAllVitals_returns Hrnd Trend.normal w)
        as (f1 & [vitals w1] & H1).
      destruct (IH (merge state (mkPartial (Some (<[p := vitals]> (patientVitals state)))
                                   None None)) w1) as (f2 & r & H2).
      exists (f1 + f2)%nat, r. intros fuel Hf.
      unfold initializeVitals, bindL, retL. rewrite H1 by lia.
      apply H2. lia.
Qed.

End SimulationFacts.

(** X12.  [clearVitals] empties the map and leaves the running flag and
    the timer handle as they are, so a timer that was running keeps
    firing: each later tick then changes nothing in the store, draws
    nothing, reads no clock, and writes one warning per patient id to the
    console, in order. *)
Theorem clearVitals_stale_ticks (rt : JsRuntime) state w patientIds :
  (forall patientId, getPatientVitals patientId (clearVitals state) = None)
  /\ isSimulating (clearVitals state) = isSimulating state
  /\ simulationInterval (clearVitals state) = simulationInterval state
  /\ tick patientIds (clearVitals state) w
     = (clearVitals state,
        mkWorld (rand_calls w) (now_calls w)
          (console w
           ++ map (fun patientId =>
                     ("No vitals found for patient " ++ patientId)%string)
                patientIds)).
Proof.
  assert (Hnone : forall patientId,
            patientVitals (clearVitals state) !! patientId = None).
  { intros patientId. unfold clearVitals. cbn. apply lookup_empty. }
  split; [exact Hnone|]. split; [reflexivity|]. split; [reflexivity|].
  apply tick_absent. intros patientId _. apply Hnone.
Qed.

(** X13.  [stopSimulation] clears the timer whose handle the store holds
    and resets the handle and the running flag, leaving the vitals alone.
    Stopping again changes nothing, the cleared timer no longer runs its
    callback, and when the store held the only timer no timer is left. *)
Theorem stopSimulation_stops (rt : JsRuntime) state b :
  let stopped := stopSimulation state b in
  isSimulating (fst stopped) = false
  /\ simulationInterval (fst stopped) = None
  /\ patientVitals (fst stopped) = patientVitals state
  /\ world (snd stopped) = world b
  /\ (forall handle, simulationInterval state = Some handle ->
        timers (snd stopped) = delete handle (timers b)
        /\ fire handle (fst stopped) (snd stopped) = stopped)
  /\ stopSimulation (fst stopped) (snd stopped) = stopped
  /\ (ownsTimers state b -> timers (snd stopped) = ∅).
Proof.
  intros stopped. subst stopped.
  split; [reflexivity|]. split; [reflexivity|]. split; [reflexivity|].
  split; [unfold stopSimulation; destruct (simulationInterval state); reflexivity|].
  split; [|split].
  - intros handle Hh. unfold stopSimulation. rewrite Hh. cbn [fst snd].
    split; [reflexivity|].
    unfold fire. cbn [clearInterval timers]. rewrite lookup_delete_eq. reflexivity.
  - unfold stopSimulation. cbn. reflexivity.
  - apply stop_owned_timers.
Qed.

Lemma stopSimulation_stops_witness :
  timers
    (snd (stopSimulation
            (mkState ∅ true (Some 7%Z))
            (mkBrowser world0 (<[7%Z := (2500%Z, ["bed-1"])]> ∅) 8)))
  = delete 7%Z (<[7%Z := (2500%Z, ["bed-1"])]> ∅).
Proof.
  pose proof (stopSimulation_stops (scripted [] [])
                (mkState ∅ true (Some 7%Z))
                (mkBrowser world0 (<[7%Z := (2500%Z, ["bed-1"])]> ∅) 8)) as H.
  cbv zeta in H. destruct H as (_ & _ & _ & _ & H & _).
  exact (proj1 (H 7%Z eq_refl)).
Defined.

Section StartFacts.
Context {rt : JsRuntime}.

Lemma startSimulation_unfold fuel patientIds state b state' b' :
  startSimulation fuel patientIds state b = Some (state', b') ->
  exists state1 state2 w2,
    patientVitals state1 = patientVitals state
    /\ initializeMissing fuel patientIds state1 (world b) = Some (state2, w2)
    /\ state' = mkState (patientVitals state2) true (Some (next_timer b))
    /\ b' = mkBrowser w2
              (<[next_timer b := (SIMULATION_INTERVAL, patientIds)]>
                 (match simulationInterval state with
                  | Some handle => delete handle (timers b)
                  | None => timers b
                  end))
              (next_timer b + 1).
Proof.
  unfold startSimulation.
  destruct (simulationInterval state) as [h|] eqn:Eh.
  - unfold stopSimulation. rewrite Eh.
    cbn [clearInterval world timers next_timer].
    destruct (initializeMissing fuel patientIds _ (world b)) as [[state2 w2]|] eqn:Ei;
      [|discriminate].
    cbn [setInterval world timers next_timer]. intros [= <- <-].
    eexists. exists state2, w2. split; [|split; [exact Ei|split; reflexivity]].
    reflexivity.
  - destruct (initializeMissing fuel patientIds state (world b)) as [[state2 w2]|] eqn:Ei;
      [|discriminate].
    cbn [setInterval world timers next_timer]. intros [= <- <-].
    exists state, state2, w2. split; [reflexivity|]. split; [exact Ei|].
    split; reflexivity.
Qed.

End StartFacts.

Lemma startSimulation_driver (rt : JsRuntime) fuel patientIds state b
    state' b' :
  startSimulation fuel patientIds state b = Some (state', b') ->
  isSimulating state' = true
  /\ simulationInterval state' = Some (next_timer b)
  /\ timers b' !! next_timer b = Some (2500%Z, patientIds)
  /\ next_timer b' = (next_timer b + 1)%Z
  /\ fire (next_timer b) state' b'
     = (fst (tick patientIds state' (world b')),
        mkBrowser (snd (tick patientIds state' (world b'))) (timers b')
          (next_timer b'))
  /\ (forall handle, simulationInterval state = Some handle ->
        handle <> next_timer b -> timers b' !! handle = None)
  /\ (ownsTimers state b ->
      timers b' = {[next_timer b := (2500%Z, patientIds)]}
      /\ ownsTimers state' b').
Proof.
  intros H.
  apply startSimulation_unfold in H as (state1 & state2 & w2 & _ & _ & -> & ->).
  cbn [isSimulating simulationInterval timers next_timer world].
  split; [reflexivity|]. split; [reflexivity|].
  split; [apply lookup_insert_eq|]. split; [reflexivity|].
  split; [|split].
  - unfold fire. cbn [timers]. rewrite lookup_insert_eq.
    destruct (tick patientIds _ _); reflexivity.
  - intros handle Hh Hne. rewrite Hh.
    rewrite lookup_insert_ne by congruence. apply lookup_delete_eq.
  - intros Hown.
    pose proof (stop_owned_timers state b Hown) as Hempty.
    unfold stopSimulation in Hempty. cbn [snd] in Hempty.
    assert (Ht : match simulationInterval state with
                 | Some handle => delete handle (timers b)
                 | None => timers b
                 end = ∅).
    { destruct (simulationInterval state); exact Hempty. }
    rewrite Ht. split; [reflexivity|].
    intros handle [x Hx]. cbn [timers simulationInterval] in *.
    destruct (decide (next_timer b = handle)) as [->|Hne]; [reflexivity|].
    rewrite lookup_insert_ne in Hx by exact Hne. rewrite lookup_empty in Hx.
    discriminate.
Qed.

(** X14.  After [startSimulation] the store is running and holds the
    handle of a new timer that fires every 2500 ms and updates exactly the
    patient ids that were passed.  A timer the store held before has been
    cleared, so when the store held the only timer before the call it
    holds the only timer after it: starting twice leaves one driver. *)
Theorem startSimulation_single_driver (rt : JsRuntime) fuel patientIds state b
    state' b' :
  startSimulation fuel patientIds state b = Some (state', b') ->
  isSimulating state' = true
  /\ simulationInterval state' = Some (next_timer b)
  /\ timers b' !! next_timer b = Some (2500%Z, patientIds)
  /\ next_timer b' = (next_timer b + 1)%Z
  /\ fire (next_timer b) state' b'
     = (fst (tick patientIds state' (world b')),
        mkBrowser (snd (tick patientIds state' (world b'))) (timers b')
          (next_timer b'))
  /\ (forall handle, simulationInterval state = Some handle ->
        handle <> next_timer b -> timers b' !! handle = None)
  /\ (ownsTimers state b ->
      timers b' = {[next_timer b := (2500%Z, patientIds)]}
      /\ ownsTimers state' b').
Proof.
  exact (startSimulation_driver rt fuel patientIds state b state' b').
Qed.

Lemma startSimulation_bundles (rt : JsRuntime) patientIds state b :
  (forall fuel state' b',
      startSimulation fuel patientIds state b = Some (state', b') ->
      (forall patientId vitals,
          patientVitals state !! patientId = Some vitals ->
          patientVitals state' !! patientId = Some vitals)
      /\ (forall patientId, In patientId patientIds ->
            is_Some (patientVitals state' !! patientId))
      /\ (forall patientId, ~ In patientId patientIds ->
            patientVitals state' !! patientId = patientVitals state !! patientId)
      /\ (forall patientId vitals,
            patientVitals state !! patientId = None ->
            patientVitals state' !! patientId = Some vitals ->
            forall vitalType,
              length (getSigns vitals vitalType) = 10%nat
              /\ Forall (fun s => inRange vitalType (value s))
                   (getSigns vitals vitalType)))
  /\ (random_not_stuck rt ->
      exists fuel state' b',
        startSimulation fuel patientIds state b = Some (state', b')).
Proof.
  split.
  - intros fuel state' b' H.
    apply startSimulation_unfold in H as (state1 & state2 & w2 & Hpv & Hi & -> & _).
    apply initializeMissing_effect in Hi as (_ & _ & H3 & H4 & H5 & H6).
    rewrite Hpv in *. cbn [patientVitals].
    split; [exact H3|]. split; [exact H4|]. split; [exact H5|].
    intros patientId vitals Hn Hs vitalType. exact (H6 patientId vitals Hn Hs vitalType).
  - intros Hrnd. unfold startSimulation.
    destruct (match simulationInterval state with
              | Some _ => stopSimulation state b
              | None => (state, b)
              end) as [state1 b1].
    destruct (initializeMissing_returns Hrnd patientIds state1 (world b1))
      as (f0 & [state2 w2] & H).
    exists f0. rewrite (H f0) by lia. cbn [setInterval]. eauto.
Qed.

(** X15.  [startSimulation] initialises only the listed patients that
    have no bundle: every bundle that existed before the call is still
    the same, every listed patient has a bundle afterwards, patients that
    are not listed are untouched, and each bundle the call created holds
    five series of 10 samples within bounds.  The call returns, given
    enough loop iterations, when [Math.random()] is not stuck at zero. *)
Theorem startSimulation_initialises (rt : JsRuntime) patientIds state b :
  (forall fuel state' b',
      startSimulation fuel patientIds state b = Some (state', b') ->
      (forall patientId vitals,
          patientVitals state !! patientId = Some vitals ->
          patientVitals state' !! patientId = Some vitals)
      /\ (forall patientId, In patientId patientIds ->
            is_Some (patientVitals state' !! patientId))
      /\ (forall patientId, ~ In patientId patientIds ->
            patientVitals state' !! patientId = patientVitals state !! patientId)
      /\ (forall patientId vitals,
            patientVitals state !! patientId = None ->
            patientVitals state' !! patientId = Some vitals ->
            forall vitalType,
              length (getSigns vitals vitalType) = 10%nat
              /\ Forall (fun s => inRange vitalType (value s))
                   (getSigns vitals vitalType)))
  /\ (random_not_stuck rt ->
      exists fuel state' b',
        startSimulation fuel patientIds state b = Some (state', b')).
Proof.
  exact (startSimulation_bundles rt patientIds state b).
Qed.

Lemma startSimulation_single_driver_witness :
  startSimulation (rt := scripted [] []) 0 ["bed-1"; "bed-2"]
    (mkState (<["bed-1" := createEmptyVitals]>
                (<["bed-2" := createEmptyVitals]> ∅)) true (Some 4%Z))
    (mkBrowser world0 (<[4%Z := (2500%Z, ["bed-1"])]> ∅) 5)
  = Some (mkState (<["bed-1" := createEmptyVitals]>
                     (<["bed-2" := createEmptyVitals]> ∅)) true (Some 5%Z),
          mkBrowser world0 (<[5%Z := (2500%Z, ["bed-1"; "bed-2"])]> ∅) 6)
  /\ timers (mkBrowser world0 (<[5%Z := (2500%Z, ["bed-1"; "bed-2"])]> ∅) 6)
       !! 4%Z = None
  /\ timers (mkBrowser world0 (<[5%Z := (2500%Z, ["bed-1"; "bed-2"])]> ∅) 6)
     = {[5%Z := (2500%Z, ["bed-1"; "bed-2"])]}
  /\ ownsTimers
       (mkState (<["bed-1" := createEmptyVitals]>
                   (<["bed-2" := createEmptyVitals]> ∅)) true (Some 5%Z))
       (mkBrowser world0 (<[5%Z := (2500%Z, ["bed-1"; "bed-2"])]> ∅) 6).
Proof.
  assert (Hs : startSimulation (rt := scripted [] []) 0 ["bed-1"; "bed-2"]
                 (mkState (<["bed-1" := createEmptyVitals]>
                             (<["bed-2" := createEmptyVitals]> ∅)) true (Some 4%Z))
                 (mkBrowser world0 (<[4%Z := (2500%Z, ["bed-1"])]> ∅) 5)
               = Some (mkState (<["bed-1" := createEmptyVitals]>
                                  (<["bed-2" := createEmptyVitals]> ∅)) true
                         (Some 5%Z),
                       mkBrowser world0
                         (<[5%Z := (2500%Z, ["bed-1"; "bed-2"])]> ∅) 6))
    by (vm_compute; reflexivity).
  assert (Howns : ownsTimers
                    (mkState (<["bed-1" := createEmptyVitals]>
                                (<["bed-2" := createEmptyVitals]> ∅)) true
                       (Some 4%Z))
                    (mkBrowser world0 (<[4%Z := (2500%Z, ["bed-1"])]> ∅) 5)).
  { intros handle Hsome. cbn [timers simulationInterval] in *.
    destruct (decide (handle = 4%Z)) as [->|Hne]; [reflexivity|].
    rewrite lookup_insert_ne in Hsome by congruence.
    rewrite lookup_empty in Hsome. destruct Hsome as [x Hx]. discriminate Hx. }
  destruct (startSimulation_single_driver (scripted [] []) 0 ["bed-1"; "bed-2"]
              _ _ _ _ Hs) as (_ & _ & _ & _ & _ & Hcleared & Hsingle).
  split; [exact Hs|].
  split; [apply (Hcleared 4%Z); [reflexivity | discriminate]|].
  exact (Hsingle Howns).
Defined.

Lemma startSimulation_initialises_witness :
  exists fuel state' b',
    startSimulation (rt := scripted [] []) fuel ["bed-1"; "bed-2"]
      (mkState (<["bed-2" := createEmptyVitals]> ∅) false None)
      (mkBrowser world0 ∅ 4) = Some (state', b')
    /\ patientVitals state' !! "bed-2" = Some createEmptyVitals
    /\ exists vitals,
         patientVitals state' !! "bed-1" = Some vitals
         /\ forall vitalType,
              length (getSigns vitals vitalType) = 10%nat
              /\ Forall (fun s => inRange vitalType (value s))
                   (getSigns vitals vitalType).
Proof.
  pose proof (startSimulation_initialises (scripted [] []) ["bed-1"; "bed-2"]
                (mkState (<["bed-2" := createEmptyVitals]> ∅) false None)
                (mkBrowser world0 ∅ 4)) as [Heffect Hreturns].
  destruct (Hreturns (scripted_not_stuck [] [])) as (fuel & state' & b' & Hs).
  destruct (Heffect fuel state' b' Hs) as (Hkept & Hlisted & _ & Hcreated).
  exists fuel, state', b'. split; [exact Hs|].
  split.
  - apply Hkept. cbn [patientVitals]. apply lookup_insert_eq.
  - destruct (Hlisted "bed-1") as [vitals Hlook]; [left; reflexivity|].
    exists vitals. split; [exact Hlook|].
    apply (Hcreated "bed-1" vitals); [|exact Hlook].
    cbn [patientVitals]. rewrite lookup_insert_ne by discriminate.
    apply lookup_empty.
Defined.

(** ** calculateTrend *)

Lemma calculateTrend_window (signs : list VitalSign) (a b : VitalSign) :
  signs = [a; b] \/ (exists older m, signs = older ++ [a; m; b]) ->
  VitalIndicator.calculateTrend signs
  = if Qltb (Qabs (value b - value a)) (Qabs (value a * 0.02))
    then VitalIndicator.stable
    else if Qgtb (value b - value a) 0 then VitalIndicator.up
         else VitalIndicator.down.
Proof.
  intros [->|(older & m & ->)].
  - reflexivity.
  - unfold VitalIndicator.calculateTrend.
    rewrite length_app. cbn [length].
    replace (length older + 3 <? 2)%nat with false by (symmetry; apply Nat.ltb_ge; lia).
    replace (length older + 3 - 3)%nat with (length older) by lia.
    rewrite drop_app_length. cbn [head]. 
    change (last [a; m; b]) with (Some b). reflexivity.
Qed.

(** X16.  [calculateTrend] is stable for fewer than two samples.
    Otherwise it looks at the last three samples only (both of them when
    there are two): with d the last value minus the first of those and t
    the magnitude of 2% of that first value, it is stable exactly when
    |d| < t, up exactly when |d| >= t and d > 0, and down exactly when
    |d| >= t and d <= 0.  When that first value is 0 the trend is never
    stable, and an unchanged zero reading is reported as down. *)
Theorem calculateTrend_cases (signs : list VitalSign) :
  ((length signs < 2)%nat ->
   VitalIndicator.calculateTrend signs = VitalIndicator.stable)
  /\ (forall a b,
        signs = [a; b] \/ (exists older m, signs = older ++ [a; m; b]) ->
        let d := value b - value a in
        let t := Qabs (value a * 0.02) in
        (VitalIndicator.calculateTrend signs = VitalIndicator.stable
         <-> Qabs d < t)
        /\ (VitalIndicator.calculateTrend signs = VitalIndicator.up
            <-> t <= Qabs d /\ 0 < d)
        /\ (VitalIndicator.calculateTrend signs = VitalIndicator.down
            <-> t <= Qabs d /\ d <= 0)
        /\ (value a == 0 ->
            VitalIndicator.calculateTrend signs <> VitalIndicator.stable)
        /\ (value a == 0 -> value b == 0 ->
            VitalIndicator.calculateTrend signs = VitalIndicator.down)).
Proof.
  split.
  - intros Hlen. unfold VitalIndicator.calculateTrend.
    replace (length signs <? 2)%nat with true by (symmetry; apply Nat.ltb_lt; lia).
    reflexivity.
  - intros a b Hshape d t.
    rewrite (calculateTrend_window signs a b Hshape). fold d. fold t.
    assert (Hiff :
      ((if Qltb (Qabs d) t then VitalIndicator.stable
        else if Qgtb d 0 then VitalIndicator.up else VitalIndicator.down)
       = VitalIndicator.stable <-> Qabs d < t)
      /\ ((if Qltb (Qabs d) t then VitalIndicator.stable
           else if Qgtb d 0 then VitalIndicator.up else VitalIndicator.down)
          = VitalIndicator.up <-> t <= Qabs d /\ 0 < d)
      /\ ((if Qltb (Qabs d) t then VitalIndicator.stable
           else if Qgtb d 0 then VitalIndicator.up else VitalIndicator.down)
          = VitalIndicator.down <-> t <= Qabs d /\ d <= 0)).
    { destruct (Qltb (Qabs d) t) eqn:E1.
      - apply Qltb_true in E1.
        repeat split; try discriminate; try tauto;
          intros [H _]; exfalso; exact (Qlt_not_le _ _ E1 H).
      - apply Qltb_false in E1. destruct (Qgtb d 0) eqn:E2.
        + apply Qgtb_true in E2.
          repeat split; try discriminate; try tauto;
            try (intros H; exfalso; exact (Qlt_not_le _ _ H E1));
            intros [_ H]; exfalso; exact (Qlt_not_le _ _ E2 H).
        + apply Qgtb_false in E2.
          repeat split; try discriminate; try tauto;
            try (intros H; exfalso; exact (Qlt_not_le _ _ H E1));
            intros [_ H]; exfalso; exact (Qlt_not_le _ _ H E2). }
    destruct Hiff as (Hst & Hup & Hdn).
    split; [exact Hst|]. split; [exact Hup|]. split; [exact Hdn|].
    assert (Hzero : value a == 0 -> t == 0).
    { intros Ha. unfold t. rewrite Ha. reflexivity. }
    split.
    + intros Ha Hs. apply Hst in Hs. rewrite (Hzero Ha) in Hs.
      pose proof (Qabs_nonneg d) as Hd. exact (Qlt_not_le _ _ Hs Hd).
    + intros Ha Hb. apply Hdn. rewrite (Hzero Ha).
      split; [apply Qabs_nonneg|]. unfold d. rewrite Ha, Hb. discriminate.
Qed.

Lemma calculateTrend_cases_witness :
  VitalIndicator.calculateTrend
    [mkVitalSign 1 80; mkVitalSign 2 0; mkVitalSign 3 75; mkVitalSign 4 0]
  = VitalIndicator.down.
Proof.
  apply (proj2 (calculateTrend_cases
                  [mkVitalSign 1 80; mkVitalSign 2 0; mkVitalSign 3 75; mkVitalSign 4 0])
           (mkVitalSign 2 0) (mkVitalSign 4 0)).
  - right. exists [mkVitalSign 1 80], (mkVitalSign 3 75). reflexivity.
  - reflexivity.
  - reflexivity.
Defined.

(** ** The dashboard: sorted patients and counts *)

Lemma hasStatus_true (st : PatientStatus) (p : PatientWithVitals.t) :
  hasStatus st p = true <-> statusOf p = st.
Proof. unfold hasStatus. destruct (statusOf p), st; simpl; split; congruence. Qed.

Lemma insertSorted_critical x l :
  statusOf x = critical -> insertSorted byPriority x l = x :: l.
Proof.
  intros Hx. destruct l as [|y l]; [reflexivity|]. cbn [insertSorted].
  unfold byPriority. rewrite Hx.
  destruct (statusOf y); reflexivity.
Qed.

Lemma insertSorted_after x before rest :
  Forall (fun y => (priority (statusOf y) < priority (statusOf x))%Z) before ->
  Forall (fun y => (priority (statusOf x) <= priority (statusOf y))%Z) rest ->
  insertSorted byPriority x (before ++ rest) = before ++ x :: rest.
Proof.
  intros Hb Hr. induction before as [|y before IH].
  - cbn [app]. destruct rest as [|z rest]; [reflexivity|].
    cbn [insertSorted]. inversion Hr; subst.
    replace (byPriority x z <=? 0)%Z with true
      by (symmetry; apply Z.leb_le; unfold byPriority; lia).
    reflexivity.
  - inversion Hb; subst. cbn [app insertSorted].
    replace (byPriority x y <=? 0)%Z with false
      by (symmetry; apply Z.leb_gt; unfold byPriority; lia).
    rewrite IH by assumption. reflexivity.
Qed.

Lemma filter_status_Forall st (l : list PatientWithVitals.t) :
  Forall (fun y => statusOf y = st) (filter (fun p => hasStatus st p = true) l).
Proof.
  induction l as [|x l IH]; [constructor|].
  rewrite filter_cons. destruct (decide (hasStatus st x = true)) as [H|H];
    [constructor; [apply hasStatus_true, H | exact IH] | exact IH].
Qed.

Lemma filter_cons_status st (x : PatientWithVitals.t) l :
  filter (fun p => hasStatus st p = true) (x :: l)
  = if PatientStatus_eqb (statusOf x) st
    then x :: filter (fun p => hasStatus st p = true) l
    else filter (fun p => hasStatus st p = true) l.
Proof.
  rewrite filter_cons.
  destruct (decide (hasStatus st x = true)) as [H|H]; unfold hasStatus in H.
  - rewrite H. reflexivity.
  - destruct (PatientStatus_eqb (statusOf x) st); [congruence | reflexivity].
Qed.

Lemma Array_sort_byPriority (l : list PatientWithVitals.t) :
  Array_sort byPriority l
  = filter (fun p => hasStatus critical p = true) l
    ++ filter (fun p => hasStatus warning p = true) l
    ++ filter (fun p => hasStatus stable p = true) l.
Proof.
  induction l as [|x l IH]; [reflexivity|].
  cbn [Array_sort]. rewrite IH. rewrite !filter_cons_status.
  pose proof (filter_status_Forall critical l) as Hc.
  pose proof (filter_status_Forall warning l) as Hw.
  pose proof (filter_status_Forall stable l) as Hs.
  destruct (statusOf x) eqn:Ex; cbn [PatientStatus_eqb].
  - rewrite app_assoc. rewrite insertSorted_after.
    + rewrite <- app_assoc. reflexivity.
    + apply Forall_app. split;
        [eapply Forall_impl; [exact Hc|] | eapply Forall_impl; [exact Hw|]];
        intros y Hy; cbv beta in *; rewrite Hy, Ex; cbn; lia.
    + eapply Forall_impl; [exact Hs|].
      intros y Hy; cbv beta in *; rewrite Hy, Ex; cbn; lia.
  - rewrite insertSorted_after; [reflexivity| |].
    + eapply Forall_impl; [exact Hc|].
      intros y Hy; cbv beta in *; rewrite Hy, Ex; cbn; lia.
    + apply Forall_app. split;
        [eapply Forall_impl; [exact Hw|] | eapply Forall_impl; [exact Hs|]];
        intros y Hy; cbv beta in *; rewrite Hy, Ex; cbn; lia.
  - apply insertSorted_critical, Ex.
Qed.

Lemma filter_status_filter st st' (l : list PatientWithVitals.t) :
  filter (fun p => hasStatus st p = true) (filter (fun p => hasStatus st' p = true) l)
  = if PatientStatus_eqb st' st then filter (fun p => hasStatus st' p = true) l else [].
Proof.
  induction l as [|x l IH]; [destruct (PatientStatus_eqb st' st); reflexivity|].
  rewrite (filter_cons (fun p => hasStatus st' p = true)).
  destruct (decide (hasStatus st' x = true)) as [H|H]; [|exact IH].
  rewrite filter_cons, IH. apply hasStatus_true in H.
  destruct (decide (hasStatus st x = true)) as [H2|H2].
  - apply hasStatus_true in H2.
    replace (PatientStatus_eqb st' st) with true
      by (rewrite <- H, <- H2; destruct (statusOf x); reflexivity).
    reflexivity.
  - destruct (PatientStatus_eqb st' st) eqn:E; [|reflexivity].
    exfalso. apply H2. apply hasStatus_true.
    rewrite H. destruct st, st'; simpl in E; congruence.
Qed.

Lemma length_by_status (l : list PatientWithVitals.t) :
  length l
  = (length (filter (fun p => hasStatus critical p = true) l)
     + length (filter (fun p => hasStatus warning p = true) l)
     + length (filter (fun p => hasStatus stable p = true) l))%nat.
Proof.
  induction l as [|x l IH]; [reflexivity|].
  rewrite !filter_cons_status.
  destruct (statusOf x); cbn [PatientStatus_eqb length]; lia.
Qed.

(** X17.  The dashboard lists the patients with the status computed from
    their vitals, the stored status being ignored, the critical ones
    first, then the warning ones, then the stable ones, each group in the
    order of the input.  The three counts it shows add up to the number
    of patients, and the stable count, obtained by subtraction, is the
    number of stable patients. *)
Theorem sortedPatients_groups (patients : list PatientWithVitals.t) :
  let shown := map withStatus patients in
  sortedPatients patients
  = filter (fun p => hasStatus critical p = true) shown
    ++ filter (fun p => hasStatus warning p = true) shown
    ++ filter (fun p => hasStatus stable p = true) shown
  /\ (forall p, statusOf (withStatus p)
                = calculatePatientStatus (PatientWithVitals.vitals p))
  /\ length (sortedPatients patients) = length patients
  /\ criticalCount (sortedPatients patients)
     = Z.of_nat (length (filter (fun p => hasStatus critical p = true) shown))
  /\ warningCount (sortedPatients patients)
     = Z.of_nat (length (filter (fun p => hasStatus warning p = true) shown))
  /\ stableCount (sortedPatients patients)
     = Z.of_nat (length (filter (fun p => hasStatus stable p = true) shown))
  /\ (criticalCount (sortedPatients patients)
      + warningCount (sortedPatients patients)
      + stableCount (sortedPatients patients))%Z
     = Z.of_nat (length patients).
Proof.
  intros shown.
  assert (Hsort : sortedPatients patients
                  = filter (fun p => hasStatus critical p = true) shown
                    ++ filter (fun p => hasStatus warning p = true) shown
                    ++ filter (fun p => hasStatus stable p = true) shown)
    by apply Array_sort_byPriority.
  assert (Hlen : length (sortedPatients patients) = length patients).
  { rewrite Hsort, !length_app.
    rewrite <- (length_map withStatus patients). fold shown.
    pose proof (length_by_status shown) as Hall. lia. }
  assert (Hc : criticalCount (sortedPatients patients)
               = Z.of_nat (length (filter (fun p => hasStatus critical p = true) shown))).
  { unfold criticalCount. rewrite Hsort, !filter_app, !filter_status_filter.
    cbn. rewrite app_nil_r. reflexivity. }
  assert (Hw : warningCount (sortedPatients patients)
               = Z.of_nat (length (filter (fun p => hasStatus warning p = true) shown))).
  { unfold warningCount. rewrite Hsort, !filter_app, !filter_status_filter.
    cbn. rewrite app_nil_r. reflexivity. }
  assert (Hs : stableCount (sortedPatients patients)
               = Z.of_nat (length (filter (fun p => hasStatus stable p = true) shown))).
  { unfold stableCount. rewrite Hc, Hw, Hlen.
    rewrite <- (length_map withStatus patients). fold shown.
    pose proof (length_by_status shown) as Hall. lia. }
  split; [exact Hsort|]. split; [reflexivity|]. split; [exact Hlen|].
  split; [exact Hc|]. split; [exact Hw|]. split; [exact Hs|].
  unfold stableCount. lia.
Qed.

(** X18.  A patient without a bundle in the store is shown with empty
    vitals: the status is stable whatever status is stored with the
    patient, every latest value is 0 and every trend is stable.  This is
    how every patient is shown right after [clearVitals].  A patient with
    a bundle is shown with that bundle and the status computed from it. *)
Theorem withVitals_fallback (patientVitals0 : gmap string VitalSigns.t)
    (p : Patient.t) (now : Z) (state : VitalsState) :
  (patientVitals0 !! Patient.id p = None ->
   PatientWithVitals.vitals (withVitals patientVitals0 p now) = createEmptyVitals
   /\ statusOf (withStatus (withVitals patientVitals0 p now)) = stable
   /\ forall vitalType,
        getLatestValue
          (getSigns (PatientWithVitals.vitals (withVitals patientVitals0 p now))
             vitalType) = 0
        /\ VitalIndicator.calculateTrend
             (getSigns (PatientWithVitals.vitals (withVitals patientVitals0 p now))
                vitalType) = VitalIndicator.stable)
  /\ (forall vitals,
        patientVitals0 !! Patient.id p = Some vitals ->
        PatientWithVitals.vitals (withVitals patientVitals0 p now) = vitals
        /\ statusOf (withStatus (withVitals patientVitals0 p now))
           = calculatePatientStatus vitals)
  /\ statusOf (withStatus (withVitals (patientVitals (clearVitals state)) p now))
     = stable.
Proof.
  split; [|split].
  - intros Hnone. unfold withVitals. rewrite Hnone. cbn.
    split; [reflexivity|]. split; [reflexivity|].
    intros vitalType; destruct vitalType; split; reflexivity.
  - intros vitals Hsome. unfold withVitals. rewrite Hsome. split; reflexivity.
  - assert (Hnone : patientVitals (clearVitals state) !! Patient.id p = None)
      by (change (patientVitals (clearVitals state))
            with (∅ : gmap string VitalSigns.t); apply lookup_empty).
    unfold withVitals. rewrite Hnone. reflexivity.
Qed.

Lemma withVitals_fallback_witness :
  statusOf
    (withStatus
       (withVitals (<["bed-2" := createEmptyVitals]> ∅)
          (Patient.mk "bed-1" "Kim" 61 "301-A" "nurse-1" critical "d" "x" "c") 5))
  = stable.
Proof.
  apply (proj1 (withVitals_fallback (<["bed-2" := createEmptyVitals]> ∅)
                  (Patient.mk "bed-1" "Kim" 61 "301-A" "nurse-1" critical "d" "x" "c")
                  5 (mkState ∅ false None))).
  vm_compute; reflexivity.
Defined.

(** ** The effect that starts the monitoring *)

Section MonitoringFacts.
Context {rt : JsRuntime}.

Lemma initializeEach_effect fuel patients : forall state w state' w',
  initializeEach fuel patients state w = Some (state', w') ->
  isSimulating state' = isSimulating state
  /\ simulationInterval state' = simulationInterval state
  /\ (forall patientId,
        In patientId (map (fun p => Patient.id (PatientWithVitals.patient p)) patients) ->
        exists vitals,
          patientVitals state' !! patientId = Some vitals
          /\ forall vitalType, fullInRange vitalType (getSigns vitals vitalType))
  /\ (forall patientId,
        ~ In patientId (map (fun p => Patient.id (PatientWithVitals.patient p)) patients) ->
        patientVitals state' !! patientId = patientVitals state !! patientId).
Proof.
  induction patients as [|p patients IH]; intros state w state' w'.
  - cbn. unfold retL. intros [= <- <-].
    split; [reflexivity|]. split; [reflexivity|]. split; [intros q []|reflexivity].
  - cbn [initializeEach map]. unfold bindL.
    destruct (initializeVitals fuel _ (trendFor p) state w) as [[state1 w1]|] eqn:Ei;
      [|discriminate].
    intros H. apply IH in H as (H1 & H2 & H3 & H4).
    apply initializeVitals_effect in Ei
      as ((v0 & _ & Hget & Hfull) & Hother & Hsim & Hint & _).
    unfold getPatientVitals in *.
    split; [congruence|]. split; [congruence|]. split.
    + intros q Hq.
      destruct (in_dec String.string_dec q
                  (map (fun p => Patient.id (PatientWithVitals.patient p)) patients))
        as [Hin|Hnin]; [apply H3, Hin|].
      destruct Hq as [<-|Hq]; [|contradiction].
      exists v0. split; [rewrite (H4 _ Hnin); exact Hget|].
      intros vitalType. split; apply (Hfull vitalType).
    + intros q Hq. rewrite H4 by (intros Hin; apply Hq; right; exact Hin).
      apply Hother. intros ->. apply Hq. left. reflexivity.
Qed.

Lemma initializeEach_returns (Hrnd : random_not_stuck rt) patients :
  forall state w, exists fuel0 r, forall fuel, (fuel0 <= fuel)%nat ->
    initializeEach fuel patients state w = Some r.
Proof.
  induction patients as [|p patients IH]; intros state w.
  - exists 0%nat, (state, w). intros fuel _. reflexivity.
  - cbn [initializeEach]. unfold bindL.
    destruct (initializeAllVitals_returns Hrnd (trendFor p) w)
      as (f1 & [vitals w1] & H1).
    destruct (IH (merge state
                    (mkPartial
                       (Some (<[Patient.id (PatientWithVitals.patient p) := vitals]>
                                (patientVitals state))) None None)) w1)
      as (f2 & r & H2).
    exists (f1 + f2)%nat, r. intros fuel Hf.
    unfold initializeVitals, bindL, retL. rewrite H1 by lia.
    apply H2. lia.
Qed.

Lemma startSimulation_returns (Hrnd : random_not_stuck rt) patientIds state b :
  exists fuel0 r, forall fuel, (fuel0 <= fuel)%nat ->
    startSimulation fuel patientIds state b = Some r.
Proof.
  unfold startSimulation.
  destruct (match simulationInterval state with
            | Some _ => stopSimulation state b
            | None => (state, b)
            end) as [state1 b1].
  destruct (initializeMissing_returns Hrnd patientIds state1 (world b1))
    as (f0 & [state2 w2] & H).
  exists f0. eexists. intros fuel Hf. rewrite (H fuel Hf).
  cbn [setInterval]. reflexivity.
Qed.

Lemma startMonitoring_returns (Hrnd : random_not_stuck rt) patients state b :
  exists fuel r, startMonitoring fuel patients state b = Some r.
Proof.
  unfold startMonitoring.
  destruct (length patients =? 0)%nat; [exists 0%nat; eauto|].
  destruct (isSimulating state); [exists 0%nat; eauto|].
  destruct (initializeEach_returns Hrnd patients state (world b))
    as (f1 & [state1 w1] & H1).
  destruct (startSimulation_returns Hrnd
              (map (fun p => Patient.id (PatientWithVitals.patient p)) patients)
              state1 (mkBrowser w1 (timers b) (next_timer b)))
    as (f2 & r & H2).
  exists (f1 + f2)%nat, r.
  rewrite H1 by lia. apply H2. lia.
Qed.

End MonitoringFacts.

(** X19.  The effect of the dashboard does nothing when there are no
    patients or the store is already simulating.  Otherwise it
    (re)initialises the vitals of every listed patient and starts the
    simulation: afterwards the store is running with a timer that updates
    exactly the listed patients, every listed patient has a bundle of five
    series of 10 samples within bounds, and the bundles of patients that
    are not listed are as before.  The effect returns, given enough loop
    iterations, when [Math.random()] is not stuck at zero. *)
Theorem startMonitoring_effect (rt : JsRuntime) patients state b :
  (forall fuel state' b',
      startMonitoring fuel patients state b = Some (state', b') ->
      let patientIds :=
        map (fun p => Patient.id (PatientWithVitals.patient p)) patients in
      (patients = [] \/ isSimulating state = true -> state' = state /\ b' = b)
      /\ (patients <> [] -> isSimulating state = false ->
          isSimulating state' = true
          /\ simulationInterval state' = Some (next_timer b)
          /\ timers b' !! next_timer b = Some (2500%Z, patientIds)
          /\ (forall patientId, In patientId patientIds ->
                exists vitals,
                  patientVitals state' !! patientId = Some vitals
                  /\ forall vitalType,
                       length (getSigns vitals vitalType) = 10%nat
                       /\ Forall (fun s => inRange vitalType (value s))
                            (getSigns vitals vitalType))
          /\ (forall patientId, ~ In patientId patientIds ->
                patientVitals state' !! patientId
                = patientVitals state !! patientId)))
  /\ (random_not_stuck rt ->
      exists fuel state' b',
        startMonitoring fuel patients state b = Some (state', b')).
Proof.
  split.
  - intros fuel state' b' H patientIds. subst patientIds.
    unfold startMonitoring in H.
    destruct (length patients =? 0)%nat eqn:El.
    + injection H as <- <-. split; [auto|]. intros Hne.
      apply Nat.eqb_eq in El. destruct patients; [congruence|discriminate].
    + assert (Hne : patients <> []) by (intros ->; discriminate).
      destruct (isSimulating state) eqn:Esim.
      * injection H as <- <-. split; [auto|]. intros _ Hf. discriminate.
      * split; [intros [Hn|Hn]; [contradiction|discriminate]|].
        intros _ _.
        destruct (initializeEach fuel patients state (world b))
          as [[state1 w1]|] eqn:Ei; [|discriminate].
        apply initializeEach_effect in Ei as (_ & _ & E3 & E4).
        pose proof (startSimulation_driver rt _ _ _ _ _ _ H) as (S1 & S2 & S3 & _).
        pose proof (proj1 (startSimulation_bundles rt _ _ _) _ _ _ H)
          as (I1 & _ & I3 & _).
        cbn [next_timer] in S2, S3.
        split; [exact S1|]. split; [exact S2|]. split; [exact S3|]. split.
        -- intros patientId Hin. destruct (E3 patientId Hin) as (vitals & Hl & Hfull).
           exists vitals. split; [apply I1, Hl|].
           intros vitalType. exact (Hfull vitalType).
        -- intros patientId Hnin. rewrite (I3 patientId Hnin). apply E4, Hnin.
  - intros Hrnd.
    destruct (startMonitoring_returns Hrnd patients state b)
      as (fuel & [state' b'] & H).
    exists fuel, state', b'. exact H.
Qed.

Lemma startMonitoring_effect_witness :
  exists fuel state' b',
    startMonitoring (rt := scripted [] []) fuel
      [PatientWithVitals.mk
         (Patient.mk "bed-1" "Kim" 61 "301-A" "nurse-1" critical "d" "x" "c")
         createEmptyVitals 0;
       PatientWithVitals.mk
         (Patient.mk "bed-2" "Lee" 48 "301-B" "nurse-1" stable "d" "x" "c")
         createEmptyVitals 0]
      (mkState (<["bed-9" := createEmptyVitals]> ∅) false None)
      (mkBrowser world0 ∅ 4)
    = Some (state', b')
    /\ isSimulating state' = true
    /\ simulationInterval state' = Some 4%Z
    /\ timers b' !! 4%Z = Some (2500%Z, ["bed-1"; "bed-2"])
    /\ (exists vitals,
          patientVitals state' !! "bed-2" = Some vitals
          /\ forall vitalType,
               length (getSigns vitals vitalType) = 10%nat
               /\ Forall (fun s => inRange vitalType (value s))
                    (getSigns vitals vitalType))
    /\ patientVitals state' !! "bed-9" = Some createEmptyVitals.
Proof.
  pose proof (startMonitoring_effect (scripted [] [])
                [PatientWithVitals.mk
                   (Patient.mk "bed-1" "Kim" 61 "301-A" "nurse-1" critical
                      "d" "x" "c")
                   createEmptyVitals 0;
                 PatientWithVitals.mk
                   (Patient.mk "bed-2" "Lee" 48 "301-B" "nurse-1" stable
                      "d" "x" "c")
                   createEmptyVitals 0]
                (mkState (<["bed-9" := createEmptyVitals]> ∅) false None)
                (mkBrowser world0 ∅ 4)) as [Heffect Hreturns].
  destruct (Hreturns (scripted_not_stuck [] [])) as (fuel & state' & b' & Hs).
  pose proof (Heffect fuel state' b' Hs) as H. cbv zeta in H.
  destruct H as [_ Hwork].
  destruct (Hwork ltac:(discriminate) eq_refl) as (H1 & H2 & H3 & H4 & H5).
  exists fuel, state', b'. split; [exact Hs|].
  split; [exact H1|]. split; [exact H2|]. split; [exact H3|]. split.
  - apply H4. right. left. reflexivity.
  - rewrite H5.
    + cbn [patientVitals]. apply lookup_insert_eq.
    + cbn [map Patient.id PatientWithVitals.patient]. intros [Hin|[Hin|[]]];
        discriminate Hin.
Defined.


(** ** The patient store in localStorage *)

Section PatientApiFacts.
Context {json : Json}.

Lemma getPatients_saved patients ls :
  roundTrips patients ->
  getPatients (savePatients patients ls) = (patients, savePatients patients ls).
Proof.
  intros [Hne Hrt]. unfold getPatients, savePatients. cbn [items].
  rewrite lookup_insert_eq.
  destruct (String.eqb (JSON_stringify patients) "") eqn:E;
    [apply String.eqb_eq in E; contradiction|].
  rewrite Hrt. reflexivity.
Qed.

Lemma findIndex_none id patients :
  (forall p, In p patients -> Patient.id p <> id) -> findIndex id patients = None.
Proof.
  induction patients as [|p rest IH]; intros H; [reflexivity|]. cbn [findIndex].
  destruct (String.eqb (Patient.id p) id) eqn:E.
  - apply String.eqb_eq in E. exfalso. apply (H p); [left; reflexivity | exact E].
  - rewrite IH; [reflexivity|]. intros q Hq. apply H. right. exact Hq.
Qed.

Lemma findIndex_first id before p after :
  Patient.id p = id -> (forall q, In q before -> Patient.id q <> id) ->
  findIndex id (before ++ p :: after) = Some (length before).
Proof.
  intros Hp. induction before as [|q before IH]; intros H; cbn [app findIndex length].
  - rewrite Hp, String.eqb_refl. reflexivity.
  - destruct (String.eqb (Patient.id q) id) eqn:E.
    + apply String.eqb_eq in E. exfalso. apply (H q); [left; reflexivity | exact E].
    + rewrite IH; [reflexivity|]. intros r Hr. apply H. right. exact Hr.
Qed.

Lemma find_first id before p after :
  Patient.id p = id -> (forall q, In q before -> Patient.id q <> id) ->
  List.find (fun x => String.eqb (Patient.id x) id) (before ++ p :: after) = Some p.
Proof.
  intros Hp. induction before as [|q before IH]; intros H; cbn [app List.find].
  - rewrite Hp, String.eqb_refl. reflexivity.
  - destruct (String.eqb (Patient.id q) id) eqn:E.
    + apply String.eqb_eq in E. exfalso. apply (H q); [left; reflexivity | exact E].
    + apply IH. intros r Hr. apply H. right. exact Hr.
Qed.

Lemma getPatients_readable (ls : LocalStorage) :
  items ls !! PATIENTS_KEY = None
  \/ items ls !! PATIENTS_KEY = Some ""%string
  \/ (exists data patients,
        items ls !! PATIENTS_KEY = Some data /\ JSON_parse data = Some patients) ->
  snd (getPatients ls) = ls.
Proof.
  unfold getPatients. intros [H|[H|(data & patients & H & Hp)]]; rewrite H.
  - reflexivity.
  - reflexivity.
  - destruct (String.eqb data ""); [reflexivity|]. rewrite Hp. reflexivity.
Qed.

Lemma getPatients_unparsable (ls : LocalStorage) data :
  items ls !! PATIENTS_KEY = Some data -> data <> ""%string ->
  JSON_parse data = None ->
  getPatients ls
  = ([], mkStorage (delete PATIENTS_KEY (items ls))
           (storageErrors ls
            ++ ["Failed to parse patients from localStorage:"%string])).
Proof.
  intros H Hne Hp. unfold getPatients. rewrite H.
  destruct (String.eqb data "") eqn:E; [apply String.eqb_eq in E; contradiction|].
  rewrite Hp. reflexivity.
Qed.

End PatientApiFacts.

(** X20.  [getPatients] returns no patients, and leaves the storage
    alone, when the key is absent or holds the empty text.  When the text
    cannot be parsed it returns no patients, removes the key and reports
    one error, after which the storage reads as empty without further
    errors.  What [savePatients] wrote is what [getPatients] reads, given
    that the JSON text round-trips, and after [clearPatients] there are no
    patients. *)
Theorem getPatients_recovers (json : Json) (ls : LocalStorage) :
  (items ls !! PATIENTS_KEY = None \/ items ls !! PATIENTS_KEY = Some ""%string ->
   getPatients ls = ([], ls))
  /\ (forall data,
        items ls !! PATIENTS_KEY = Some data -> data <> ""%string ->
        JSON_parse data = None ->
        fst (getPatients ls) = []
        /\ items (snd (getPatients ls)) = delete PATIENTS_KEY (items ls)
        /\ storageErrors (snd (getPatients ls))
           = storageErrors ls ++ ["Failed to parse patients from localStorage:"%string]
        /\ getPatients (snd (getPatients ls)) = ([], snd (getPatients ls)))
  /\ (forall patients, roundTrips patients ->
        getPatients (savePatients patients ls) = (patients, savePatients patients ls))
  /\ getPatients (clearPatients ls) = ([], clearPatients ls).
Proof.
  split; [|split; [|split]].
  - intros [H|H]; unfold getPatients; rewrite H; reflexivity.
  - intros data Hd Hne Hp.
    assert (Hg : getPatients ls
                 = ([], mkStorage (delete PATIENTS_KEY (items ls))
                          (storageErrors ls
                           ++ ["Failed to parse patients from localStorage:"%string]))).
    { unfold getPatients. rewrite Hd.
      destruct (String.eqb data "") eqn:E; [apply String.eqb_eq in E; contradiction|].
      rewrite Hp. reflexivity. }
    rewrite Hg. cbn [fst snd items storageErrors].
    split; [reflexivity|]. split; [reflexivity|]. split; [reflexivity|].
    match goal with |- getPatients ?l = _ =>
      assert (Hk : items l !! PATIENTS_KEY = None) by apply lookup_delete_eq
    end.
    unfold getPatients. rewrite Hk. reflexivity.
  - intros patients. apply getPatients_saved.
  - assert (Hk : items (clearPatients ls) !! PATIENTS_KEY = None)
      by apply lookup_delete_eq.
    unfold getPatients. rewrite Hk. reflexivity.
Qed.

Lemma getPatients_recovers_witness :
  fst (getPatients (json := scriptedJson [])
         (mkStorage (<[PATIENTS_KEY := "{oops"%string]> ∅) [])) = []
  /\ items (snd (getPatients (json := scriptedJson [])
                   (mkStorage (<[PATIENTS_KEY := "{oops"%string]> ∅) [])))
     = delete PATIENTS_KEY (<[PATIENTS_KEY := "{oops"%string]> ∅)
  /\ storageErrors (snd (getPatients (json := scriptedJson [])
                           (mkStorage (<[PATIENTS_KEY := "{oops"%string]> ∅) [])))
     = [] ++ ["Failed to parse patients from localStorage:"%string]
  /\ getPatients (json := scriptedJson [])
       (snd (getPatients (json := scriptedJson [])
               (mkStorage (<[PATIENTS_KEY := "{oops"%string]> ∅) [])))
     = ([], snd (getPatients (json := scriptedJson [])
                   (mkStorage (<[PATIENTS_KEY := "{oops"%string]> ∅) []))).
Proof.
  assert (Hd : items (mkStorage (<[PATIENTS_KEY := "{oops"%string]> ∅) [])
               !! PATIENTS_KEY = Some "{oops"%string)
    by (vm_compute; reflexivity).
  pose proof (proj1 (proj2 (getPatients_recovers (scriptedJson [])
                              (mkStorage (<[PATIENTS_KEY := "{oops"%string]> ∅) [])))
                "{oops"%string Hd ltac:(discriminate) eq_refl) as H.
  cbn [items storageErrors] in H. exact H.
Defined.

(** X21.  When no stored patient has the id, [updatePatientStatus] fails
    with "Patient not found" and saves nothing: the storage is as reading
    it left it, that is unchanged when the key is absent, holds the empty
    text or holds a text that parses.  When the stored text cannot be
    parsed the call fails in the same way for every id, and the reading
    has removed the key and reported one error.  Otherwise the call
    replaces the status of the first stored patient with that id, keeps
    every other field and every other patient (a later patient with the
    same id included) and returns the changed patient, which
    [getPatientById] then returns, given that the JSON text round-trips. *)
Theorem updatePatientStatus_first_match (json : Json) id status (ls : LocalStorage) :
  ((forall p, In p (fst (getPatients ls)) -> Patient.id p <> id) ->
   updatePatientStatus id status ls
   = (inl "Patient not found"%string, snd (getPatients ls))
   /\ (items ls !! PATIENTS_KEY = None
       \/ items ls !! PATIENTS_KEY = Some ""%string
       \/ (exists data patients,
             items ls !! PATIENTS_KEY = Some data
             /\ JSON_parse data = Some patients) ->
       updatePatientStatus id status ls = (inl "Patient not found"%string, ls)))
  /\ (forall data,
        items ls !! PATIENTS_KEY = Some data -> data <> ""%string ->
        JSON_parse data = None ->
        updatePatientStatus id status ls
        = (inl "Patient not found"%string,
           mkStorage (delete PATIENTS_KEY (items ls))
             (storageErrors ls
              ++ ["Failed to parse patients from localStorage:"%string])))
  /\ (forall before p after,
        fst (getPatients ls) = before ++ p :: after ->
        Patient.id p = id ->
        (forall q, In q before -> Patient.id q <> id) ->
        updatePatientStatus id status ls
        = (inr (withPatientStatus p status),
           savePatients (before ++ withPatientStatus p status :: after)
             (snd (getPatients ls)))
        /\ Patient.id (withPatientStatus p status) = id
        /\ Patient.status (withPatientStatus p status) = status
        /\ (roundTrips (before ++ withPatientStatus p status :: after) ->
            fst (getPatientById id (snd (updatePatientStatus id status ls)))
            = Some (withPatientStatus p status))).
Proof.
  split; [|split].
  - intros Hnone.
    assert (Hfail : updatePatientStatus id status ls
                    = (inl "Patient not found"%string, snd (getPatients ls))).
    { unfold updatePatientStatus.
      destruct (getPatients ls) as [patients ls1]. cbn [fst snd] in *.
      rewrite findIndex_none by exact Hnone. reflexivity. }
    split; [exact Hfail|].
    intros Hread. rewrite Hfail, (getPatients_readable ls Hread). reflexivity.
  - intros data Hdata Hne Hparse. unfold updatePatientStatus.
    rewrite (getPatients_unparsable ls data Hdata Hne Hparse). reflexivity.
  - intros before p after Hshape Hp Hbefore.
    assert (Hupd : updatePatientStatus id status ls
                   = (inr (withPatientStatus p status),
                      savePatients (before ++ withPatientStatus p status :: after)
                        (snd (getPatients ls)))).
    { unfold updatePatientStatus.
      destruct (getPatients ls) as [patients ls1]. cbn [fst snd] in *. subst patients.
      rewrite (findIndex_first id before p after Hp Hbefore).
      rewrite list_lookup_middle by reflexivity.
      rewrite (insert_app_r_alt before (p :: after) (length before)) by lia.
      rewrite Nat.sub_diag. reflexivity. }
    split; [exact Hupd|]. split; [exact Hp|]. split; [reflexivity|].
    intros Hrt. rewrite Hupd. cbn [snd]. unfold getPatientById.
    rewrite getPatients_saved by exact Hrt. cbn [fst].
    apply find_first; [exact Hp | exact Hbefore].
Qed.

Lemma updatePatientStatus_first_match_witness :
  fst (getPatients (json := scriptedJson2 wardStored wardUpdated) wardStorage)
  = [wardPark] ++ wardKim :: [wardLee]
  /\ updatePatientStatus (json := scriptedJson2 wardStored wardUpdated)
       "p-1" critical wardStorage
     = (inr (withPatientStatus wardKim critical),
        savePatients (json := scriptedJson2 wardStored wardUpdated)
          ([wardPark] ++ withPatientStatus wardKim critical :: [wardLee])
          (snd (getPatients (json := scriptedJson2 wardStored wardUpdated)
                  wardStorage)))
  /\ fst (getPatientById (json := scriptedJson2 wardStored wardUpdated) "p-1"
            (snd (updatePatientStatus
                    (json := scriptedJson2 wardStored wardUpdated)
                    "p-1" critical wardStorage)))
     = Some (withPatientStatus wardKim critical)
  /\ items (snd (updatePatientStatus
                   (json := scriptedJson2 wardStored wardUpdated)
                   "p-1" critical wardStorage)) !! PATIENTS_KEY
     = Some "[updated]"%string
  /\ updatePatientStatus (json := scriptedJson2 wardStored wardUpdated)
       "p-7" critical wardStorage
     = (inl "Patient not found"%string, wardStorage)
  /\ updatePatientStatus (json := scriptedJson2 wardStored wardUpdated)
       "p-1" critical (mkStorage (<[PATIENTS_KEY := "{"%string]> ∅) [])
     = (inl "Patient not found"%string,
        mkStorage (delete PATIENTS_KEY (<[PATIENTS_KEY := "{"%string]> ∅))
          ([] ++ ["Failed to parse patients from localStorage:"%string])).
Proof.
  assert (Hshape : fst (getPatients (json := scriptedJson2 wardStored wardUpdated)
                          wardStorage)
                   = [wardPark] ++ wardKim :: [wardLee])
    by (vm_compute; reflexivity).
  destruct (updatePatientStatus_first_match
              (scriptedJson2 wardStored wardUpdated) "p-1" critical wardStorage)
    as (_ & _ & Hfirst).
  destruct (Hfirst [wardPark] wardKim [wardLee] Hshape eq_refl)
    as (Hupd & _ & _ & Hread).
  { intros q [<-|[]]. discriminate. }
  split; [exact Hshape|]. split; [exact Hupd|]. split.
  { apply Hread. split; [vm_compute; discriminate | vm_compute; reflexivity]. }
  split; [rewrite Hupd; vm_compute; reflexivity|].
  split.
  - apply (proj1 (updatePatientStatus_first_match
                    (scriptedJson2 wardStored wardUpdated) "p-7" critical
                    wardStorage)).
    + rewrite Hshape. intros q [<-|[<-|[<-|[]]]]; discriminate.
    + right. right. exists "[stored]"%string, wardStored.
      split; vm_compute; reflexivity.
  - assert (Hdata : items (mkStorage (<[PATIENTS_KEY := "{"%string]> ∅) [])
                      !! PATIENTS_KEY = Some "{"%string)
      by (vm_compute; reflexivity).
    assert (Hne : "{"%string <> ""%string) by discriminate.
    assert (Hparse : JSON_parse (Json := scriptedJson2 wardStored wardUpdated)
                       "{" = None) by (vm_compute; reflexivity).
    exact (proj1 (proj2 (updatePatientStatus_first_match
                           (scriptedJson2 wardStored wardUpdated) "p-1" critical
                           (mkStorage (<[PATIENTS_KEY := "{"%string]> ∅) [])))
             "{"%string Hdata Hne Hparse).
Defined.

Section DeleteFacts.
Context {json : Json}.

Lemma find_filter_removed id (patients : list Patient.t) :
  List.find (fun p => String.eqb (Patient.id p) id)
    (List.filter (fun p => negb (String.eqb (Patient.id p) id)) patients) = None.
Proof.
  induction patients as [|p rest IH]; [reflexivity|]. cbn [List.filter].
  destruct (String.eqb (Patient.id p) id) eqn:E; cbn [negb]; [exact IH|].
  cbn [List.find]. rewrite E. exact IH.
Qed.

Lemma find_filter_other id other (patients : list Patient.t) :
  other <> id ->
  List.find (fun p => String.eqb (Patient.id p) other)
    (List.filter (fun p => negb (String.eqb (Patient.id p) id)) patients)
  = List.find (fun p => String.eqb (Patient.id p) other) patients.
Proof.
  intros Hne. induction patients as [|p rest IH]; [reflexivity|].
  cbn [List.filter List.find].
  destruct (String.eqb (Patient.id p) id) eqn:E; cbn [negb].
  - apply String.eqb_eq in E.
    destruct (String.eqb (Patient.id p) other) eqn:E2; [|exact IH].
    apply String.eqb_eq in E2. congruence.
  - cbn [List.find]. destruct (String.eqb (Patient.id p) other); [reflexivity|exact IH].
Qed.

Lemma filter_filter_swap {A} (f g : A -> bool) (l : list A) :
  List.filter f (List.filter g l) = List.filter g (List.filter f l).
Proof.
  induction l as [|x l IH]; [reflexivity|]. cbn [List.filter].
  destruct (g x) eqn:Eg, (f x) eqn:Ef; cbn [List.filter];
    rewrite ?Eg, ?Ef, IH; reflexivity.
Qed.

End DeleteFacts.

(** X22.  [deletePatient] stores the patients whose id differs from the
    given one, in their order.  Given that the JSON text round-trips,
    afterwards [getPatientById] finds no patient with that id and finds
    for every other id what it found before, and [getPatientsByNurse]
    returns what it returned before without the deleted patient. *)
Theorem deletePatient_removes (json : Json) id (ls : LocalStorage) :
  let kept := List.filter (fun p => negb (String.eqb (Patient.id p) id))
                (fst (getPatients ls)) in
  items (deletePatient id ls) !! PATIENTS_KEY = Some (JSON_stringify kept)
  /\ (roundTrips kept ->
      fst (getAllPatients (deletePatient id ls)) = kept
      /\ fst (getPatientById id (deletePatient id ls)) = None
      /\ (forall other, other <> id ->
            fst (getPatientById other (deletePatient id ls))
            = fst (getPatientById other ls))
      /\ (forall nurseKey,
            fst (getPatientsByNurse nurseKey (deletePatient id ls))
            = List.filter (fun p => negb (String.eqb (Patient.id p) id))
                (fst (getPatientsByNurse nurseKey ls)))).
Proof.
  intros kept.
  assert (Hdel : deletePatient id ls = savePatients kept (snd (getPatients ls))).
  { unfold deletePatient, kept. destruct (getPatients ls); reflexivity. }
  split.
  - rewrite Hdel. unfold savePatients. cbn [items]. apply lookup_insert_eq.
  - intros Hrt. rewrite Hdel. unfold getAllPatients, getPatientById, getPatientsByNurse.
    rewrite getPatients_saved by exact Hrt. cbn [fst].
    split; [reflexivity|]. split; [apply find_filter_removed|]. split.
    + intros other Hne. destruct (getPatients ls) as [patients ls1].
      cbn [fst]. unfold kept. cbn [fst]. apply find_filter_other, Hne.
    + intros nurseKey. destruct (getPatients ls) as [patients ls1].
      cbn [fst]. unfold kept. cbn [fst]. apply filter_filter_swap.
Qed.

Lemma deletePatient_removes_witness :
  fst (getPatientById
         (json := scriptedJson
                    [Patient.mk "p-1" "Kim" 61 "301-A" "nurse-1" stable "d" "x" "c"])
         "p-1"
         (deletePatient
            (json := scriptedJson
                       [Patient.mk "p-1" "Kim" 61 "301-A" "nurse-1" stable "d" "x" "c"])
            "p-1" (mkStorage (<[PATIENTS_KEY := "[patients]"%string]> ∅) [])))
  = None.
Proof.
  pose proof (deletePatient_removes
                (scriptedJson
                   [Patient.mk "p-1" "Kim" 61 "301-A" "nurse-1" stable "d" "x" "c"])
                "p-1" (mkStorage (<[PATIENTS_KEY := "[patients]"%string]> ∅) [])) as H.
  cbv zeta in H. destruct H as [_ H].
  apply H. split; [vm_compute; discriminate | vm_compute; reflexivity].
Defined.
